(** * cowSIH backend-express: authorization gate, classification
      orchestration and store accessors

    A shallow embedding of the Express/TypeScript backend
    ([middleware/auth.middleware.ts], [services/user.service.ts],
    [services/flask.service.ts] and the three controllers) together with
    the properties its specification states about it.

    Handlers are functions in a small state-and-exception monad over a
    [World] that holds the relational tables, the Firestore mirror, the
    console and the trace of HTTP calls sent to the Flask scorer.  External
    collaborators (the Firebase token verifier, the Flask service, the
    Firestore client, the id generator) are fields of an [Env] record.

    What the model leaves out: requests are handled one at a time; the
    relational store is reachable (a Prisma call fails only on a
    constraint, a missing row or an argument that is no integer); strings
    are byte strings, text being UTF-8.  The numbers read from the query
    string are doubles; counts, sizes and times, which stay below 2^53,
    are exact integers, and confidences are rationals; dates are
    milliseconds since the epoch. *)

From Stdlib Require Import String Ascii List ZArith QArith Bool Lia.
From Stdlib Require Import Sorting.Sorted Sorting.Permutation.
Import ListNotations.

Local Open Scope string_scope.
Local Open Scope Z_scope.

(** ** JavaScript built-ins used by the handlers *)

Module Js.

(** [!!s] for a string: only the empty string is falsy. *)
Definition truthy (s : string) : bool := negb (s =? "")%string.

(** [x && ...] / [!x] on a value that is a string or [undefined]. *)
Definition truthy_opt (o : option string) : bool :=
  match o with
  | Some s => truthy s
  | None => false
  end.

(** [s.includes(sub)] *)
Fixpoint includes (s sub : string) : bool :=
  if String.prefix sub s then true
  else match s with
       | EmptyString => false
       | String _ t => includes t sub
       end.

(** [s.split(sep)] for a one-character separator. *)
Fixpoint split (sep : ascii) (s : string) : list string :=
  match s with
  | EmptyString => [EmptyString]
  | String c t =>
      if Ascii.eqb c sep then EmptyString :: split sep t
      else match split sep t with
           | [] => [String c EmptyString]
           | h :: r => String c h :: r
           end
  end.

Definition lower_ascii (c : ascii) : ascii :=
  let n := nat_of_ascii c in
  if ((65 <=? n) && (n <=? 90))%nat then ascii_of_nat (n + 32) else c.

(** [s.toLowerCase()] on ASCII text. *)
Fixpoint toLowerCase (s : string) : string :=
  match s with
  | EmptyString => EmptyString
  | String c t => String (lower_ascii c) (toLowerCase t)
  end.

Definition is_ws (c : ascii) : bool :=
  let n := nat_of_ascii c in
  ((n =? 32) || (n =? 9) || (n =? 10) || (n =? 11) || (n =? 12) || (n =? 13))%nat.

Definition is_byte (n : nat) (c : ascii) : bool := (nat_of_ascii c =? n)%nat.

(** The white space beyond ASCII, as the bytes of its UTF-8 form: U+00A0
    on two bytes; U+1680, U+2000 to U+200A, U+2028, U+2029, U+202F,
    U+205F, U+3000 and U+FEFF on three. *)
Definition is_ws2 (a b : ascii) : bool := is_byte 194 a && is_byte 160 b.

Definition is_ws3 (a b c : ascii) : bool :=
  let n := nat_of_ascii c in
  (is_byte 225 a && is_byte 154 b && is_byte 128 c)
  || (is_byte 226 a && is_byte 128 b
      && (((128 <=? n) && (n <=? 138)) || (n =? 168) || (n =? 169) || (n =? 175))%nat)
  || (is_byte 226 a && is_byte 129 b && is_byte 159 c)
  || (is_byte 227 a && is_byte 128 b && is_byte 128 c)
  || (is_byte 239 a && is_byte 187 b && is_byte 191 c).

(** The argument of [parseInt] without its leading white space. *)
Fixpoint skip_ws (s : string) : string :=
  match s with
  | String c t =>
      if is_ws c then skip_ws t
      else match t with
           | String c2 t2 =>
               if is_ws2 c c2 then skip_ws t2
               else match t2 with
                    | String c3 t3 => if is_ws3 c c2 c3 then skip_ws t3 else s
                    | EmptyString => s
                    end
           | EmptyString => s
           end
  | EmptyString => s
  end.

Definition digit_val (c : ascii) : option Z :=
  let n := nat_of_ascii c in
  if ((48 <=? n) && (n <=? 57))%nat then Some (Z.of_nat (n - 48))
  else if ((97 <=? n) && (n <=? 122))%nat then Some (Z.of_nat (n - 87))
  else if ((65 <=? n) && (n <=? 90))%nat then Some (Z.of_nat (n - 55))
  else None.

(** The longest prefix of digits of the radix, [None] when it is empty. *)
Fixpoint parse_digits (radix : Z) (s : string) (acc : option Z) : option Z :=
  match s with
  | EmptyString => acc
  | String c t =>
      match digit_val c with
      | Some d =>
          if d <? radix
          then parse_digits radix t
                 (Some (match acc with None => d | Some a => a * radix + d end))
          else acc
      | None => acc
      end
  end.

Definition strip_sign (s : string) : bool * string :=
  match s with
  | String "-" t => (true, t)
  | String "+" t => (false, t)
  | _ => (false, s)
  end.

Definition strip_hex (s : string) : Z * string :=
  match s with
  | String "0" (String "x" t) => (16, t)
  | String "0" (String "X" t) => (16, t)
  | _ => (10, s)
  end.

(** The integer that the digits of a [parseInt] argument denote, with its
    sign, before it is turned into a number; [None] when there is no digit.
    The argument is a query-string value, [undefined] when the parameter
    is absent. *)
Definition mathInt (v : option string) : option Z :=
  match v with
  | None => None
  | Some s =>
      let '(neg, s1) := strip_sign (skip_ws s) in
      let '(radix, s2) := strip_hex s1 in
      option_map (fun n => if neg then - n else n) (parse_digits radix s2 None)
  end.

(** The numbers that the handlers compute with are doubles.  Those they
    meet are NaN, the infinities and the doubles whose value is an integer;
    [-0] is not told apart from [0], which no consumer here does either
    ([||], [JSON.stringify] and the store treat them alike). *)
Inductive Number :=
| NaN
| Num (z : Z)
| Infinity (negative : bool).

(** The double nearest to the integer [z], ties to the even significand.
    Integers up to 2^53 in absolute value are doubles; a larger one keeps
    its 53 leading bits; what rounds to 2^1024 or beyond is an infinity. *)
Definition round_double (z : Z) : Number :=
  let a := Z.abs z in
  if a <=? 2 ^ 53 then Num z
  else
    let e := Z.log2 a - 52 in
    let q := a / 2 ^ e in
    let r := a mod 2 ^ e in
    let half := 2 ^ (e - 1) in
    let q' := if r <? half then q
              else if half <? r then q + 1
              else if Z.even q then q else q + 1 in
    let m := q' * 2 ^ e in
    if 2 ^ 1024 <=? m then Infinity (z <? 0) else Num (Z.sgn z * m).

(** [parseInt(v)] with no radix argument. *)
Definition parseInt (v : option string) : Number :=
  match mathInt v with
  | Some z => round_double z
  | None => NaN
  end.

(** [x || d] on numbers: NaN and 0 are falsy. *)
Definition or_num (x : Number) (d : Z) : Number :=
  match x with
  | Num n => if n =? 0 then Num d else Num n
  | NaN => Num d
  | Infinity s => Infinity s
  end.

(** [a - b] and [a * b]: the exact result, rounded. *)
Definition sub (a b : Number) : Number :=
  match a, b with
  | NaN, _ | _, NaN => NaN
  | Num x, Num y => round_double (x - y)
  | Num _, Infinity s => Infinity (negb s)
  | Infinity s, Num _ => Infinity s
  | Infinity s, Infinity s' => if Bool.eqb s s' then NaN else Infinity s
  end.

Definition mul (a b : Number) : Number :=
  match a, b with
  | NaN, _ | _, NaN => NaN
  | Num x, Num y => round_double (x * y)
  | Num x, Infinity s | Infinity s, Num x =>
      if x =? 0 then NaN else Infinity (xorb s (x <? 0))
  | Infinity s, Infinity s' => Infinity (xorb s s')
  end.

(** The ceiling of the quotient of two integers, [b <> 0]. *)
Definition ceil_div (a b : Z) : Z := - ((- a) / b).

(** [Math.ceil(a / b)] for a count [a] (an integer below 2^53).  For a
    finite [b] the result is the ceiling of the exact quotient: a quotient
    that is no integer is at least [1 / |b|] away from the integers next
    to it, which is more than half the gap between neighbouring doubles
    there, so rounding the quotient to a double never reaches them. *)
Definition Math_ceil_div (a : Z) (b : Number) : Number :=
  match b with
  | NaN => NaN
  | Num n =>
      if n =? 0 then (if a =? 0 then NaN else Infinity (a <? 0))
      else Num (ceil_div a n)
  | Infinity _ => Num 0
  end.

End Js.

(** ** JSON values of response bodies *)

#[local] Unset Elimination Schemes.
Inductive Json : Type :=
| JNull
| JBool (b : bool)
| JInt (n : Z)
| JNum (q : Q)
| JStr (s : string)
| JArr (items : list Json)
| JObj (fields : list (string * Json)).
#[local] Set Elimination Schemes.

(** [JSON.stringify] of a number: NaN and the infinities become [null]. *)
Definition JNumber (x : Js.Number) : Json :=
  match x with
  | Js.Num z => JInt z
  | Js.NaN | Js.Infinity _ => JNull
  end.

(** [!!v] for a JSON value. *)
Definition Json_truthy (v : Json) : bool :=
  match v with
  | JNull => false
  | JBool b => b
  | JInt n => negb (n =? 0)
  | JNum q => negb (Qeq_bool q 0)
  | JStr s => Js.truthy s
  | JArr _ | JObj _ => true
  end.

Definition JOptStr (o : option string) : Json :=
  match o with
  | Some s => JStr s
  | None => JNull
  end.

(** The rest pattern [{ k, ...rest } = obj]: every property but [k]. *)
Definition omit (k : string) (fields : list (string * Json)) : list (string * Json) :=
  filter (fun kv => negb (fst kv =? k)%string) fields.

Record Response := mkResponse { status : Z; body : Json }.

(** [res.status(code).json({ error: msg })] *)
Definition error_response (code : Z) (msg : string) : Response :=
  mkResponse code (JObj [("error", JStr msg)]).

(** [res.json(b)]: the status stays at Express's default, 200. *)
Definition json_response (b : Json) : Response := mkResponse 200 b.

(** ** Data model *)

Inductive UserRole := FARMER | OFFICER | ADMIN.

Definition UserRole_eqb (a b : UserRole) : bool :=
  match a, b with
  | FARMER, FARMER | OFFICER, OFFICER | ADMIN, ADMIN => true
  | _, _ => false
  end.

Definition role_name (r : UserRole) : string :=
  match r with
  | FARMER => "FARMER"
  | OFFICER => "OFFICER"
  | ADMIN => "ADMIN"
  end.

(** [Object.values(UserRole).includes(v)] and the enum value it denotes. *)
Definition role_of_string (s : string) : option UserRole :=
  if (s =? "FARMER")%string then Some FARMER
  else if (s =? "OFFICER")%string then Some OFFICER
  else if (s =? "ADMIN")%string then Some ADMIN
  else None.

(** A row of the [User] table, with the columns the code reads or writes.
    Times are milliseconds since the epoch. *)
Record User := mkUser {
  u_id : string;
  u_firebaseUid : string;
  u_email : string;
  u_name : option string;
  u_role : UserRole;
  u_profileImage : option string;
  u_isActive : bool;
  u_createdAt : Z
}.

Record BreedInfo := mkBreedInfo {
  description : option string;
  characteristics : option (list string);
  origin : option string
}.

Record Metadata := mkMetadata {
  originalFilename : string;
  fileSize : Z;
  mimeType : string;
  additionalInfo : option BreedInfo
}.

(** A row of the [Prediction] table. *)
Record Prediction := mkPrediction {
  p_id : string;
  p_userId : string;
  p_imagePath : string;
  p_breedName : string;
  p_confidence : Q;
  p_processingTime : Q;
  p_metadata : Metadata;
  p_createdAt : Z
}.

(** ** Errors, the world and the handler monad *)

(** Values that the code throws or catches; each is an [Error] in the
    sense of [instanceof]. *)
Inductive JsError :=
| Error (message : string)
| AxiosError (code : option string) (response_status : option Z) (message : string)
| PrismaError (message : string)
| FirebaseError (message : string)
| MulterError (code : string) (message : string)
| TypeError (message : string).

Definition error_message (e : JsError) : string :=
  match e with
  | Error m | AxiosError _ _ m | PrismaError m | FirebaseError m
  | MulterError _ m | TypeError m => m
  end.

(** [axios.isAxiosError(e)] *)
Definition isAxiosError (e : JsError) : bool :=
  match e with
  | AxiosError _ _ _ => true
  | _ => false
  end.

(** [error.code] and [error.response?.status] *)
Definition error_code (e : JsError) : option string :=
  match e with
  | AxiosError c _ _ => c
  | _ => None
  end.

Definition error_response_status (e : JsError) : option Z :=
  match e with
  | AxiosError _ s _ => s
  | _ => None
  end.

(** [x === v] for a value [x] that may be [undefined]. *)
Definition opt_string_eqb (x : option string) (v : string) : bool :=
  match x with
  | Some s => (s =? v)%string
  | None => false
  end.

Definition opt_Z_eqb (x : option Z) (v : Z) : bool :=
  match x with
  | Some n => n =? v
  | None => false
  end.

(** HTTP requests sent to the Flask classification service. *)
Inductive FlaskCall :=
| GetHealth
| PostPredict (filename : string).

(** A document of the Firestore collection [users]. *)
Record FirestoreDoc := mkFirestoreDoc { fs_role : string; fs_updatedAt : Z }.

Record World := mkWorld {
  users : list User;
  predictions : list Prediction;
  firestoreUsers : list (string * FirestoreDoc);
  console : list (string * option JsError);
  flaskCalls : list FlaskCall;
  clock : Z;
  nextId : nat
}.

Inductive Outcome (A : Type) : Type :=
| Ok (a : A)
| Throw (e : JsError).
Arguments Ok {A} a.
Arguments Throw {A} e.

(** An asynchronous computation: it reads and writes the world and either
    resolves or rejects.  A rejection keeps the effects made before it. *)
Definition M (A : Type) : Type := World -> Outcome A * World.

Definition ret {A} (a : A) : M A := fun w => (Ok a, w).

Definition throw {A} (e : JsError) : M A := fun w => (Throw e, w).

Definition bind {A B} (m : M A) (k : A -> M B) : M B :=
  fun w =>
    match m w with
    | (Ok a, w') => k a w'
    | (Throw e, w') => (Throw e, w')
    end.

(** [try { m } catch (error) { h error }] *)
Definition try_catch {A} (m : M A) (h : JsError -> M A) : M A :=
  fun w =>
    match m w with
    | (Ok a, w') => (Ok a, w')
    | (Throw e, w') => h e w'
    end.

Declare Scope monad_scope.
Delimit Scope monad_scope with monad.
Notation "x <- m ;; k" := (bind m (fun x => k))
  (at level 100, m at next level, right associativity) : monad_scope.
Notation "m ;;; k" := (bind m (fun _ => k))
  (at level 100, right associativity) : monad_scope.
Local Open Scope monad_scope.

Definition set_users (us : list User) (w : World) : World :=
  mkWorld us (predictions w) (firestoreUsers w) (console w) (flaskCalls w)
          (clock w) (nextId w).

Definition set_predictions (ps : list Prediction) (w : World) : World :=
  mkWorld (users w) ps (firestoreUsers w) (console w) (flaskCalls w)
          (clock w) (nextId w).

Definition set_firestoreUsers (ds : list (string * FirestoreDoc)) (w : World) : World :=
  mkWorld (users w) (predictions w) ds (console w) (flaskCalls w)
          (clock w) (nextId w).

Definition set_clock (t : Z) (w : World) : World :=
  mkWorld (users w) (predictions w) (firestoreUsers w) (console w) (flaskCalls w)
          t (nextId w).

Definition bump_nextId (w : World) : World :=
  mkWorld (users w) (predictions w) (firestoreUsers w) (console w) (flaskCalls w)
          (clock w) (S (nextId w)).

(** [console.error(label, error)] and [console.warn(label)] *)
Definition console_error (label : string) (e : JsError) : M unit :=
  fun w => (Ok tt,
            mkWorld (users w) (predictions w) (firestoreUsers w)
                    (console w ++ [(label, Some e)]) (flaskCalls w)
                    (clock w) (nextId w)).

Definition console_warn (label : string) : M unit :=
  fun w => (Ok tt,
            mkWorld (users w) (predictions w) (firestoreUsers w)
                    (console w ++ [(label, None)]) (flaskCalls w)
                    (clock w) (nextId w)).

(** Sending an HTTP request to the Flask service leaves a trace. *)
Definition record_call (c : FlaskCall) : M unit :=
  fun w => (Ok tt,
            mkWorld (users w) (predictions w) (firestoreUsers w)
                    (console w) (flaskCalls w ++ [c])
                    (clock w) (nextId w)).

(** [Date.now()] *)
Definition Date_now : M Z := fun w => (Ok (clock w), w).

(** Time passes while an external call is in flight. *)
Definition elapse (ms : Z) : M unit :=
  fun w => (Ok tt, set_clock (clock w + ms) w).

(** ** External collaborators *)

(** [admin.auth().verifyIdToken(token)] resolves to the decoded token. *)
Record DecodedToken := mkDecodedToken {
  uid : string;
  email : option string;
  name : option string
}.

(** [FlaskApiResponse] of [flask.service.ts]. *)
Record FlaskApiResponse := mkFlaskApiResponse {
  prediction : string;
  confidence : Q;
  processing_time : option Q;
  breed_info : option BreedInfo;
  error : option string
}.

(** What an axios request settles to: it resolves with a status and a body,
    or rejects. *)
Inductive HttpResult (A : Type) : Type :=
| Resolved (code : Z) (data : A)
| Rejected (e : JsError).
Arguments Resolved {A} code data.
Arguments Rejected {A} e.

Record Env := mkEnv {
  (** the identity verifier; [Throw] on an invalid or expired token, or when
      the Firebase app was never initialised *)
  verifyIdToken : string -> Outcome DecodedToken;
  (** [GET /health] of the Flask service, with the parsed body of the
      answer *)
  flaskHealth : HttpResult Json;
  flaskHealthTime : Z;
  (** [POST /predict] of the Flask service, by image bytes and filename *)
  flaskPredict : list Byte.byte -> string -> HttpResult FlaskApiResponse;
  flaskPredictTime : Z;
  (** the Firestore handle of [firebase.config.ts]: [None] when it was not
      initialised; otherwise whether writing the document of a uid rejects *)
  firestore : option (string -> option JsError);
  (** ids that the store generates for new rows *)
  genId : nat -> string
}.

(** ** The relational store (Prisma client) *)

Module Prisma.

(** Modelled from the spec: the Prisma schema is not part of the sources.
    [externalSubjectId] (firebaseUid) and [email] are each globally
    unique, ids are primary keys, a new user is active and has no profile
    image, and [createdAt] is the time of insertion. *)
Definition default_isActive : bool := true.

Definition unique_violation (field : string) : JsError :=
  PrismaError ("Unique constraint failed on the fields: (" ++ field ++ ")").

Definition record_not_found : JsError :=
  PrismaError "Record to update not found.".

(** [prisma.user.findUnique({ where: { firebaseUid } })] *)
Definition user_findUnique_firebaseUid (fuid : string) : M (option User) :=
  fun w => (Ok (find (fun u => (u_firebaseUid u =? fuid)%string) (users w)), w).

(** [prisma.user.findUnique({ where: { id } })] *)
Definition user_findUnique_id (id : string) : M (option User) :=
  fun w => (Ok (find (fun u => (u_id u =? id)%string) (users w)), w).

(** [prisma.user.create({ data })]: the insertion is refused when it would
    repeat a unique column. *)
Definition user_create (env : Env) (fuid mail : string) (nm : option string)
           (r : UserRole) : M User :=
  fun w =>
    let id := genId env (nextId w) in
    if existsb (fun u => (u_firebaseUid u =? fuid)%string) (users w)
    then (Throw (unique_violation "firebaseUid"), w)
    else if existsb (fun u => (u_email u =? mail)%string) (users w)
    then (Throw (unique_violation "email"), w)
    else if existsb (fun u => (u_id u =? id)%string) (users w)
    then (Throw (unique_violation "id"), w)
    else
      let u := mkUser id fuid mail nm r None default_isActive (clock w) in
      (Ok u, set_users (users w ++ [u]) (bump_nextId w)).

(** The [data] of an update: an absent ([undefined]) field is left as it is. *)
Record UpdateUserData := mkUpdateUserData {
  upd_name : option string;
  upd_role : option UserRole;
  upd_profileImage : option string;
  upd_isActive : option bool
}.

Definition apply_update (d : UpdateUserData) (u : User) : User :=
  mkUser (u_id u) (u_firebaseUid u) (u_email u)
         (match upd_name d with Some n => Some n | None => u_name u end)
         (match upd_role d with Some r => r | None => u_role u end)
         (match upd_profileImage d with Some i => Some i | None => u_profileImage u end)
         (match upd_isActive d with Some a => a | None => u_isActive u end)
         (u_createdAt u).

(** The row with the given id rewritten in place; [None] when there is none. *)
Fixpoint update_row (id : string) (d : UpdateUserData) (l : list User)
  : option (User * list User) :=
  match l with
  | [] => None
  | u :: t =>
      if (u_id u =? id)%string
      then Some (apply_update d u, apply_update d u :: t)
      else match update_row id d t with
           | Some (r, t') => Some (r, u :: t')
           | None => None
           end
  end.

(** [prisma.user.update({ where: { id }, data })] *)
Definition user_update (id : string) (d : UpdateUserData) : M User :=
  fun w =>
    match update_row id d (users w) with
    | Some (u, us) => (Ok u, set_users us w)
    | None => (Throw record_not_found, w)
    end.

(** [orderBy: { createdAt: 'desc' }]: insertion into a list that is
    already in descending order. *)
Fixpoint insert_desc {A} (key : A -> Z) (x : A) (l : list A) : list A :=
  match l with
  | [] => [x]
  | y :: t => if key y <=? key x then x :: y :: t else y :: insert_desc key x t
  end.

Definition orderBy_desc {A} (key : A -> Z) (l : list A) : list A :=
  fold_right (insert_desc key) [] l.

(** [skip] and [take] of [findMany].  A negative [skip] is refused; a
    negative [take] counts from the end of the list. *)
Definition skip_take {A} (skip take : Z) (l : list A) : Outcome (list A) :=
  if skip <? 0
  then Throw (PrismaError "Invalid value for skip argument: Value can only be positive")
  else if 0 <=? take
  then Ok (firstn (Z.to_nat take) (skipn (Z.to_nat skip) l))
  else Ok (rev (firstn (Z.to_nat (- take)) (skipn (Z.to_nat skip) (rev l)))).

(** [findMany({ where, skip, take, orderBy: { createdAt: 'desc' } })].
    [skip] and [take] are integer arguments: the client validates them and
    refuses a number that is not a finite integer.  The integers that the
    store can hold are not bounded here. *)
Definition findMany {A} (table : World -> list A) (where_ : A -> bool)
           (key : A -> Z) (skip take : Js.Number) : M (list A) :=
  fun w =>
    (match skip, take with
     | Js.Num s, Js.Num t => skip_take s t (orderBy_desc key (filter where_ (table w)))
     | _, _ => Throw (PrismaError "Invalid value provided. Expected Int.")
     end, w).

(** [count({ where })] *)
Definition count {A} (table : World -> list A) (where_ : A -> bool) : M Z :=
  fun w => (Ok (Z.of_nat (length (filter where_ (table w)))), w).

(** [prisma.prediction.findFirst({ where: { id, userId } })] *)
Definition prediction_findFirst (id userId : string) : M (option Prediction) :=
  fun w =>
    (Ok (find (fun p => (p_id p =? id)%string && (p_userId p =? userId)%string)
              (predictions w)), w).

(** [prisma.prediction.create({ data })] *)
Definition prediction_create (env : Env) (userId imagePath breedName : string)
           (conf ptime : Q) (md : Metadata) : M Prediction :=
  fun w =>
    let id := genId env (nextId w) in
    if existsb (fun p => (p_id p =? id)%string) (predictions w)
    then (Throw (unique_violation "id"), w)
    else if negb (existsb (fun u => (u_id u =? userId)%string) (users w))
    then (Throw (PrismaError "Foreign key constraint failed on the field: userId"), w)
    else
      let p := mkPrediction id userId imagePath breedName conf ptime md (clock w) in
      (Ok p, set_predictions (predictions w ++ [p]) (bump_nextId w)).

(** [include: { predictions: { take: 10, orderBy: { createdAt: 'desc' } } }] *)
Definition recent_predictions (u : User) (w : World) : list Prediction :=
  firstn 10 (orderBy_desc p_createdAt
               (filter (fun p => (p_userId p =? u_id u)%string) (predictions w))).

(** [prisma.user.findUnique({ where: { email } })] *)
Definition user_findUnique_email (mail : string) : M (option User) :=
  fun w => (Ok (find (fun u => (u_email u =? mail)%string) (users w)), w).

Definition sumQ (l : list Q) : Q := fold_right Qplus 0%Q l.

(** [aggregate({ where, _avg: { confidence: true } })]: the mean of the
    column, [None] (null) when no row matches. *)
Definition prediction_avg_confidence (where_ : Prediction -> bool) : M (option Q) :=
  fun w =>
    let rows := filter where_ (predictions w) in
    (Ok (match rows with
         | [] => None
         | _ => Some (sumQ (map p_confidence rows)
                      / inject_Z (Z.of_nat (length rows)))%Q
         end), w).

(** One more row for the group of [k]. *)
Fixpoint bump {K} (eqb : K -> K -> bool) (k : K) (acc : list (K * Z)) : list (K * Z) :=
  match acc with
  | [] => [(k, 1)]
  | (k', n) :: t => if eqb k' k then (k', n + 1) :: t else (k', n) :: bump eqb k t
  end.

(** The groups of a column with the number of rows of each, in the order
    in which the values first occur (the store fixes no order). *)
Definition group_count {K} (eqb : K -> K -> bool) (keys : list K) : list (K * Z) :=
  fold_left (fun acc k => bump eqb k acc) keys [].

(** [groupBy({ by: [column], where, _count: { column: true } })] *)
Definition groupBy_count {A K} (table : World -> list A) (where_ : A -> bool)
           (by_ : A -> K) (eqb : K -> K -> bool) : M (list (K * Z)) :=
  fun w => (Ok (group_count eqb (map by_ (filter where_ (table w)))), w).

End Prisma.

(** ** config/firebase.config.ts *)

(** [getFirestoreDb()] *)
Definition getFirestoreDb (env : Env) : M (option (string -> option JsError)) :=
  match firestore env with
  | None =>
      console_warn "Firestore not initialized. Database sync features will be disabled." ;;;
      ret None
  | Some fs => ret (Some fs)
  end.

(** [doc.set({ role, updatedAt }, { merge: true })] on a document of the
    collection [users]. *)
Fixpoint merge_doc (k : string) (d : FirestoreDoc) (l : list (string * FirestoreDoc))
  : list (string * FirestoreDoc) :=
  match l with
  | [] => [(k, d)]
  | (k', d') :: t => if (k' =? k)%string then (k, d) :: t else (k', d') :: merge_doc k d t
  end.

Definition firestore_set (fs : string -> option JsError) (fuid role : string) : M unit :=
  fun w =>
    match fs fuid with
    | Some e => (Throw e, w)
    | None =>
        (Ok tt, set_firestoreUsers
                  (merge_doc fuid (mkFirestoreDoc role (clock w)) (firestoreUsers w)) w)
    end.

(** ** services/user.service.ts *)

Module UserService.

(** [syncUserRoleToFirestore(firebaseUid, role)] *)
Definition syncUserRoleToFirestore (env : Env) (fuid : string) (r : UserRole) : M unit :=
  try_catch
    (fs <- getFirestoreDb env ;;
     match fs with
     | Some f => firestore_set f fuid (Js.toLowerCase (role_name r))
     | None => ret tt
     end)
    (fun e => console_error "Failed to sync user role to Firestore:" e).

Record CreateUserData := mkCreateUserData {
  cud_firebaseUid : string;
  cud_email : string;
  cud_name : option string;
  cud_role : option UserRole
}.

(** [createUser(userData)] *)
Definition createUser (env : Env) (d : CreateUserData) : M User :=
  user <- Prisma.user_create env (cud_firebaseUid d) (cud_email d) (cud_name d)
            (match cud_role d with Some r => r | None => FARMER end) ;;
  syncUserRoleToFirestore env (u_firebaseUid user) (u_role user) ;;;
  ret user.

(** A user together with the predictions that [include] loads. *)
Definition with_predictions (o : option User) : M (option (User * list Prediction)) :=
  fun w => (Ok (option_map (fun u => (u, Prisma.recent_predictions u w)) o), w).

(** [getUserByFirebaseUid(firebaseUid)] *)
Definition getUserByFirebaseUid (fuid : string) : M (option (User * list Prediction)) :=
  o <- Prisma.user_findUnique_firebaseUid fuid ;; with_predictions o.

(** [getUserById(id)] *)
Definition getUserById (id : string) : M (option (User * list Prediction)) :=
  o <- Prisma.user_findUnique_id id ;; with_predictions o.

(** [updateUser(id, updateData)] *)
Definition updateUser (env : Env) (id : string) (d : Prisma.UpdateUserData) : M User :=
  user <- Prisma.user_update id d ;;
  match Prisma.upd_role d with
  | Some r => syncUserRoleToFirestore env (u_firebaseUid user) r
  | None => ret tt
  end ;;;
  ret user.

(** [deleteUser(id)]: soft delete. *)
Definition deleteUser (id : string) : M User :=
  Prisma.user_update id (Prisma.mkUpdateUserData None None None (Some false)).

Record Pagination := mkPagination {
  pg_page : Js.Number;
  pg_limit : Js.Number;
  pg_total : Z;
  pg_pages : Js.Number
}.

(** [getAllUsers(page, limit)] *)
Definition getAllUsers (page limit : Js.Number) : M (list (User * Z) * Pagination) :=
  let skip := Js.mul (Js.sub page (Js.Num 1)) limit in
  us <- Prisma.findMany users (fun _ => true) u_createdAt skip limit ;;
  total <- Prisma.count users (fun _ => true) ;;
  fun w =>
    (Ok (map (fun u => (u, Z.of_nat (length (filter
                                (fun p => (p_userId p =? u_id u)%string)
                                (predictions w))))) us,
         mkPagination page limit total (Js.Math_ceil_div total limit)), w).

(** [getUserByEmail(email)] *)
Definition getUserByEmail (mail : string) : M (option User) :=
  Prisma.user_findUnique_email mail.

(** [getUserRoleFromFirestore(firebaseUid)].  [read_error] is what reading
    the document rejects with, if it does. *)
Definition getUserRoleFromFirestore (env : Env) (read_error : option JsError)
           (fuid : string) : M (option string) :=
  try_catch
    (fs <- getFirestoreDb env ;;
     match fs with
     | Some _ =>
         match read_error with
         | Some e => throw e
         | None =>
             fun w =>
               (Ok (match find (fun kd => (fst kd =? fuid)%string) (firestoreUsers w) with
                    | Some (_, d) => if Js.truthy (fs_role d) then Some (fs_role d) else None
                    | None => None
                    end), w)
         end
     | None => ret None
     end)
    (fun e => console_error "Failed to get user role from Firestore:" e ;;; ret None).

(** [userExists(firebaseUid)] *)
Definition userExists (fuid : string) : M bool :=
  user <- Prisma.user_findUnique_firebaseUid fuid ;;
  ret (match user with Some _ => true | None => false end).

(** [acc[key] = value] on an object. *)
Fixpoint assign (k : string) (v : Z) (obj : list (string * Z)) : list (string * Z) :=
  match obj with
  | [] => [(k, v)]
  | (k', v') :: t => if (k' =? k)%string then (k, v) :: t else (k', v') :: assign k v t
  end.

Record UserStats := mkUserStats {
  totalUsers : Z;
  activeUsers : Z;
  inactiveUsers : Z;
  roleDistribution : list (string * Z);
  recentUsers : list User
}.

(** [getUserStats()] *)
Definition getUserStats : M UserStats :=
  total <- Prisma.count users (fun _ => true) ;;
  active <- Prisma.count users (fun u => u_isActive u) ;;
  roleStats <- Prisma.groupBy_count users (fun _ => true) u_role UserRole_eqb ;;
  recent <- Prisma.findMany users (fun _ => true) u_createdAt (Js.Num 0) (Js.Num 5) ;;
  ret (mkUserStats total active (total - active)
         (fold_left (fun acc stat =>
                       assign (Js.toLowerCase (role_name (fst stat))) (snd stat) acc)
                    roleStats [])
         recent).

End UserService.

(** ** services/flask.service.ts *)

Module FlaskService.

Record BreedPredictionResult := mkBreedPredictionResult {
  breedName : string;
  res_confidence : Q;
  processingTime : option Q;
  res_additionalInfo : option BreedInfo
}.

(** [axios.post(`${FLASK_API_URL}/predict`, formData, ...)] *)
Definition axios_post_predict (env : Env) (imageBuffer : list Byte.byte)
           (filename : string) : M FlaskApiResponse :=
  record_call (PostPredict filename) ;;;
  elapse (flaskPredictTime env) ;;;
  match flaskPredict env imageBuffer filename with
  | Resolved _ data => ret data
  | Rejected e => throw e
  end.

(** [predictBreed(imageBuffer, filename)] *)
Definition predictBreed (env : Env) (imageBuffer : list Byte.byte)
           (filename : string) : M BreedPredictionResult :=
  try_catch
    (response_data <- axios_post_predict env imageBuffer filename ;;
     if Js.truthy_opt (error response_data)
     then throw (Error ("Flask API error: "
                        ++ match error response_data with Some m => m | None => "" end))
     else ret (mkBreedPredictionResult (prediction response_data)
                 (confidence response_data) (processing_time response_data)
                 (breed_info response_data)))
    (fun err =>
       console_error "Flask service error:" err ;;;
       if isAxiosError err then
         if opt_string_eqb (error_code err) "ECONNREFUSED"
         then throw (Error "Flask backend is not running. Please start the Flask server.")
         else if opt_Z_eqb (error_response_status err) 400
         then throw (Error "Invalid image format or size")
         else if opt_Z_eqb (error_response_status err) 500
         then throw (Error "Flask backend processing error")
         else throw (Error ("Flask API request failed: " ++ error_message err))
       else throw (Error "Failed to communicate with Flask backend")).

(** [checkFlaskHealth()] *)
Definition checkFlaskHealth (env : Env) : M bool :=
  try_catch
    (record_call GetHealth ;;;
     elapse (flaskHealthTime env) ;;;
     match flaskHealth env with
     | Resolved code _ => ret (code =? 200)
     | Rejected e => throw e
     end)
    (fun err => console_error "Flask health check failed:" err ;;; ret false).

Record ConnectionTest := mkConnectionTest {
  isConnected : bool;
  responseTime : option Z;
  version : option Json;
  ct_error : option string
}.

(** [data.version] on the body of an answer: reading a property of [null]
    throws a TypeError; an object has the property or has not; a string, a
    number, a boolean or an array has no property of that name. *)
Definition data_version (data : Json) : M (option Json) :=
  match data with
  | JNull => throw (TypeError "Cannot read properties of null (reading 'version')")
  | JObj fields =>
      ret (option_map snd (find (fun kv => (fst kv =? "version")%string) fields))
  | _ => ret None
  end.

(** [testConnection()] *)
Definition testConnection (env : Env) : M ConnectionTest :=
  startTime <- Date_now ;;
  try_catch
    (record_call GetHealth ;;;
     elapse (flaskHealthTime env) ;;;
     match flaskHealth env with
     | Resolved _ data =>
         now <- Date_now ;;
         let responseTime := now - startTime in
         v <- data_version data ;;
         ret (mkConnectionTest true (Some responseTime)
                (Some (match v with
                       | Some x => if Json_truthy x then x else JStr "unknown"
                       | None => JStr "unknown"
                       end))
                None)
     | Rejected e => throw e
     end)
    (fun err => ret (mkConnectionTest false None None (Some (error_message err)))).

End FlaskService.

(** ** Requests and the middleware chain *)

(** [req.user], as [authenticateToken] fills it. *)
Record AuthContext := mkAuthContext {
  ctx_uid : string;
  ctx_email : string;
  ctx_role : UserRole;
  ctx_userId : string
}.

(** [Express.Multer.File] with memory storage. *)
Record MulterFile := mkMulterFile {
  originalname : string;
  mimetype : string;
  size : Z;
  buffer : list Byte.byte
}.

Record Request := mkRequest {
  authorization : option string;      (* req.headers.authorization *)
  param_id : string;                  (* req.params.id *)
  query_page : option string;         (* req.query.page *)
  query_limit : option string;        (* req.query.limit *)
  body_name : option string;          (* req.body.name *)
  body_role : option string;          (* req.body.role *)
  body_profileImage : option string;  (* req.body.profileImage *)
  upload_image : option MulterFile;   (* the multipart part named image *)
  user : option AuthContext;          (* req.user *)
  file : option MulterFile            (* req.file *)
}.

Definition set_user (c : AuthContext) (r : Request) : Request :=
  mkRequest (authorization r) (param_id r) (query_page r) (query_limit r)
            (body_name r) (body_role r) (body_profileImage r) (upload_image r)
            (Some c) (file r).

Definition set_file (f : option MulterFile) (r : Request) : Request :=
  mkRequest (authorization r) (param_id r) (query_page r) (query_limit r)
            (body_name r) (body_role r) (body_profileImage r) (upload_image r)
            (user r) f.

(** What a middleware does with a request: it answers, or calls [next()],
    or calls [next(err)]. *)
Inductive Step :=
| Respond (r : Response)
| Next (req : Request)
| NextErr (e : JsError).

Definition Middleware : Type := Request -> M Step.
Definition Handler : Type := Request -> M Response.

(** [authHeader && authHeader.split(' ')[1]] *)
Definition bearer_token (authHeader : option string) : option string :=
  match authHeader with
  | Some h => if Js.truthy h then nth_error (Js.split " " h) 1 else Some h
  | None => None
  end.

(** [req.user!]: reading a property of [undefined] throws. *)
Definition non_null {A} (o : option A) : M A :=
  match o with
  | Some a => ret a
  | None => throw (TypeError "Cannot read properties of undefined")
  end.

Module AuthMiddleware.

(** [authenticateToken(req, res, next)] *)
Definition authenticateToken (env : Env) : Middleware := fun req =>
  try_catch
    (let token := bearer_token (authorization req) in
     if negb (Js.truthy_opt token)
     then ret (Respond (error_response 401 "Access token required"))
     else
       decodedToken <- (fun w => (verifyIdToken env
                                    (match token with Some t => t | None => "" end), w)) ;;
       user <- Prisma.user_findUnique_firebaseUid (uid decodedToken) ;;
       match user with
       | None => ret (Respond (error_response 404 "User not found in database"))
       | Some u =>
           if negb (u_isActive u)
           then ret (Respond (error_response 403 "User account is deactivated"))
           else ret (Next (set_user (mkAuthContext (uid decodedToken) (u_email u)
                                       (u_role u) (u_id u)) req))
       end)
    (fun err =>
       console_error "Authentication error:" err ;;;
       ret (Respond (error_response 403 "Invalid or expired token"))).

(** [authorize(allowedRoles)] *)
Definition authorize (allowedRoles : list UserRole) : Middleware := fun req =>
  match user req with
  | None => ret (Respond (error_response 401 "Authentication required"))
  | Some c =>
      if negb (existsb (UserRole_eqb (ctx_role c)) allowedRoles)
      then ret (Respond (mkResponse 403
                  (JObj [("error", JStr "Insufficient permissions");
                         ("required", JArr (map (fun r => JStr (role_name r)) allowedRoles));
                         ("current", JStr (role_name (ctx_role c)))])))
      else ret (Next req)
  end.

Definition isFarmer : Middleware := authorize [FARMER; OFFICER; ADMIN].
Definition isOfficer : Middleware := authorize [OFFICER; ADMIN].
Definition isAdmin : Middleware := authorize [ADMIN].

End AuthMiddleware.

(** ** The multer upload of controllers/prediction.controller.ts *)

Module Upload.

Definition allowedTypes : list string :=
  ["image/jpeg"; "image/jpg"; "image/png"; "image/webp"].

(** [limits.fileSize]: 10MB *)
Definition fileSize_limit : Z := 10 * 1024 * 1024.

(** [fileFilter(req, file, cb)]: [None] is [cb(null, true)]. *)
Definition fileFilter (f : MulterFile) : option JsError :=
  if existsb (String.eqb (mimetype f)) allowedTypes
  then None
  else Some (Error "Invalid file type. Only JPEG, PNG, and WebP are allowed.").

(** [upload.single('image')] *)
Definition single : Middleware := fun req =>
  match upload_image req with
  | None => ret (Next (set_file None req))
  | Some f =>
      match fileFilter f with
      | Some e => ret (NextErr e)
      | None =>
          if fileSize_limit <? size f
          then ret (NextErr (MulterError "LIMIT_FILE_SIZE" "File too large"))
          else ret (Next (set_file (Some f) req))
      end
  end.

End Upload.

(** ** JSON encodings of rows *)

(** A property whose value is [undefined] is left out by [JSON.stringify]. *)
Definition opt_field (k : string) (o : option Json) : list (string * Json) :=
  match o with
  | Some v => [(k, v)]
  | None => []
  end.

Definition json_BreedInfo (b : BreedInfo) : Json :=
  JObj (opt_field "description" (option_map JStr (description b))
        ++ opt_field "characteristics"
             (option_map (fun l => JArr (map JStr l)) (characteristics b))
        ++ opt_field "origin" (option_map JStr (origin b))).

Definition json_Metadata (m : Metadata) : Json :=
  JObj ([("originalFilename", JStr (originalFilename m));
         ("fileSize", JInt (fileSize m));
         ("mimeType", JStr (mimeType m))]
        ++ opt_field "additionalInfo" (option_map json_BreedInfo (additionalInfo m))).

Definition fields_Prediction (p : Prediction) : list (string * Json) :=
  [("id", JStr (p_id p));
   ("userId", JStr (p_userId p));
   ("imagePath", JStr (p_imagePath p));
   ("breedName", JStr (p_breedName p));
   ("confidence", JNum (p_confidence p));
   ("processingTime", JNum (p_processingTime p));
   ("metadata", json_Metadata (p_metadata p));
   ("createdAt", JInt (p_createdAt p))].

Definition fields_User (u : User) : list (string * Json) :=
  [("id", JStr (u_id u));
   ("firebaseUid", JStr (u_firebaseUid u));
   ("email", JStr (u_email u));
   ("name", JOptStr (u_name u));
   ("role", JStr (role_name (u_role u)));
   ("profileImage", JOptStr (u_profileImage u));
   ("isActive", JBool (u_isActive u));
   ("createdAt", JInt (u_createdAt u))].

(** A user as [getUserById] returns it, with the included predictions. *)
Definition fields_UserWithPredictions (up : User * list Prediction) : list (string * Json) :=
  fields_User (fst up)
  ++ [("predictions", JArr (map (fun p => JObj (fields_Prediction p)) (snd up)))].

Definition json_Pagination (p : UserService.Pagination) : Json :=
  JObj [("page", JNumber (UserService.pg_page p));
        ("limit", JNumber (UserService.pg_limit p));
        ("total", JInt (UserService.pg_total p));
        ("pages", JNumber (UserService.pg_pages p))].

(** ** controllers/auth.controller.ts *)

Module AuthController.

(** [authenticateUser(req, res)]: register or login. *)
Definition authenticateUser (env : Env) : Handler := fun req =>
  try_catch
    (let token := bearer_token (authorization req) in
     if negb (Js.truthy_opt token)
     then ret (error_response 401 "Access token required")
     else
       decodedToken <- (fun w => (verifyIdToken env
                                    (match token with Some t => t | None => "" end), w)) ;;
       if negb (Js.truthy_opt (email decodedToken))
       then ret (error_response 400 "Email is required")
       else
         let mail := match email decodedToken with Some e => e | None => "" end in
         user <- UserService.getUserByFirebaseUid (uid decodedToken) ;;
         match user with
         | None =>
             u <- UserService.createUser env
                    (UserService.mkCreateUserData (uid decodedToken) mail
                       (if Js.truthy_opt (name decodedToken) then name decodedToken else None)
                       (Some FARMER)) ;;
             ret (mkResponse 201
                    (JObj [("success", JBool true);
                           ("message", JStr "User registered successfully");
                           ("data", JObj [("id", JStr (u_id u));
                                          ("email", JStr (u_email u));
                                          ("name", JOptStr (u_name u));
                                          ("role", JStr (role_name (u_role u)));
                                          ("isNewUser", JBool true)])]))
         | Some (u, _) =>
             if negb (u_isActive u)
             then ret (error_response 403 "Account is deactivated")
             else
               ret (json_response
                      (JObj [("success", JBool true);
                             ("message", JStr "Login successful");
                             ("data", JObj [("id", JStr (u_id u));
                                            ("email", JStr (u_email u));
                                            ("name", JOptStr (u_name u));
                                            ("role", JStr (role_name (u_role u)));
                                            ("isNewUser", JBool false)])]))
         end)
    (fun err =>
       console_error "Authentication error:" err ;;;
       ret (error_response 500 "Authentication failed")).

(** [updateProfile(req, res)]: name and role during onboarding. *)
Definition updateProfile (env : Env) : Handler := fun req =>
  try_catch
    (match user req with
     | None => ret (error_response 401 "User not authenticated")
     | Some c =>
         if Js.truthy_opt (body_role req)
            && negb (match body_role req with
                     | Some r => match role_of_string r with Some _ => true | None => false end
                     | None => false
                     end)
         then ret (error_response 400 "Invalid role")
         else
           updatedUser <- UserService.updateUser env (ctx_userId c)
                            (Prisma.mkUpdateUserData (body_name req)
                               (match body_role req with
                                | Some r => role_of_string r
                                | None => None
                                end)
                               None None) ;;
           ret (json_response
                  (JObj [("success", JBool true);
                         ("message", JStr "Profile updated successfully");
                         ("data", JObj [("id", JStr (u_id updatedUser));
                                        ("email", JStr (u_email updatedUser));
                                        ("name", JOptStr (u_name updatedUser));
                                        ("role", JStr (role_name (u_role updatedUser)))])]))
     end)
    (fun err =>
       console_error "Update profile error:" err ;;;
       ret (error_response 500 "Failed to update profile")).

(** [verifyToken(req, res)] *)
Definition verifyToken (env : Env) : Handler := fun req =>
  try_catch
    (let token := bearer_token (authorization req) in
     if negb (Js.truthy_opt token)
     then ret (error_response 401 "Access token required")
     else
       decodedToken <- (fun w => (verifyIdToken env
                                    (match token with Some t => t | None => "" end), w)) ;;
       user <- UserService.getUserByFirebaseUid (uid decodedToken) ;;
       match user with
       | None => ret (error_response 404 "User not found")
       | Some (u, _) =>
           if negb (u_isActive u)
           then ret (error_response 403 "Account is deactivated")
           else
             ret (json_response
                    (JObj [("success", JBool true);
                           ("data", JObj [("id", JStr (u_id u));
                                          ("email", JStr (u_email u));
                                          ("name", JOptStr (u_name u));
                                          ("role", JStr (role_name (u_role u)));
                                          ("uid", JStr (uid decodedToken))])]))
       end)
    (fun err =>
       console_error "Token verification error:" err ;;;
       ret (error_response 403 "Invalid or expired token")).

(** [logout(req, res)] *)
Definition logout : Handler := fun _ =>
  ret (json_response (JObj [("success", JBool true);
                            ("message", JStr "Logout successful")])).

(** [getCurrentUser(req, res)] *)
Definition getCurrentUser : Handler := fun req =>
  try_catch
    (match user req with
     | None => ret (error_response 401 "User not authenticated")
     | Some c =>
         user <- UserService.getUserById (ctx_userId c) ;;
         match user with
         | None => ret (error_response 404 "User not found")
         | Some (u, _) =>
             ret (json_response
                    (JObj [("success", JBool true);
                           ("data", JObj [("id", JStr (u_id u));
                                          ("email", JStr (u_email u));
                                          ("name", JOptStr (u_name u));
                                          ("role", JStr (role_name (u_role u)));
                                          ("profileImage", JOptStr (u_profileImage u));
                                          ("createdAt", JInt (u_createdAt u))])]))
         end
     end)
    (fun err =>
       console_error "Get current user error:" err ;;;
       ret (error_response 500 "Failed to get user information")).

End AuthController.

(** ** controllers/prediction.controller.ts *)

Module PredictionController.

(** The [user] relation of a prediction, with the selected columns. *)
Definition owner_json (with_role : bool) (p : Prediction) (w : World) : Json :=
  match find (fun u => (u_id u =? p_userId p)%string) (users w) with
  | Some u =>
      JObj ([("id", JStr (u_id u));
             ("email", JStr (u_email u));
             ("name", JOptStr (u_name u))]
            ++ (if with_role then [("role", JStr (role_name (u_role u)))] else []))
  | None => JNull
  end.

(** [predictBreed(req, res)] *)
Definition predictBreed (env : Env) : Handler := fun req =>
  try_catch
    (match file req with
     | None => ret (error_response 400 "Image file is required")
     | Some f =>
         c <- non_null (user req) ;;
         let userId := ctx_userId c in
         let imageBuffer := buffer f in
         let filename := originalname f in
         isFlaskHealthy <- FlaskService.checkFlaskHealth env ;;
         if negb isFlaskHealthy
         then ret (error_response 503
                     "Prediction service is currently unavailable. Please try again later.")
         else
           startTime <- Date_now ;;
           prediction <- FlaskService.predictBreed env imageBuffer filename ;;
           endTime <- Date_now ;;
           let processingTime := endTime - startTime in
           savedPrediction <-
             Prisma.prediction_create env userId ("temp/" ++ filename)
               (FlaskService.breedName prediction)
               (FlaskService.res_confidence prediction)
               (inject_Z processingTime / inject_Z 1000)%Q
               (mkMetadata filename (size f) (mimetype f)
                  (FlaskService.res_additionalInfo prediction)) ;;
           ret (json_response
                  (JObj [("success", JBool true);
                         ("data",
                          JObj ([("id", JStr (p_id savedPrediction));
                                 ("breedName", JStr (FlaskService.breedName prediction));
                                 ("confidence", JNum (FlaskService.res_confidence prediction));
                                 ("processingTime", JInt processingTime)]
                                ++ opt_field "additionalInfo"
                                     (option_map json_BreedInfo
                                        (FlaskService.res_additionalInfo prediction))
                                ++ [("timestamp", JInt (p_createdAt savedPrediction))]))]))
     end)
    (fun err =>
       console_error "Prediction error:" err ;;;
       if Js.includes (error_message err) "Flask backend is not running"
       then ret (error_response 503 "Prediction service is temporarily unavailable")
       else if Js.includes (error_message err) "Invalid image format"
       then ret (error_response 400 "Invalid image format or corrupted file")
       else ret (error_response 500 "Failed to process image prediction")).

(** The columns that [getPredictionHistory] selects. *)
Definition history_row (p : Prediction) : Json :=
  JObj [("id", JStr (p_id p));
        ("breedName", JStr (p_breedName p));
        ("confidence", JNum (p_confidence p));
        ("processingTime", JNum (p_processingTime p));
        ("createdAt", JInt (p_createdAt p));
        ("metadata", json_Metadata (p_metadata p))].

(** [getPredictionHistory(req, res)] *)
Definition getPredictionHistory : Handler := fun req =>
  try_catch
    (c <- non_null (user req) ;;
     let userId := ctx_userId c in
     let page := Js.or_num (Js.parseInt (query_page req)) 1 in
     let limit := Js.or_num (Js.parseInt (query_limit req)) 20 in
     let skip := Js.mul (Js.sub page (Js.Num 1)) limit in
     ps <- Prisma.findMany predictions (fun p => (p_userId p =? userId)%string)
             p_createdAt skip limit ;;
     total <- Prisma.count predictions (fun p => (p_userId p =? userId)%string) ;;
     ret (json_response
            (JObj [("success", JBool true);
                   ("data", JArr (map history_row ps));
                   ("pagination",
                    json_Pagination
                      (UserService.mkPagination page limit total
                         (Js.Math_ceil_div total limit)))])))
    (fun err =>
       console_error "Get prediction history error:" err ;;;
       ret (error_response 500 "Failed to get prediction history")).

(** [getPredictionById(req, res)] *)
Definition getPredictionById : Handler := fun req =>
  try_catch
    (let id := param_id req in
     c <- non_null (user req) ;;
     let userId := ctx_userId c in
     prediction <- Prisma.prediction_findFirst id userId ;;
     match prediction with
     | None => ret (error_response 404 "Prediction not found")
     | Some p =>
         fun w =>
           (Ok (json_response
                  (JObj [("success", JBool true);
                         ("data", JObj (fields_Prediction p
                                        ++ [("user", owner_json false p w)]))])), w)
     end)
    (fun err =>
       console_error "Get prediction by ID error:" err ;;;
       ret (error_response 500 "Failed to get prediction")).

(** [getAllPredictions(req, res)] *)
Definition getAllPredictions : Handler := fun req =>
  try_catch
    (let page := Js.or_num (Js.parseInt (query_page req)) 1 in
     let limit := Js.or_num (Js.parseInt (query_limit req)) 20 in
     let skip := Js.mul (Js.sub page (Js.Num 1)) limit in
     ps <- Prisma.findMany predictions (fun _ => true) p_createdAt skip limit ;;
     total <- Prisma.count predictions (fun _ => true) ;;
     fun w =>
       (Ok (json_response
              (JObj [("success", JBool true);
                     ("data",
                      JArr (map (fun p => JObj (fields_Prediction p
                                                ++ [("user", owner_json true p w)])) ps));
                     ("pagination",
                      json_Pagination
                        (UserService.mkPagination page limit total
                           (Js.Math_ceil_div total limit)))])), w))
    (fun err =>
       console_error "Get all predictions error:" err ;;;
       ret (error_response 500 "Failed to get predictions")).

(** [recentPredictions] of the statistics: the selected columns. *)
Definition recent_row (p : Prediction) : Json :=
  JObj [("id", JStr (p_id p));
        ("breedName", JStr (p_breedName p));
        ("confidence", JNum (p_confidence p));
        ("createdAt", JInt (p_createdAt p))].

(** [avgConfidence._avg.confidence || 0] *)
Definition avg_or_zero (avg : option Q) : Json :=
  match avg with
  | Some q => if Qeq_bool q 0 then JInt 0 else JNum q
  | None => JInt 0
  end.

(** [getPredictionStats(req, res)] *)
Definition getPredictionStats : Handler := fun req =>
  try_catch
    (c <- non_null (user req) ;;
     let userId := if UserRole_eqb (ctx_role c) ADMIN then None else Some (ctx_userId c) in
     let whereClause := fun p =>
       if Js.truthy_opt userId then (p_userId p =? ctx_userId c)%string else true in
     totalPredictions <- Prisma.count predictions whereClause ;;
     avgConfidence <- Prisma.prediction_avg_confidence whereClause ;;
     groups <- Prisma.groupBy_count predictions whereClause p_breedName String.eqb ;;
     let breedDistribution := firstn 10 (Prisma.orderBy_desc snd groups) in
     recentPredictions <- Prisma.findMany predictions whereClause p_createdAt
                            (Js.Num 0) (Js.Num 5) ;;
     ret (json_response
            (JObj [("success", JBool true);
                   ("data",
                    JObj [("totalPredictions", JInt totalPredictions);
                          ("averageConfidence", avg_or_zero avgConfidence);
                          ("breedDistribution",
                           JArr (map (fun item => JObj [("breed", JStr (fst item));
                                                        ("count", JInt (snd item))])
                                     breedDistribution));
                          ("recentPredictions",
                           JArr (map recent_row recentPredictions))])])))
    (fun err =>
       console_error "Get prediction stats error:" err ;;;
       ret (error_response 500 "Failed to get prediction statistics")).

(** [testFlaskConnection(req, res)] *)
Definition testFlaskConnection (env : Env) : Handler :=
  fun _ =>
    try_catch
      (connectionTest <- FlaskService.testConnection env ;;
       ret (json_response
              (JObj [("success", JBool true);
                     ("data",
                      JObj ([("isConnected",
                              JBool (FlaskService.isConnected connectionTest))]
                            ++ opt_field "responseTime"
                                 (option_map JInt (FlaskService.responseTime connectionTest))
                            ++ opt_field "version"
                                 (FlaskService.version connectionTest)
                            ++ opt_field "error"
                                 (option_map JStr (FlaskService.ct_error connectionTest))))])))
      (fun err =>
         console_error "Flask connection test error:" err ;;;
         ret (error_response 500 "Failed to test Flask connection")).

End PredictionController.

(** ** controllers/user.controller.ts *)

Module UserController.

(** [getProfile(req, res)] *)
Definition getProfile : Handler := fun req =>
  try_catch
    (c <- non_null (user req) ;;
     user <- UserService.getUserById (ctx_userId c) ;;
     match user with
     | None => ret (error_response 404 "User not found")
     | Some up =>
         let userProfile := omit "firebaseUid" (fields_UserWithPredictions up) in
         ret (json_response
                (JObj [("success", JBool true); ("data", JObj userProfile)]))
     end)
    (fun err =>
       console_error "Get profile error:" err ;;;
       ret (error_response 500 "Failed to get user profile")).

(** [updateProfile(req, res)] *)
Definition updateProfile (env : Env) : Handler := fun req =>
  try_catch
    (c <- non_null (user req) ;;
     updatedUser <- UserService.updateUser env (ctx_userId c)
                      (Prisma.mkUpdateUserData (body_name req) None
                         (body_profileImage req) None) ;;
     let userProfile := omit "firebaseUid" (fields_User updatedUser) in
     ret (json_response
            (JObj [("success", JBool true);
                   ("message", JStr "Profile updated successfully");
                   ("data", JObj userProfile)])))
    (fun err =>
       console_error "Update profile error:" err ;;;
       ret (error_response 500 "Failed to update profile")).

(** The columns that [UserService.getAllUsers] selects. *)
Definition listed_user (uc : User * Z) : Json :=
  let u := fst uc in
  JObj [("id", JStr (u_id u));
        ("email", JStr (u_email u));
        ("name", JOptStr (u_name u));
        ("role", JStr (role_name (u_role u)));
        ("isActive", JBool (u_isActive u));
        ("createdAt", JInt (u_createdAt u));
        ("_count", JObj [("predictions", JInt (snd uc))])].

(** [getAllUsers(req, res)] *)
Definition getAllUsers : Handler := fun req =>
  try_catch
    (let page := Js.or_num (Js.parseInt (query_page req)) 1 in
     let limit := Js.or_num (Js.parseInt (query_limit req)) 10 in
     result <- UserService.getAllUsers page limit ;;
     ret (json_response
            (JObj [("success", JBool true);
                   ("data", JArr (map listed_user (fst result)));
                   ("pagination", json_Pagination (snd result))])))
    (fun err =>
       console_error "Get all users error:" err ;;;
       ret (error_response 500 "Failed to get users")).

(** [getUserById(req, res)] *)
Definition getUserById : Handler := fun req =>
  try_catch
    (let id := param_id req in
     user <- UserService.getUserById id ;;
     match user with
     | None => ret (error_response 404 "User not found")
     | Some up =>
         let userData := omit "firebaseUid" (fields_UserWithPredictions up) in
         ret (json_response
                (JObj [("success", JBool true); ("data", JObj userData)]))
     end)
    (fun err =>
       console_error "Get user by ID error:" err ;;;
       ret (error_response 500 "Failed to get user")).

(** [updateUserRole(req, res)] *)
Definition updateUserRole (env : Env) : Handler := fun req =>
  try_catch
    (let id := param_id req in
     match match body_role req with Some r => role_of_string r | None => None end with
     | None => ret (error_response 400 "Invalid role")
     | Some role =>
         updatedUser <- UserService.updateUser env id
                          (Prisma.mkUpdateUserData None (Some role) None None) ;;
         ret (json_response
                (JObj [("success", JBool true);
                       ("message", JStr "User role updated successfully");
                       ("data", JObj [("id", JStr (u_id updatedUser));
                                      ("email", JStr (u_email updatedUser));
                                      ("role", JStr (role_name (u_role updatedUser)))])]))
     end)
    (fun err =>
       console_error "Update user role error:" err ;;;
       ret (error_response 500 "Failed to update user role")).

(** [deactivateUser(req, res)] *)
Definition deactivateUser : Handler := fun req =>
  try_catch
    (let id := param_id req in
     c <- non_null (user req) ;;
     if (id =? ctx_userId c)%string
     then ret (error_response 400 "Cannot deactivate your own account")
     else
       UserService.deleteUser id ;;;
       ret (json_response
              (JObj [("success", JBool true);
                     ("message", JStr "User deactivated successfully")])))
    (fun err =>
       console_error "Deactivate user error:" err ;;;
       ret (error_response 500 "Failed to deactivate user")).

(** [searchUsers(req, res)]: for now the same listing as [getAllUsers]. *)
Definition searchUsers : Handler := fun req =>
  try_catch
    (let page := Js.or_num (Js.parseInt (query_page req)) 1 in
     let limit := Js.or_num (Js.parseInt (query_limit req)) 10 in
     result <- UserService.getAllUsers page limit ;;
     ret (json_response
            (JObj [("success", JBool true);
                   ("data", JArr (map listed_user (fst result)));
                   ("pagination", json_Pagination (snd result))])))
    (fun err =>
       console_error "Search users error:" err ;;;
       ret (error_response 500 "Failed to search users")).

(** [getUserStats(req, res)] *)
Definition getUserStats : Handler := fun _ =>
  try_catch
    (stats <- UserService.getUserStats ;;
     ret (json_response
            (JObj [("success", JBool true);
                   ("data",
                    JObj [("totalUsers", JInt (UserService.totalUsers stats));
                          ("activeUsers", JInt (UserService.activeUsers stats));
                          ("inactiveUsers", JInt (UserService.inactiveUsers stats));
                          ("roleDistribution",
                           JObj (map (fun kv => (fst kv, JInt (snd kv)))
                                     (UserService.roleDistribution stats)));
                          ("recentUsers",
                           JArr (map (fun u => JObj [("id", JStr (u_id u));
                                                     ("email", JStr (u_email u));
                                                     ("name", JOptStr (u_name u));
                                                     ("role", JStr (role_name (u_role u)));
                                                     ("createdAt", JInt (u_createdAt u))])
                                     (UserService.recentUsers stats)))])])))
    (fun err =>
       console_error "Get user stats error:" err ;;;
       ret (error_response 500 "Failed to get user statistics")).

End UserController.

(** ** Routes *)

(** Modelled from the spec: [middleware/error.middleware.ts] is not part of
    the sources.  The final error handler turns an error passed to
    [next(err)] into a structured JSON error: a rejected upload (disallowed
    file type, oversized file) is [InvalidRequest] (400), anything else is
    [Internal] (500). *)
Definition errorHandler (e : JsError) : Response :=
  match e with
  | MulterError _ m => error_response 400 m
  | Error m =>
      if Js.includes m "Invalid file type"
      then error_response 400 m
      else error_response 500 "Internal server error"
  | _ => error_response 500 "Internal server error"
  end.

(** A route: the middlewares run in order until one answers or fails. *)
Fixpoint run_chain (mws : list Middleware) (h : Handler) (req : Request) : M Response :=
  match mws with
  | [] => h req
  | mw :: rest =>
      s <- mw req ;;
      match s with
      | Respond r => ret r
      | Next req' => run_chain rest h req'
      | NextErr e => ret (errorHandler e)
      end
  end.

Module Routes.

(** routes/prediction.routes.ts *)
Definition post_predictions_breed (env : Env) : Handler :=
  run_chain [AuthMiddleware.authenticateToken env; AuthMiddleware.isFarmer; Upload.single]
            (PredictionController.predictBreed env).
Definition get_predictions_history (env : Env) : Handler :=
  run_chain [AuthMiddleware.authenticateToken env] PredictionController.getPredictionHistory.
Definition get_predictions_id (env : Env) : Handler :=
  run_chain [AuthMiddleware.authenticateToken env] PredictionController.getPredictionById.
Definition get_predictions (env : Env) : Handler :=
  run_chain [AuthMiddleware.authenticateToken env; AuthMiddleware.isOfficer]
            PredictionController.getAllPredictions.

(** routes/user.routes.ts *)
Definition get_users_profile (env : Env) : Handler :=
  run_chain [AuthMiddleware.authenticateToken env] UserController.getProfile.
Definition put_users_profile (env : Env) : Handler :=
  run_chain [AuthMiddleware.authenticateToken env] (UserController.updateProfile env).
Definition get_users (env : Env) : Handler :=
  run_chain [AuthMiddleware.authenticateToken env; AuthMiddleware.isOfficer]
            UserController.getAllUsers.
Definition get_users_search (env : Env) : Handler :=
  run_chain [AuthMiddleware.authenticateToken env; AuthMiddleware.isOfficer]
            UserController.searchUsers.
Definition get_users_id (env : Env) : Handler :=
  run_chain [AuthMiddleware.authenticateToken env; AuthMiddleware.isOfficer]
            UserController.getUserById.
Definition put_users_id_role (env : Env) : Handler :=
  run_chain [AuthMiddleware.authenticateToken env; AuthMiddleware.isAdmin]
            (UserController.updateUserRole env).
Definition delete_users_id (env : Env) : Handler :=
  run_chain [AuthMiddleware.authenticateToken env; AuthMiddleware.isAdmin]
            UserController.deactivateUser.

(** routes/auth.routes.ts *)
Definition post_auth_register (env : Env) : Handler := AuthController.authenticateUser env.
Definition post_auth_login (env : Env) : Handler := AuthController.authenticateUser env.

Definition post_auth_verify_token (env : Env) : Handler :=
  AuthController.verifyToken env.
Definition post_auth_logout (env : Env) : Handler :=
  run_chain [AuthMiddleware.authenticateToken env] AuthController.logout.
Definition get_auth_me (env : Env) : Handler :=
  run_chain [AuthMiddleware.authenticateToken env] AuthController.getCurrentUser.
Definition put_auth_profile (env : Env) : Handler :=
  run_chain [AuthMiddleware.authenticateToken env] (AuthController.updateProfile env).

Definition get_predictions_stats (env : Env) : Handler :=
  run_chain [AuthMiddleware.authenticateToken env] PredictionController.getPredictionStats.
Definition get_predictions_system_flask_status (env : Env) : Handler :=
  run_chain [AuthMiddleware.authenticateToken env; AuthMiddleware.isOfficer]
            (PredictionController.testFlaskConnection env).
Definition get_users_stats (env : Env) : Handler :=
  run_chain [AuthMiddleware.authenticateToken env; AuthMiddleware.isAdmin]
            UserController.getUserStats.

End Routes.

(** ** Vocabulary of the properties *)

(** The request carries a bearer token that the identity verifier accepts
    and that belongs to an active local user: the gate lets it through with
    context [c]. *)
Definition authenticated (env : Env) (req : Request) (w : World) (c : AuthContext) : Prop :=
  exists t d u,
    bearer_token (authorization req) = Some t /\
    Js.truthy t = true /\
    verifyIdToken env t = Ok d /\
    find (fun u => (u_firebaseUid u =? uid d)%string) (users w) = Some u /\
    u_isActive u = true /\
    c = mkAuthContext (uid d) (u_email u) (u_role u) (u_id u).

(** The liveness probe of the classification service fails: the request is
    rejected, or it resolves with a status other than 200. *)
Definition probe_fails (env : Env) : Prop :=
  match flaskHealth env with
  | Resolved code _ => code <> 200
  | Rejected _ => True
  end.

Definition probe_passes (env : Env) : Prop :=
  exists d, flaskHealth env = Resolved 200 d.

(** The world after the liveness probe was sent and answered. *)
Definition after_probe (env : Env) (w : World) : World :=
  set_clock (clock w + flaskHealthTime env)
            (snd (record_call GetHealth w)).

(** The ways a scoring call fails that the orchestration tells apart. *)
Inductive ScorerFailure :=
| ConnectionRefused
| ScorerStatus400
| ScorerStatus500
| ErrorField.

Definition scorer_fails (k : ScorerFailure) (r : HttpResult FlaskApiResponse) : Prop :=
  match k with
  | ConnectionRefused =>
      exists st msg, r = Rejected (AxiosError (Some "ECONNREFUSED") st msg)
  | ScorerStatus400 =>
      exists code msg,
        r = Rejected (AxiosError code (Some 400) msg) /\ code <> Some "ECONNREFUSED"
  | ScorerStatus500 =>
      exists code msg,
        r = Rejected (AxiosError code (Some 500) msg) /\ code <> Some "ECONNREFUSED"
  | ErrorField =>
      exists code data msg,
        r = Resolved code data /\ error data = Some msg /\ msg <> ""
  end.

(** The operation-level error of each failure: [ServiceUnavailable] is 503,
    [InvalidRequest] is 400 and [UpstreamError] is 500. *)
Definition operation_error (k : ScorerFailure) : Response :=
  match k with
  | ConnectionRefused => error_response 503 "Prediction service is temporarily unavailable"
  | ScorerStatus400 => error_response 400 "Invalid image format or corrupted file"
  | ScorerStatus500 => error_response 500 "Failed to process image prediction"
  | ErrorField => error_response 500 "Failed to process image prediction"
  end.

(** What [FlaskService.predictBreed] throws for each failure. *)
Definition service_error (k : ScorerFailure) : JsError :=
  match k with
  | ConnectionRefused =>
      Error "Flask backend is not running. Please start the Flask server."
  | ScorerStatus400 => Error "Invalid image format or size"
  | ScorerStatus500 => Error "Flask backend processing error"
  | ErrorField => Error "Failed to communicate with Flask backend"
  end.

(** The [data] of the answers of the authenticate-or-register endpoint. *)
Definition auth_data (u : User) (isNewUser : bool) : Json :=
  JObj [("id", JStr (u_id u));
        ("email", JStr (u_email u));
        ("name", JOptStr (u_name u));
        ("role", JStr (role_name (u_role u)));
        ("isNewUser", JBool isNewUser)].

(** Creation semantics: status 201 and the "new user" flag. *)
Definition registered_response (u : User) : Response :=
  mkResponse 201
    (JObj [("success", JBool true);
           ("message", JStr "User registered successfully");
           ("data", auth_data u true)]).

(** Login semantics: status 200 and the "existing user" flag. *)
Definition login_response (u : User) : Response :=
  mkResponse 200
    (JObj [("success", JBool true);
           ("message", JStr "Login successful");
           ("data", auth_data u false)]).

(** A subject that the store has never seen: neither its subject id nor
    its email belongs to a stored user, and the id that the store will
    generate next is free. *)
Definition never_seen (env : Env) (w : World) (subject mail : string) : Prop :=
  existsb (fun u => (u_firebaseUid u =? subject)%string) (users w) = false /\
  existsb (fun u => (u_email u =? mail)%string) (users w) = false /\
  existsb (fun u => (u_id u =? genId env (nextId w))%string) (users w) = false.

(** The row of a user after deactivation: only [isActive] differs. *)
Definition deactivated (u : User) : User :=
  mkUser (u_id u) (u_firebaseUid u) (u_email u) (u_name u) (u_role u)
         (u_profileImage u) false (u_createdAt u).

(** The line that a failed role mirror leaves on the console. *)
Definition mirror_failure_logged (e : JsError) (w : World) : World :=
  snd (console_error "Failed to sync user role to Firestore:" e w).

(** The answer of [GET /predictions/:id] that carries the record [p]. *)
Definition prediction_response (p : Prediction) (w : World) : Response :=
  json_response
    (JObj [("success", JBool true);
           ("data", JObj (fields_Prediction p
                          ++ [("user", PredictionController.owner_json false p w)]))]).

(** Two rows that agree on every column but [firebaseUid]. *)
Definition same_but_firebaseUid (u1 u2 : User) : Prop :=
  u_id u1 = u_id u2 /\
  u_email u1 = u_email u2 /\
  u_name u1 = u_name u2 /\
  u_role u1 = u_role u2 /\
  u_profileImage u1 = u_profileImage u2 /\
  u_isActive u1 = u_isActive u2 /\
  u_createdAt u1 = u_createdAt u2.

(** Two worlds whose users differ at most in their [firebaseUid]. *)
Definition differ_only_in_firebaseUid (w1 w2 : World) : Prop :=
  Forall2 same_but_firebaseUid (users w1) (users w2) /\
  predictions w1 = predictions w2.

(** The property names of the [data] object of an answer. *)
Definition data_keys (o : Outcome Response) : list string :=
  match o with
  | Ok r =>
      match body r with
      | JObj fields =>
          match find (fun kv => (fst kv =? "data")%string) fields with
          | Some (_, JObj d) => map fst d
          | _ => []
          end
      | _ => []
      end
  | Throw _ => []
  end.

(** The listing endpoints. *)
Inductive Listing :=
| PredictionHistory   (* GET /predictions/history *)
| AllPredictions      (* GET /predictions *)
| AllUsers            (* GET /users *)
| SearchUsers.        (* GET /users/search *)

Definition listing_handler (l : Listing) : Handler :=
  match l with
  | PredictionHistory => PredictionController.getPredictionHistory
  | AllPredictions => PredictionController.getAllPredictions
  | AllUsers => UserController.getAllUsers
  | SearchUsers => UserController.searchUsers
  end.

Definition default_limit (l : Listing) : Z :=
  match l with
  | PredictionHistory | AllPredictions => 20
  | AllUsers | SearchUsers => 10
  end.

(** The page and the limit that a request asks for, as the integers that
    its query names: 1 and the default of the endpoint when the parameter
    is absent, names no number or names 0. *)
Definition requested_page (req : Request) : Z :=
  match Js.mathInt (query_page req) with
  | Some n => if n =? 0 then 1 else n
  | None => 1
  end.

Definition requested_limit (l : Listing) (req : Request) : Z :=
  match Js.mathInt (query_limit req) with
  | Some n => if n =? 0 then default_limit l else n
  | None => default_limit l
  end.

(** The number of predictions of a user, as [_count] reports it. *)
Definition count_predictions (u : User) (w : World) : Z :=
  Z.of_nat (length (filter (fun p => (p_userId p =? u_id u)%string) (predictions w))).

(** The stored rows that a listing ranges over, in table order: each with
    its creation time and the JSON that the endpoint renders for it. *)
Definition listed_rows (l : Listing) (req : Request) (w : World) : list (Z * Json) :=
  match l with
  | PredictionHistory =>
      map (fun p => (p_createdAt p, PredictionController.history_row p))
          (filter (fun p => (p_userId p =? match user req with
                                           | Some c => ctx_userId c
                                           | None => ""
                                           end)%string)
                  (predictions w))
  | AllPredictions =>
      map (fun p => (p_createdAt p,
                     JObj (fields_Prediction p
                           ++ [("user", PredictionController.owner_json true p w)])))
          (predictions w)
  | AllUsers | SearchUsers =>
      map (fun u => (u_createdAt u,
                     UserController.listed_user (u, count_predictions u w)))
          (users w)
  end.

(** The envelope of a listing answer. *)
Definition listing_response (data : list Json) (page limit total pages : Z) : Response :=
  json_response
    (JObj [("success", JBool true);
           ("data", JArr data);
           ("pagination", JObj [("page", JInt page);
                                ("limit", JInt limit);
                                ("total", JInt total);
                                ("pages", JInt pages)])]).

(** Newest first. *)
Definition newer_or_equal (a b : Z * Json) : Prop := fst b <= fst a.

(** The key constraints of the tables: ids are primary keys, and the
    subject id and the email of a user are unique. *)
Definition keys_unique (w : World) : Prop :=
  NoDup (map u_id (users w)) /\
  NoDup (map u_firebaseUid (users w)) /\
  NoDup (map u_email (users w)) /\
  NoDup (map p_id (predictions w)).

(** ** Fixtures: concrete environments, requests and stores *)

Definition world0 : World := mkWorld [] [] [] [] [] 1700000000000 0.

Definition request0 : Request :=
  mkRequest None "" None None None None None None None None.

Definition with_authorization (h : string) (r : Request) : Request :=
  mkRequest (Some h) (param_id r) (query_page r) (query_limit r)
            (body_name r) (body_role r) (body_profileImage r) (upload_image r)
            (user r) (file r).

Definition with_upload (f : MulterFile) (r : Request) : Request :=
  mkRequest (authorization r) (param_id r) (query_page r) (query_limit r)
            (body_name r) (body_role r) (body_profileImage r) (Some f)
            (user r) (file r).

Definition with_param_id (id : string) (r : Request) : Request :=
  mkRequest (authorization r) id (query_page r) (query_limit r)
            (body_name r) (body_role r) (body_profileImage r) (upload_image r)
            (user r) (file r).

Definition with_query (page limit : option string) (r : Request) : Request :=
  mkRequest (authorization r) (param_id r) page limit
            (body_name r) (body_role r) (body_profileImage r) (upload_image r)
            (user r) (file r).

Definition gir_reply : FlaskApiResponse :=
  mkFlaskApiResponse "Gir" (9 # 10) None None None.

(** A verifier that knows the token [good.jwt] of subject [uid123] and
    rejects every other token; a healthy scorer; no Firestore. *)
Definition env0 : Env :=
  mkEnv (fun t => if (t =? "good.jwt")%string
                  then Ok (mkDecodedToken "uid123" (Some "a@example.com") None)
                  else Throw (FirebaseError "auth/argument-error"))
        (Resolved 200 (JObj [("status", JStr "healthy")])) 3
        (fun _ _ => Resolved 200 gir_reply) 120
        None
        (fun n => String (ascii_of_nat (97 + n)) "-id").

Definition with_flaskHealth (h : HttpResult Json) (e : Env) : Env :=
  mkEnv (verifyIdToken e) h (flaskHealthTime e) (flaskPredict e) (flaskPredictTime e)
        (firestore e) (genId e).

Definition with_flaskPredict (p : HttpResult FlaskApiResponse) (e : Env) : Env :=
  mkEnv (verifyIdToken e) (flaskHealth e) (flaskHealthTime e) (fun _ _ => p)
        (flaskPredictTime e) (firestore e) (genId e).

Definition with_firestore (fs : option (string -> option JsError)) (e : Env) : Env :=
  mkEnv (verifyIdToken e) (flaskHealth e) (flaskHealthTime e) (flaskPredict e)
        (flaskPredictTime e) fs (genId e).

Definition farmer0 : User :=
  mkUser "u1" "uid123" "a@example.com" None FARMER None true 1690000000000.

Definition admin0 : User :=
  mkUser "u2" "uid-admin" "root@example.com" (Some "Root") ADMIN None true 1680000000000.

Definition world1 : World := set_users [farmer0; admin0] world0.

Definition ctx_farmer0 : AuthContext := mkAuthContext "uid123" "a@example.com" FARMER "u1".

Definition photo (mime : string) : MulterFile :=
  mkMulterFile "cow.jpg" mime 2048 [].

Definition prediction_at (id owner breed : string) (t : Z) : Prediction :=
  mkPrediction id owner "temp/cow.jpg" breed (9 # 10) (12 # 100)
               (mkMetadata "cow.jpg" 2048 "image/jpeg" None) t.

Definition world2 : World :=
  set_predictions [prediction_at "p1" "u2" "Gir" 1695000000000;
                   prediction_at "p2" "u1" "Sahiwal" 1696000000000;
                   prediction_at "p3" "u1" "Gir" 1697000000000;
                   prediction_at "p4" "u1" "Tharparkar" 1694000000000]
                  world1.

(** [world1] with other subject identifiers. *)
Definition world1_retagged : World :=
  set_users [mkUser "u1" "uid-other" "a@example.com" None FARMER None true 1690000000000;
             mkUser "u2" "uid-root" "root@example.com" (Some "Root") ADMIN None true
                    1680000000000]
            world0.

(** The refusal of a role gate. *)
Definition insufficient_permissions (allowedRoles : list UserRole) (current : UserRole)
  : Response :=
  mkResponse 403
    (JObj [("error", JStr "Insufficient permissions");
           ("required", JArr (map (fun r => JStr (role_name r)) allowedRoles));
           ("current", JStr (role_name current))]).

(** The answer of [GET /auth/me] for the row [u]. *)
Definition me_response (u : User) : Response :=
  json_response
    (JObj [("success", JBool true);
           ("data", JObj [("id", JStr (u_id u));
                          ("email", JStr (u_email u));
                          ("name", JOptStr (u_name u));
                          ("role", JStr (role_name (u_role u)));
                          ("profileImage", JOptStr (u_profileImage u));
                          ("createdAt", JInt (u_createdAt u))])]).

(** The answer of [PUT /auth/profile] for the updated row [u]. *)
Definition onboarding_response (u : User) : Response :=
  json_response
    (JObj [("success", JBool true);
           ("message", JStr "Profile updated successfully");
           ("data", JObj [("id", JStr (u_id u));
                          ("email", JStr (u_email u));
                          ("name", JOptStr (u_name u));
                          ("role", JStr (role_name (u_role u)))])]).

(** The status of the answer of a handler, of a middleware that answers,
    and 200 for a middleware that lets the request through. *)
Definition answered_status (o : Outcome Response) : option Z :=
  match o with
  | Ok r => Some (status r)
  | Throw _ => None
  end.

Definition gate_status (o : Outcome Step) : option Z :=
  match o with
  | Ok (Respond r) => Some (status r)
  | Ok (Next _) => Some 200
  | Ok (NextErr _) => None
  | Throw _ => None
  end.

Definition with_body_role (role : string) (r : Request) : Request :=
  mkRequest (authorization r) (param_id r) (query_page r) (query_limit r)
            (body_name r) (Some role) (body_profileImage r) (upload_image r)
            (user r) (file r).

(** [world1] with the farmer deactivated. *)
Definition world1_deactivated : World :=
  set_users [deactivated farmer0; admin0] world0.

Definition ctx_admin0 : AuthContext :=
  mkAuthContext "uid-admin" "root@example.com" ADMIN "u2".

(** A verifier that also knows the token [root.jwt] of the admin. *)
Definition env_admin : Env :=
  mkEnv (fun t => if (t =? "root.jwt")%string
                  then Ok (mkDecodedToken "uid-admin" (Some "root@example.com") (Some "Root"))
                  else verifyIdToken env0 t)
        (flaskHealth env0) (flaskHealthTime env0) (flaskPredict env0)
        (flaskPredictTime env0) (Some (fun _ => None)) (genId env0).

(** The rows counted by a list of groups. *)
Definition sum_counts {K} (groups : list (K * Z)) : Z :=
  fold_right (fun kv acc => snd kv + acc) 0 groups.

(** The predictions that belong to a user. *)
Definition own_predictions (userId : string) (w : World) : list Prediction :=
  filter (fun p => (p_userId p =? userId)%string) (predictions w).

(** The answer of [GET /predictions/stats]. *)
Definition stats_response (total : Z) (avg : option Q) (dist : list (string * Z))
           (recent : list Prediction) : Response :=
  json_response
    (JObj [("success", JBool true);
           ("data",
            JObj [("totalPredictions", JInt total);
                  ("averageConfidence", PredictionController.avg_or_zero avg);
                  ("breedDistribution",
                   JArr (map (fun item => JObj [("breed", JStr (fst item));
                                                ("count", JInt (snd item))]) dist));
                  ("recentPredictions",
                   JArr (map PredictionController.recent_row recent))])]).

Definition ctx_officer : AuthContext :=
  mkAuthContext "uid-off" "off@example.com" OFFICER "u3".

(** The predictions that the statistics of a caller range over: all of
    them for an ADMIN, the caller's own otherwise. *)
Definition stats_scope (c : AuthContext) (w : World) : list Prediction :=
  if UserRole_eqb (ctx_role c) ADMIN then predictions w
  else if Js.truthy (ctx_userId c) then own_predictions (ctx_userId c) w
  else predictions w.

(** The answer of [POST /predictions/breed] for the stored row [p], the
    reply [data] of the scorer and the measured time [ms]. *)
Definition classified_response (p : Prediction) (data : FlaskApiResponse) (ms : Z)
  : Response :=
  json_response
    (JObj [("success", JBool true);
           ("data",
            JObj ([("id", JStr (p_id p));
                   ("breedName", JStr (prediction data));
                   ("confidence", JNum (confidence data));
                   ("processingTime", JInt ms)]
                  ++ opt_field "additionalInfo" (option_map json_BreedInfo (breed_info data))
                  ++ [("timestamp", JInt (p_createdAt p))]))]).

(** The row that a classification stores. *)
Definition stored_classification (env : Env) (w : World) (c : AuthContext)
           (f : MulterFile) (data : FlaskApiResponse) : Prediction :=
  mkPrediction (genId env (nextId w)) (ctx_userId c) ("temp/" ++ originalname f)
               (prediction data) (confidence data)
               (inject_Z (flaskPredictTime env) / inject_Z 1000)%Q
               (mkMetadata (originalname f) (size f) (mimetype f) (breed_info data))
               (clock w + flaskHealthTime env + flaskPredictTime env).

(** A verifier that also knows the token [new.jwt] of a subject [uid999]
    who signs in with the email of [farmer0]. *)
Definition env_same_email : Env :=
  mkEnv (fun t => if (t =? "new.jwt")%string
                  then Ok (mkDecodedToken "uid999" (Some "a@example.com") None)
                  else verifyIdToken env0 t)
        (flaskHealth env0) (flaskHealthTime env0) (flaskPredict env0)
        (flaskPredictTime env0) (firestore env0) (genId env0).

(** ** The built-ins on concrete inputs *)

Example bearer_token_of_header :
  bearer_token (Some "Bearer abc.def") = Some "abc.def" /\
  bearer_token (Some "Bearer") = None /\
  bearer_token (Some "Bearer ") = Some "" /\
  bearer_token (Some "") = Some "" /\
  bearer_token None = None.
Proof. repeat split; reflexivity. Qed.

Example parseInt_of_query :
  Js.parseInt (Some "2") = Js.Num 2 /\
  Js.parseInt (Some " 12px") = Js.Num 12 /\
  Js.parseInt (Some "-3") = Js.Num (-3) /\
  Js.parseInt (Some "0x1f") = Js.Num 31 /\
  Js.parseInt (Some "abc") = Js.NaN /\
  Js.parseInt (Some "") = Js.NaN /\
  Js.parseInt None = Js.NaN /\
  Js.or_num (Js.parseInt (Some "0")) 20 = Js.Num 20 /\
  Js.or_num (Js.parseInt (Some "abc")) 1 = Js.Num 1.
Proof. repeat split; reflexivity. Qed.

(** Above 2^53 a number keeps 53 bits, and what is too large for a double
    is an infinity; a no-break space is white space. *)
Example parseInt_is_a_double :
  Js.parseInt (Some "9007199254740992") = Js.Num 9007199254740992 /\
  Js.parseInt (Some "9007199254740993") = Js.Num 9007199254740992 /\
  Js.parseInt (Some "9007199254740995") = Js.Num 9007199254740996 /\
  Js.parseInt (Some "-9007199254740993") = Js.Num (-9007199254740992) /\
  Js.round_double (2 ^ 1024 - 2 ^ 970 - 1) = Js.Num (2 ^ 1024 - 2 ^ 971) /\
  Js.round_double (2 ^ 1024 - 2 ^ 970) = Js.Infinity false /\
  Js.round_double (- 10 ^ 309) = Js.Infinity true /\
  Js.parseInt (Some (String (ascii_of_nat 194) (String (ascii_of_nat 160) "7"))) = Js.Num 7 /\
  Js.mul (Js.sub (Js.Num 1) (Js.Num 1)) (Js.Infinity false) = Js.NaN.
Proof. repeat split; vm_compute; reflexivity. Qed.

Example ceil_div_values :
  Js.ceil_div 0 20 = 0 /\ Js.ceil_div 1 20 = 1 /\ Js.ceil_div 20 20 = 1 /\
  Js.ceil_div 21 20 = 2 /\ Js.ceil_div 5 (-2) = -2.
Proof. repeat split; reflexivity. Qed.

Example includes_of_messages :
  Js.includes "Flask backend is not running. Please start the Flask server."
              "Flask backend is not running" = true /\
  Js.includes "Invalid image format or size" "Invalid image format" = true /\
  Js.includes "Flask backend processing error" "Flask backend is not running" = false /\
  Js.includes "Failed to communicate with Flask backend" "Invalid image format" = false /\
  Js.toLowerCase (role_name OFFICER) = "officer".
Proof. repeat split; reflexivity. Qed.

(** A healthy scorer and a valid upload: the classification is stored. *)
Example post_breed_success :
  let req := with_upload (photo "image/webp")
               (with_authorization "Bearer good.jwt" request0) in
  option_map status
    (match fst (Routes.post_predictions_breed env0 req world1) with
     | Ok r => Some r
     | Throw _ => None
     end) = Some 200 /\
  map (fun p => (p_id p, p_userId p, p_breedName p))
      (predictions (snd (Routes.post_predictions_breed env0 req world1)))
    = [("a-id", "u1", "Gir")] /\
  flaskCalls (snd (Routes.post_predictions_breed env0 req world1))
    = [GetHealth; PostPredict "cow.jpg"].
Proof. repeat split; reflexivity. Qed.

(** ** The authorization gate *)

Lemma authenticated_passes env req w c :
  authenticated env req w c ->
  AuthMiddleware.authenticateToken env req w = (Ok (Next (set_user c req)), w).
Proof.
  intros (t & d & u & Htok & Htr & Hver & Hfind & Hact & ->).
  unfold AuthMiddleware.authenticateToken, try_catch, bind,
    Prisma.user_findUnique_firebaseUid, ret, Js.truthy_opt.
  rewrite Htok, Htr. simpl. rewrite Hver, Hfind, Hact. reflexivity.
Qed.

Lemma authenticated_request0 :
  authenticated env0 (with_authorization "Bearer good.jwt" request0) world1 ctx_farmer0.
Proof.
  exists "good.jwt", (mkDecodedToken "uid123" (Some "a@example.com") None), farmer0.
  repeat split; reflexivity.
Qed.

(** Every role passes the farmer gate. *)
Lemma isFarmer_passes req c :
  user req = Some c -> forall w, AuthMiddleware.isFarmer req w = (Ok (Next req), w).
Proof.
  intros Hu w. unfold AuthMiddleware.isFarmer, AuthMiddleware.authorize.
  rewrite Hu. destruct (ctx_role c); reflexivity.
Qed.

(** C1, as stated, fails: with a token that the verifier rejects, a
    request to the authenticated route [GET /users/profile] is answered
    with status 403, not 401. *)
Lemma rejected_token_status_is_not_401 :
  verifyIdToken env0 "expired.jwt" = Throw (FirebaseError "auth/argument-error") /\
  bearer_token (authorization (with_authorization "Bearer expired.jwt" request0))
    = Some "expired.jwt" /\
  fst (Routes.get_users_profile env0
         (with_authorization "Bearer expired.jwt" request0) world1)
    = Ok (error_response 403 "Invalid or expired token") /\
  status (error_response 403 "Invalid or expired token") <> 401.
Proof.
  repeat split; try reflexivity. simpl. discriminate.
Qed.

(** C1 (amended): on every authenticated route (any chain that starts with
    the gate), a request whose bearer token the identity verifier rejects
    is answered by the gate with status 403 and the message "Invalid or
    expired token"; the rejection is logged, no later middleware or handler
    runs and nothing else in the world changes. *)
Theorem rejected_token_is_answered_403 env (rest : list Middleware) (h : Handler)
        req w t e :
  bearer_token (authorization req) = Some t ->
  Js.truthy t = true ->
  verifyIdToken env t = Throw e ->
  AuthMiddleware.authenticateToken env req w
    = (Ok (Respond (error_response 403 "Invalid or expired token")),
       snd (console_error "Authentication error:" e w)) /\
  run_chain (AuthMiddleware.authenticateToken env :: rest) h req w
    = (Ok (error_response 403 "Invalid or expired token"),
       snd (console_error "Authentication error:" e w)).
Proof.
  intros Htok Htr Hver.
  assert (Hgate : AuthMiddleware.authenticateToken env req w
    = (Ok (Respond (error_response 403 "Invalid or expired token")),
       snd (console_error "Authentication error:" e w))).
  { unfold AuthMiddleware.authenticateToken, try_catch, bind, Js.truthy_opt.
    rewrite Htok, Htr. simpl. rewrite Hver. reflexivity. }
  split; [exact Hgate|].
  simpl. unfold bind at 1. rewrite Hgate. reflexivity.
Qed.

Lemma rejected_token_is_answered_403_witness :
  run_chain (AuthMiddleware.authenticateToken env0 :: [AuthMiddleware.isAdmin])
            UserController.deactivateUser
            (with_authorization "Bearer expired.jwt" request0) world1
    = (Ok (error_response 403 "Invalid or expired token"),
       snd (console_error "Authentication error:"
              (FirebaseError "auth/argument-error") world1)).
Proof.
  apply (rejected_token_is_answered_403 env0 [AuthMiddleware.isAdmin]
           UserController.deactivateUser
           (with_authorization "Bearer expired.jwt" request0) world1
           "expired.jwt" (FirebaseError "auth/argument-error")); reflexivity.
Defined.

(** ** Classification orchestration *)

Lemma checkFlaskHealth_fails env w :
  probe_fails env ->
  exists w',
    FlaskService.checkFlaskHealth env w = (Ok false, w') /\
    users w' = users w /\
    predictions w' = predictions w /\
    flaskCalls w' = (flaskCalls w ++ [GetHealth])%list.
Proof.
  unfold probe_fails, FlaskService.checkFlaskHealth, try_catch, bind, record_call,
    elapse, ret, throw, console_error.
  intros H. simpl. destruct (flaskHealth env) as [code d|e]; simpl.
  - apply Z.eqb_neq in H. rewrite H. eexists. repeat split; reflexivity.
  - eexists. repeat split; reflexivity.
Qed.

Lemma checkFlaskHealth_passes env w :
  probe_passes env ->
  FlaskService.checkFlaskHealth env w = (Ok true, after_probe env w).
Proof.
  intros [d H].
  unfold FlaskService.checkFlaskHealth, try_catch, bind, record_call, elapse, ret.
  simpl. rewrite H. reflexivity.
Qed.

(** The handler behind the gate, when the probe fails. *)
Lemma predictBreed_probe_fails env req w c f :
  user req = Some c ->
  file req = Some f ->
  probe_fails env ->
  exists w',
    PredictionController.predictBreed env req w
      = (Ok (error_response 503
               "Prediction service is currently unavailable. Please try again later."), w') /\
    users w' = users w /\
    predictions w' = predictions w /\
    flaskCalls w' = (flaskCalls w ++ [GetHealth])%list.
Proof.
  intros Hu Hf Hp.
  destruct (checkFlaskHealth_fails env w Hp) as (w' & Hh & Hus & Hps & Hcs).
  exists w'. unfold PredictionController.predictBreed, try_catch.
  rewrite Hf, Hu. unfold non_null, bind at 1, ret at 1.
  unfold bind at 1. rewrite Hh. simpl. auto.
Qed.

Lemma upload_single_accepts req f w :
  upload_image req = Some f ->
  Upload.fileFilter f = None ->
  size f <= Upload.fileSize_limit ->
  Upload.single req w = (Ok (Next (set_file (Some f) req)), w).
Proof.
  intros Hup Hff Hsz. unfold Upload.single. rewrite Hup, Hff.
  destruct (Z.ltb_spec Upload.fileSize_limit (size f)); [lia | reflexivity].
Qed.

(** The route [POST /predictions/breed] for a request that passes the gate
    and the upload filter. *)
Lemma post_breed_reaches_handler env req w c f :
  authenticated env req w c ->
  upload_image req = Some f ->
  Upload.fileFilter f = None ->
  size f <= Upload.fileSize_limit ->
  Routes.post_predictions_breed env req w
    = PredictionController.predictBreed env (set_file (Some f) (set_user c req)) w.
Proof.
  intros Ha Hup Hff Hsz. unfold Routes.post_predictions_breed. simpl.
  unfold bind at 1. rewrite (authenticated_passes _ _ _ _ Ha).
  unfold bind at 1. rewrite (isFarmer_passes (set_user c req) c eq_refl).
  unfold bind at 1.
  rewrite (upload_single_accepts (set_user c req) f w Hup Hff Hsz).
  reflexivity.
Qed.

(** C2: a [POST /predictions/breed] request that passes the gate with a
    valid file, while the liveness probe of the classification service
    fails, is answered with 503 (ServiceUnavailable); the only call sent to
    the service is the probe (no scoring call), and the prediction table
    and the user table are unchanged. *)
Theorem unavailable_scorer_creates_no_prediction env req w c f :
  authenticated env req w c ->
  upload_image req = Some f ->
  Upload.fileFilter f = None ->
  size f <= Upload.fileSize_limit ->
  probe_fails env ->
  fst (Routes.post_predictions_breed env req w)
    = Ok (error_response 503
            "Prediction service is currently unavailable. Please try again later.") /\
  predictions (snd (Routes.post_predictions_breed env req w)) = predictions w /\
  users (snd (Routes.post_predictions_breed env req w)) = users w /\
  flaskCalls (snd (Routes.post_predictions_breed env req w))
    = (flaskCalls w ++ [GetHealth])%list.
Proof.
  intros Ha Hup Hff Hsz Hp.
  rewrite (post_breed_reaches_handler env req w c f Ha Hup Hff Hsz).
  destruct (predictBreed_probe_fails env (set_file (Some f) (set_user c req)) w c f
              eq_refl eq_refl Hp) as (w' & -> & Hus & Hps & Hcs).
  simpl. auto.
Qed.

Lemma unavailable_scorer_creates_no_prediction_witness :
  let env := with_flaskHealth (Rejected (AxiosError (Some "ECONNREFUSED") None
                                           "connect ECONNREFUSED 127.0.0.1:5000")) env0 in
  let req := with_upload (photo "image/png")
               (with_authorization "Bearer good.jwt" request0) in
  fst (Routes.post_predictions_breed env req world1)
    = Ok (error_response 503
            "Prediction service is currently unavailable. Please try again later.") /\
  predictions (snd (Routes.post_predictions_breed env req world1)) = predictions world1 /\
  users (snd (Routes.post_predictions_breed env req world1)) = users world1 /\
  flaskCalls (snd (Routes.post_predictions_breed env req world1))
    = (flaskCalls world1 ++ [GetHealth])%list.
Proof.
  intros env req.
  apply (unavailable_scorer_creates_no_prediction env req world1 ctx_farmer0
           (photo "image/png")).
  - exists "good.jwt", (mkDecodedToken "uid123" (Some "a@example.com") None), farmer0.
    repeat split; reflexivity.
  - reflexivity.
  - reflexivity.
  - vm_compute. discriminate.
  - exact I.
Defined.

Lemma code_is_not_refused (code : option string) :
  code <> Some "ECONNREFUSED" ->
  opt_string_eqb code "ECONNREFUSED" = false.
Proof.
  intros H. destruct code as [c|]; [|reflexivity]. simpl.
  destruct (String.eqb_spec c "ECONNREFUSED"); [subst; congruence | reflexivity].
Qed.

Lemma service_predictBreed_throws env buf fn w k :
  scorer_fails k (flaskPredict env buf fn) ->
  exists w',
    FlaskService.predictBreed env buf fn w = (Throw (service_error k), w') /\
    users w' = users w /\
    predictions w' = predictions w /\
    flaskCalls w' = (flaskCalls w ++ [PostPredict fn])%list.
Proof.
  unfold FlaskService.predictBreed, FlaskService.axios_post_predict, try_catch, bind,
    record_call, elapse, ret, throw, console_error.
  destruct k; simpl.
  - intros (st & msg & ->). simpl. eexists. repeat split; reflexivity.
  - intros (code & msg & -> & Hc). simpl.
    rewrite (code_is_not_refused code Hc). eexists. repeat split; reflexivity.
  - intros (code & msg & -> & Hc). simpl.
    rewrite (code_is_not_refused code Hc). eexists. repeat split; reflexivity.
  - intros (code & data & msg & -> & He & Hm). simpl. rewrite He.
    assert (Ht : Js.truthy msg = true).
    { unfold Js.truthy. destruct (String.eqb_spec msg ""); [contradiction | reflexivity]. }
    unfold Js.truthy_opt. rewrite Ht. simpl. eexists. repeat split; reflexivity.
Qed.

(** The handler behind the gate, when the scoring call fails. *)
Lemma predictBreed_scoring_failure env req w c f k :
  user req = Some c ->
  file req = Some f ->
  probe_passes env ->
  scorer_fails k (flaskPredict env (buffer f) (originalname f)) ->
  exists w',
    PredictionController.predictBreed env req w = (Ok (operation_error k), w') /\
    predictions w' = predictions w /\
    flaskCalls w' = (flaskCalls w ++ [GetHealth; PostPredict (originalname f)])%list.
Proof.
  intros Hu Hf Hp Hk.
  destruct (service_predictBreed_throws env (buffer f) (originalname f)
              (after_probe env w) k Hk) as (w' & Hthrow & Hus & Hps & Hcs).
  assert (Hcalls : flaskCalls w'
                   = (flaskCalls w ++ [GetHealth; PostPredict (originalname f)])%list).
  { rewrite Hcs. simpl. rewrite <- app_assoc. reflexivity. }
  exists (snd (console_error "Prediction error:" (service_error k) w')).
  split; [|split; [exact Hps | exact Hcalls]].
  unfold PredictionController.predictBreed, try_catch.
  rewrite Hf, Hu. unfold non_null, bind at 1, ret at 1.
  unfold bind at 1. rewrite (checkFlaskHealth_passes env w Hp).
  change (negb true) with false. cbv iota.
  unfold bind at 1, Date_now at 1. cbv beta. unfold bind at 1. rewrite Hthrow.
  destruct k; reflexivity.
Qed.

(** C3 (amended): once the probe has passed, a failure of the scoring call
    is answered as follows: connection refused gives 503
    (ServiceUnavailable); HTTP 400 from the scorer gives 400
    (InvalidRequest); HTTP 500 from the scorer gives 500 (UpstreamError); a
    non-empty [error] field in a response that resolved gives 500
    (UpstreamError).  In each case no Prediction row is created. *)
Theorem scoring_failures_are_mapped env req w c f k :
  user req = Some c ->
  file req = Some f ->
  probe_passes env ->
  scorer_fails k (flaskPredict env (buffer f) (originalname f)) ->
  fst (PredictionController.predictBreed env req w) = Ok (operation_error k) /\
  predictions (snd (PredictionController.predictBreed env req w)) = predictions w /\
  flaskCalls (snd (PredictionController.predictBreed env req w))
    = (flaskCalls w ++ [GetHealth; PostPredict (originalname f)])%list.
Proof.
  intros Hu Hf Hp Hk.
  destruct (predictBreed_scoring_failure env req w c f k Hu Hf Hp Hk)
    as (w' & -> & Hps & Hcs).
  simpl. auto.
Qed.

Lemma scoring_failures_are_mapped_witness :
  let req := set_file (Some (photo "image/jpeg")) (set_user ctx_farmer0 request0) in
  let refused := with_flaskPredict
                   (Rejected (AxiosError (Some "ECONNREFUSED") None
                                "connect ECONNREFUSED 127.0.0.1:5000")) env0 in
  let bad_image := with_flaskPredict
                     (Rejected (AxiosError (Some "ERR_BAD_REQUEST") (Some 400)
                                  "Request failed with status code 400")) env0 in
  let crashed := with_flaskPredict
                   (Rejected (AxiosError (Some "ERR_BAD_RESPONSE") (Some 500)
                                "Request failed with status code 500")) env0 in
  let soft := with_flaskPredict
                (Resolved 200 (mkFlaskApiResponse "" 0 None None
                                 (Some "model not loaded"))) env0 in
  fst (PredictionController.predictBreed refused req world1)
    = Ok (error_response 503 "Prediction service is temporarily unavailable") /\
  fst (PredictionController.predictBreed bad_image req world1)
    = Ok (error_response 400 "Invalid image format or corrupted file") /\
  fst (PredictionController.predictBreed crashed req world1)
    = Ok (error_response 500 "Failed to process image prediction") /\
  fst (PredictionController.predictBreed soft req world1)
    = Ok (error_response 500 "Failed to process image prediction").
Proof.
  intros req refused bad_image crashed soft.
  split; [|split; [|split]].
  - apply (scoring_failures_are_mapped refused req world1 ctx_farmer0
             (photo "image/jpeg") ConnectionRefused);
      [reflexivity | reflexivity | eexists; reflexivity |].
    exists None, "connect ECONNREFUSED 127.0.0.1:5000". reflexivity.
  - apply (scoring_failures_are_mapped bad_image req world1 ctx_farmer0
             (photo "image/jpeg") ScorerStatus400);
      [reflexivity | reflexivity | eexists; reflexivity |].
    exists (Some "ERR_BAD_REQUEST"), "Request failed with status code 400".
    split; [reflexivity | discriminate].
  - apply (scoring_failures_are_mapped crashed req world1 ctx_farmer0
             (photo "image/jpeg") ScorerStatus500);
      [reflexivity | reflexivity | eexists; reflexivity |].
    exists (Some "ERR_BAD_RESPONSE"), "Request failed with status code 500".
    split; [reflexivity | discriminate].
  - apply (scoring_failures_are_mapped soft req world1 ctx_farmer0
             (photo "image/jpeg") ErrorField);
      [reflexivity | reflexivity | eexists; reflexivity |].
    exists 200, (mkFlaskApiResponse "" 0 None None (Some "model not loaded")),
      "model not loaded".
    split; [reflexivity | split; [reflexivity | discriminate]].
Defined.

(** C3, as stated, fails: a response of the scorer that resolved and
    carries the explicit error field [""] is not mapped to an error.  The
    classification is taken as a success: the answer has status 200 and a
    Prediction row is created. *)
Lemma empty_error_field_is_a_success :
  let reply := mkFlaskApiResponse "Gir" (9 # 10) None None (Some "") in
  let env := with_flaskPredict (Resolved 200 reply) env0 in
  let req := set_file (Some (photo "image/jpeg")) (set_user ctx_farmer0 request0) in
  error reply = Some "" /\
  option_map status
    (match fst (PredictionController.predictBreed env req world1) with
     | Ok r => Some r
     | Throw _ => None
     end) = Some 200 /\
  map p_breedName (predictions (snd (PredictionController.predictBreed env req world1)))
    = ["Gir"] /\
  predictions world1 = [].
Proof.
  intros reply env req. repeat split; reflexivity.
Qed.

(** ** The file-type gate *)

(** The gate either answers by itself, touching neither the scorer nor the
    tables, or hands the request on with a context and the world as it was. *)
Lemma authenticateToken_cases env req w :
  (exists r w',
      AuthMiddleware.authenticateToken env req w = (Ok (Respond r), w') /\
      flaskCalls w' = flaskCalls w /\
      predictions w' = predictions w /\
      users w' = users w) \/
  (exists c, AuthMiddleware.authenticateToken env req w = (Ok (Next (set_user c req)), w)).
Proof.
  unfold AuthMiddleware.authenticateToken, try_catch, bind,
    Prisma.user_findUnique_firebaseUid, ret, console_error, Js.truthy_opt.
  destruct (bearer_token (authorization req)) as [t|]; simpl.
  - destruct (Js.truthy t); simpl.
    + destruct (verifyIdToken env t) as [d|e].
      * destruct (find _ (users w)) as [u|].
        -- destruct (u_isActive u); simpl.
           ++ right. eexists. reflexivity.
           ++ left. do 2 eexists. repeat split; reflexivity.
        -- left. do 2 eexists. repeat split; reflexivity.
      * left. do 2 eexists. repeat split; reflexivity.
    + left. do 2 eexists. repeat split; reflexivity.
  - left. do 2 eexists. repeat split; reflexivity.
Qed.

Lemma upload_single_refuses req f w :
  upload_image req = Some f ->
  existsb (String.eqb (mimetype f)) Upload.allowedTypes = false ->
  Upload.single req w
    = (Ok (NextErr (Error "Invalid file type. Only JPEG, PNG, and WebP are allowed.")), w).
Proof.
  intros Hup Hty. unfold Upload.single, Upload.fileFilter. rewrite Hup, Hty. reflexivity.
Qed.

(** C7: an upload to [POST /predictions/breed] whose declared media type is
    not on the allow-list never causes a call to the classification service
    (neither the probe nor the scoring call) and creates no Prediction row,
    whoever sends it; when the request passes the gate it is answered with
    400 (InvalidRequest) and the world is left as it was. *)
Theorem disallowed_type_is_rejected_before_any_call env req w f :
  upload_image req = Some f ->
  existsb (String.eqb (mimetype f)) Upload.allowedTypes = false ->
  flaskCalls (snd (Routes.post_predictions_breed env req w)) = flaskCalls w /\
  predictions (snd (Routes.post_predictions_breed env req w)) = predictions w /\
  (forall c,
      authenticated env req w c ->
      Routes.post_predictions_breed env req w
        = (Ok (error_response 400
                 "Invalid file type. Only JPEG, PNG, and WebP are allowed."), w)).
Proof.
  intros Hup Hty.
  assert (Hpass : forall c,
             AuthMiddleware.authenticateToken env req w = (Ok (Next (set_user c req)), w) ->
             Routes.post_predictions_breed env req w
             = (Ok (error_response 400
                      "Invalid file type. Only JPEG, PNG, and WebP are allowed."), w)).
  { intros c Hgate. unfold Routes.post_predictions_breed. simpl.
    unfold bind at 1. rewrite Hgate.
    unfold bind at 1. rewrite (isFarmer_passes (set_user c req) c eq_refl).
    unfold bind at 1. rewrite (upload_single_refuses (set_user c req) f w Hup Hty).
    reflexivity. }
  destruct (authenticateToken_cases env req w)
    as [(r & w' & Hgate & Hcs & Hps & _) | (c & Hgate)].
  - assert (Hroute : Routes.post_predictions_breed env req w = (Ok r, w')).
    { unfold Routes.post_predictions_breed. simpl. unfold bind at 1.
      rewrite Hgate. reflexivity. }
    rewrite Hroute. simpl. split; [exact Hcs | split; [exact Hps |]].
    intros c Ha. rewrite (authenticated_passes _ _ _ _ Ha) in Hgate. discriminate.
  - rewrite (Hpass c Hgate). simpl. split; [|split]; reflexivity.
Qed.

Lemma disallowed_type_is_rejected_before_any_call_witness :
  let req := with_upload (photo "image/gif")
               (with_authorization "Bearer good.jwt" request0) in
  flaskCalls (snd (Routes.post_predictions_breed env0 req world1)) = flaskCalls world1 /\
  Routes.post_predictions_breed env0 req world1
    = (Ok (error_response 400
             "Invalid file type. Only JPEG, PNG, and WebP are allowed."), world1).
Proof.
  intros req.
  destruct (disallowed_type_is_rejected_before_any_call env0 req world1
              (photo "image/gif") eq_refl eq_refl) as (Hcalls & _ & Hanswer).
  split; [exact Hcalls|].
  apply (Hanswer ctx_farmer0).
  exists "good.jwt", (mkDecodedToken "uid123" (Some "a@example.com") None), farmer0.
  repeat split; reflexivity.
Defined.

(** ** The role mirror *)

(** The mirror always resolves and leaves the relational tables alone. *)
Lemma sync_always_resolves env fuid r w :
  exists w',
    UserService.syncUserRoleToFirestore env fuid r w = (Ok tt, w') /\
    users w' = users w /\
    predictions w' = predictions w /\
    nextId w' = nextId w /\
    clock w' = clock w.
Proof.
  unfold UserService.syncUserRoleToFirestore, try_catch, bind, getFirestoreDb.
  destruct (firestore env) as [fs|]; simpl.
  - unfold firestore_set. destruct (fs fuid) as [e|]; simpl;
      eexists; repeat split; reflexivity.
  - eexists; repeat split; reflexivity.
Qed.

Lemma sync_failure_is_logged env f e fuid r w :
  (forall k, f k = Some e) ->
  UserService.syncUserRoleToFirestore (with_firestore (Some f) env) fuid r w
    = (Ok tt, mirror_failure_logged e w).
Proof.
  intros Hf.
  unfold UserService.syncUserRoleToFirestore, try_catch, bind, getFirestoreDb,
    firestore_set.
  simpl. rewrite Hf. reflexivity.
Qed.

(** C6: when every write to the Firestore mirror fails with [e],
    [createUser] and [updateUser] return exactly what the relational store
    returned: a success stays the same success, with the mirror error
    logged on the console and nothing else changed, and only a failure of
    the store itself makes the operation fail. *)
Theorem mirror_failure_never_fails_primary env f e d id upd w :
  (forall k, f k = Some e) ->
  UserService.createUser (with_firestore (Some f) env) d w
    = match Prisma.user_create env (UserService.cud_firebaseUid d)
              (UserService.cud_email d) (UserService.cud_name d)
              (match UserService.cud_role d with Some r => r | None => FARMER end) w with
      | (Ok u, w1) => (Ok u, mirror_failure_logged e w1)
      | (Throw x, w1) => (Throw x, w1)
      end /\
  UserService.updateUser (with_firestore (Some f) env) id upd w
    = match Prisma.user_update id upd w with
      | (Ok u, w1) =>
          (Ok u, match Prisma.upd_role upd with
                 | Some _ => mirror_failure_logged e w1
                 | None => w1
                 end)
      | (Throw x, w1) => (Throw x, w1)
      end.
Proof.
  intros Hf. split.
  - unfold UserService.createUser, bind at 1.
    change (Prisma.user_create (with_firestore (Some f) env))
      with (Prisma.user_create env).
    destruct (Prisma.user_create env _ _ _ _ w) as [[u|x] w1]; [|reflexivity].
    unfold bind at 1. rewrite (sync_failure_is_logged env f e _ _ w1 Hf). reflexivity.
  - unfold UserService.updateUser, bind at 1.
    destruct (Prisma.user_update id upd w) as [[u|x] w1]; [|reflexivity].
    unfold bind at 1. destruct (Prisma.upd_role upd) as [r|].
    + rewrite (sync_failure_is_logged env f e _ _ w1 Hf). reflexivity.
    + reflexivity.
Qed.

Lemma mirror_failure_never_fails_primary_witness :
  let down := FirebaseError "14 UNAVAILABLE: No connection established" in
  let env := with_firestore (Some (fun _ => Some down)) env0 in
  let promoted := mkUser "u1" "uid123" "a@example.com" None OFFICER None true 1690000000000 in
  UserService.updateUser env "u1" (Prisma.mkUpdateUserData None (Some OFFICER) None None) world1
    = (Ok promoted, mirror_failure_logged down (set_users [promoted; admin0] world1)).
Proof.
  intros down env promoted.
  exact (proj2 (mirror_failure_never_fails_primary env0 (fun _ => Some down) down
                  (UserService.mkCreateUserData "uid9" "z@example.com" None None)
                  "u1" (Prisma.mkUpdateUserData None (Some OFFICER) None None) world1
                  (fun _ => eq_refl))).
Defined.

(** ** Authenticate-or-register *)

Lemma find_none_of_existsb {A} (p : A -> bool) (l : list A) :
  existsb p l = false -> find p l = None.
Proof.
  induction l as [|a l IH]; simpl; [reflexivity|].
  destruct (p a); simpl; [discriminate | exact IH].
Qed.

Lemma find_app_new {A} (p : A -> bool) (l : list A) (x : A) :
  existsb p l = false -> p x = true -> find p (l ++ [x]) = Some x.
Proof.
  induction l as [|a l IH]; simpl; intros Hl Hx.
  - rewrite Hx. reflexivity.
  - destruct (p a); simpl in *; [discriminate | apply IH; assumption].
Qed.

(** The store accepts the row of a subject it has never seen. *)
Lemma user_create_never_seen env w fuid mail nm r :
  never_seen env w fuid mail ->
  Prisma.user_create env fuid mail nm r w
    = (Ok (mkUser (genId env (nextId w)) fuid mail nm r None true (clock w)),
       set_users (users w ++ [mkUser (genId env (nextId w)) fuid mail nm r None
                                      true (clock w)])
                 (bump_nextId w)).
Proof.
  intros (Hu & He & Hi). unfold Prisma.user_create.
  rewrite Hu, He, Hi. reflexivity.
Qed.

Lemma createUser_never_seen env w fuid mail nm :
  never_seen env w fuid mail ->
  exists w1,
    UserService.createUser env (UserService.mkCreateUserData fuid mail nm (Some FARMER)) w
      = (Ok (mkUser (genId env (nextId w)) fuid mail nm FARMER None true (clock w)), w1) /\
    users w1
      = (users w ++ [mkUser (genId env (nextId w)) fuid mail nm FARMER None true
                            (clock w)])%list.
Proof.
  intros Hnew.
  destruct (sync_always_resolves env fuid FARMER
              (set_users (users w ++ [mkUser (genId env (nextId w)) fuid mail nm FARMER
                                             None true (clock w)])
                         (bump_nextId w)))
    as (w1 & Hsync & Hus & _).
  exists w1. split; [|exact Hus].
  unfold UserService.createUser, bind. simpl.
  rewrite (user_create_never_seen env w fuid mail nm FARMER Hnew).
  simpl. rewrite Hsync. reflexivity.
Qed.

(** The endpoint once the credential is verified and carries an email. *)
Lemma authenticateUser_verified env req w t d mail :
  bearer_token (authorization req) = Some t ->
  Js.truthy t = true ->
  verifyIdToken env t = Ok d ->
  email d = Some mail ->
  Js.truthy mail = true ->
  AuthController.authenticateUser env req w
    = match find (fun u => (u_firebaseUid u =? uid d)%string) (users w) with
      | Some u =>
          (Ok (if negb (u_isActive u)
               then error_response 403 "Account is deactivated"
               else login_response u), w)
      | None =>
          match UserService.createUser env
                  (UserService.mkCreateUserData (uid d) mail
                     (if Js.truthy_opt (name d) then name d else None) (Some FARMER)) w with
          | (Ok u, w1) => (Ok (registered_response u), w1)
          | (Throw e, w1) =>
              (Ok (error_response 500 "Authentication failed"),
               snd (console_error "Authentication error:" e w1))
          end
      end.
Proof.
  intros Htok Htr Hver Hmail Hmtr.
  unfold AuthController.authenticateUser, try_catch.
  rewrite Htok. change (Js.truthy_opt (Some t)) with (Js.truthy t).
  rewrite Htr. change (negb true) with false. cbv iota.
  unfold bind at 1. rewrite Hver.
  rewrite Hmail. change (Js.truthy_opt (Some mail)) with (Js.truthy mail).
  rewrite Hmtr. change (negb true) with false. cbv iota.
  unfold UserService.getUserByFirebaseUid, Prisma.user_findUnique_firebaseUid,
    UserService.with_predictions.
  unfold bind at 1. unfold bind at 1.
  destruct (find _ (users w)) as [u|]; unfold option_map; cbv iota beta.
  - destruct (u_isActive u); reflexivity.
  - unfold bind at 1.
    destruct (UserService.createUser env _ w) as [[u|e] w1]; reflexivity.
Qed.

(** C4, as stated, fails: a subject that the store has never seen, whose
    valid credential carries the email of a stored user, is not
    registered.  The email column is unique, the insertion is refused, and
    both calls are answered 500 "Authentication failed"; no User is
    created. *)
Lemma new_subject_with_a_stored_email_is_refused :
  let req := with_authorization "Bearer new.jwt" request0 in
  let first := AuthController.authenticateUser env_same_email req world1 in
  let second := AuthController.authenticateUser env_same_email req (snd first) in
  verifyIdToken env_same_email "new.jwt"
    = Ok (mkDecodedToken "uid999" (Some "a@example.com") None) /\
  existsb (fun u => (u_firebaseUid u =? "uid999")%string) (users world1) = false /\
  fst first = Ok (error_response 500 "Authentication failed") /\
  users (snd first) = users world1 /\
  fst second = Ok (error_response 500 "Authentication failed") /\
  users (snd second) = users world1.
Proof.
  intros req first second. repeat split; reflexivity.
Qed.

(** C4 (amended): for a subject that the store has never seen and whose
    email belongs to no stored user, presenting a valid credential with
    that email, the first call of the authenticate-or-register endpoint
    appends exactly one User [u], with role FARMER, and answers 201 with
    [isNewUser] true; the second call answers 200 with [isNewUser] false
    for the same [u] and changes nothing: no second User is created. *)
Theorem authenticate_twice_registers_once env req w t d mail :
  bearer_token (authorization req) = Some t ->
  Js.truthy t = true ->
  verifyIdToken env t = Ok d ->
  email d = Some mail ->
  Js.truthy mail = true ->
  never_seen env w (uid d) mail ->
  exists u w1,
    AuthController.authenticateUser env req w = (Ok (registered_response u), w1) /\
    users w1 = (users w ++ [u])%list /\
    u_firebaseUid u = uid d /\
    u_email u = mail /\
    u_role u = FARMER /\
    AuthController.authenticateUser env req w1 = (Ok (login_response u), w1).
Proof.
  intros Htok Htr Hver Hmail Hmtr Hnew.
  destruct (createUser_never_seen env w (uid d) mail
              (if Js.truthy_opt (name d) then name d else None) Hnew)
    as (w1 & Hcreate & Hus).
  eexists. exists w1.
  split.
  { rewrite (authenticateUser_verified env req w t d mail Htok Htr Hver Hmail Hmtr).
    destruct Hnew as (Hu & _ & _).
    rewrite (find_none_of_existsb _ _ Hu), Hcreate. reflexivity. }
  split; [exact Hus|].
  split; [reflexivity|]. split; [reflexivity|]. split; [reflexivity|].
  rewrite (authenticateUser_verified env req w1 t d mail Htok Htr Hver Hmail Hmtr).
  rewrite Hus. destruct Hnew as (Hu & _ & _).
  rewrite (find_app_new _ (users w) _ Hu); [reflexivity|].
  simpl. apply String.eqb_refl.
Qed.

Lemma authenticate_twice_registers_once_witness :
  let req := with_authorization "Bearer good.jwt" request0 in
  exists u w1,
    AuthController.authenticateUser env0 req world0 = (Ok (registered_response u), w1) /\
    users w1 = (users world0 ++ [u])%list /\
    u_firebaseUid u = "uid123" /\
    u_email u = "a@example.com" /\
    u_role u = FARMER /\
    AuthController.authenticateUser env0 req w1 = (Ok (login_response u), w1).
Proof.
  intros req.
  apply (authenticate_twice_registers_once env0 req world0 "good.jwt"
           (mkDecodedToken "uid123" (Some "a@example.com") None) "a@example.com");
    try reflexivity.
  split; [|split]; reflexivity.
Defined.

(** ** Deactivation *)

Lemma update_row_spec id d l :
  match Prisma.update_row id d l with
  | None => existsb (fun u => (u_id u =? id)%string) l = false
  | Some (r, l') =>
      exists pre u post,
        l = (pre ++ u :: post)%list /\
        u_id u = id /\
        existsb (fun v => (u_id v =? id)%string) pre = false /\
        r = Prisma.apply_update d u /\
        l' = (pre ++ Prisma.apply_update d u :: post)%list
  end.
Proof.
  induction l as [|a l IH]; simpl; [reflexivity|].
  destruct (String.eqb_spec (u_id a) id) as [Heq|Hne].
  - exists [], a, l. repeat split; auto.
  - destruct (Prisma.update_row id d l) as [[r l']|].
    + destruct IH as (pre & u & post & -> & Hid & Hpre & -> & ->).
      exists (a :: pre), u, post. simpl.
      destruct (String.eqb_spec (u_id a) id); [contradiction|].
      repeat split; auto.
    + simpl. exact IH.
Qed.

(** The row at a position whose id occurs nowhere before is the one that
    an update rewrites. *)
Lemma update_row_at (pre : list User) u post d :
  NoDup (map u_id (pre ++ u :: post)) ->
  Prisma.update_row (u_id u) d (pre ++ u :: post)
    = Some (Prisma.apply_update d u, (pre ++ Prisma.apply_update d u :: post)%list).
Proof.
  induction pre as [|a pre IH]; simpl; intros Hnd.
  - rewrite String.eqb_refl. reflexivity.
  - inversion Hnd as [|x xs Hnotin Hnd']; subst.
    destruct (String.eqb_spec (u_id a) (u_id u)) as [Heq|Hne].
    + exfalso. apply Hnotin. rewrite Heq, map_app. apply in_or_app. right. left.
      reflexivity.
    + rewrite (IH Hnd'). reflexivity.
Qed.

(** C8: deactivation deletes no row and flips only [isActive].  For every
    stored User [u] (ids being unique), [UserService.deleteUser] returns
    and stores [deactivated u], the row [u] with [isActive] false and every
    other field as it was, in the place of [u]: every other row, the
    predictions and the Firestore mirror are unchanged.
    [DELETE /users/:id] with the id of [u], requested by an ADMIN other
    than [u] who passes the gate, answers 200 and has exactly this effect.
    For an id that no stored user has, [deleteUser] fails and the table is
    unchanged. *)
Theorem deactivation_only_flips_isActive env req w pre u post :
  users w = (pre ++ u :: post)%list ->
  NoDup (map u_id (users w)) ->
  deactivated u
    = mkUser (u_id u) (u_firebaseUid u) (u_email u) (u_name u) (u_role u)
             (u_profileImage u) false (u_createdAt u) /\
  UserService.deleteUser (u_id u) w
    = (Ok (deactivated u), set_users (pre ++ deactivated u :: post) w) /\
  (forall c,
      authenticated env req w c ->
      ctx_role c = ADMIN ->
      param_id req = u_id u ->
      u_id u <> ctx_userId c ->
      Routes.delete_users_id env req w
        = (Ok (json_response
                 (JObj [("success", JBool true);
                        ("message", JStr "User deactivated successfully")])),
           set_users (pre ++ deactivated u :: post) w)) /\
  (forall id,
      existsb (fun v => (u_id v =? id)%string) (users w) = false ->
      UserService.deleteUser id w = (Throw Prisma.record_not_found, w)).
Proof.
  intros Hl Hnd.
  assert (Hsvc : UserService.deleteUser (u_id u) w
                 = (Ok (deactivated u), set_users (pre ++ deactivated u :: post) w)).
  { unfold UserService.deleteUser, Prisma.user_update.
    rewrite Hl. rewrite Hl in Hnd. rewrite (update_row_at pre u post _ Hnd). reflexivity. }
  split; [reflexivity|]. split; [exact Hsvc|]. split.
  - intros c Ha Hrole Hid Hne. unfold Routes.delete_users_id. simpl. unfold bind at 1.
    rewrite (authenticated_passes _ _ _ _ Ha).
    unfold bind at 1, AuthMiddleware.isAdmin, AuthMiddleware.authorize.
    change (user (set_user c req)) with (Some c). cbv iota. rewrite Hrole. simpl.
    unfold UserController.deactivateUser, try_catch, bind, non_null. simpl.
    rewrite Hid.
    destruct (String.eqb_spec (u_id u) (ctx_userId c)) as [Heq|_]; [contradiction|].
    rewrite Hsvc. reflexivity.
  - intros id Hex. unfold UserService.deleteUser, Prisma.user_update.
    pose proof (update_row_spec id (Prisma.mkUpdateUserData None None None (Some false))
                  (users w)) as Hspec.
    destruct (Prisma.update_row id _ (users w)) as [[r l']|]; [|reflexivity].
    destruct Hspec as (pre' & u' & post' & Hl' & Hid' & _).
    exfalso. rewrite Hl' in Hex. rewrite existsb_app in Hex. simpl in Hex.
    rewrite Hid', String.eqb_refl in Hex. simpl in Hex.
    rewrite orb_true_r in Hex. discriminate.
Qed.

Lemma deactivation_only_flips_isActive_witness :
  Routes.delete_users_id env_admin
    (with_param_id "u1" (with_authorization "Bearer root.jwt" request0)) world1
    = (Ok (json_response
             (JObj [("success", JBool true);
                    ("message", JStr "User deactivated successfully")])),
       set_users [deactivated farmer0; admin0] world1).
Proof.
  refine (proj1 (proj2 (proj2
            (deactivation_only_flips_isActive env_admin
               (with_param_id "u1" (with_authorization "Bearer root.jwt" request0))
               world1 [] farmer0 [admin0] eq_refl _)))
            ctx_admin0 _ eq_refl eq_refl _).
  - repeat constructor; simpl; intuition discriminate.
  - exists "root.jwt", (mkDecodedToken "uid-admin" (Some "root@example.com") (Some "Root")),
      admin0.
    repeat split; reflexivity.
  - discriminate.
Defined.

(** ** Reading one prediction *)

Lemma find_by_id_and_owner (l : list Prediction) (p : Prediction) (owner : string) :
  NoDup (map p_id l) ->
  In p l ->
  find (fun q => (p_id q =? p_id p)%string && (p_userId q =? owner)%string) l
    = if (p_userId p =? owner)%string then Some p else None.
Proof.
  induction l as [|a l IH]; simpl; intros Hnd Hin; [contradiction|].
  inversion Hnd as [|x xs Hnotin Hnd']; subst.
  destruct Hin as [-> | Hin].
  - rewrite String.eqb_refl. simpl.
    destruct (p_userId p =? owner)%string eqn:Ho; [reflexivity|].
    apply find_none_of_existsb.
    apply not_true_is_false. intros Hex. apply existsb_exists in Hex.
    destruct Hex as (q & Hq & Hm). apply andb_prop in Hm. destruct Hm as [Hid _].
    apply String.eqb_eq in Hid. apply Hnotin. rewrite <- Hid. apply in_map. exact Hq.
  - destruct (String.eqb_spec (p_id a) (p_id p)) as [Heq|Hne].
    + exfalso. apply Hnotin. rewrite Heq. apply in_map. exact Hin.
    + simpl. apply IH; assumption.
Qed.

(** C9: for a caller that passes the gate and a stored Prediction [p]
    requested by its id (ids being the primary key of the table),
    [GET /predictions/:id] answers with the record exactly when the caller
    is the owner of [p], and with 404 (NotFound) when the owning userId
    differs from the caller's userId; the world is not changed. *)
Theorem prediction_is_returned_only_to_its_owner env req w c p :
  authenticated env req w c ->
  NoDup (map p_id (predictions w)) ->
  In p (predictions w) ->
  param_id req = p_id p ->
  Routes.get_predictions_id env req w
    = (Ok (if (p_userId p =? ctx_userId c)%string
           then prediction_response p w
           else error_response 404 "Prediction not found"), w).
Proof.
  intros Ha Hnd Hin Hid.
  unfold Routes.get_predictions_id. simpl. unfold bind at 1.
  rewrite (authenticated_passes _ _ _ _ Ha).
  unfold PredictionController.getPredictionById, try_catch, bind, non_null, ret,
    Prisma.prediction_findFirst.
  simpl. rewrite Hid.
  rewrite (find_by_id_and_owner (predictions w) p (ctx_userId c) Hnd Hin).
  destruct (p_userId p =? ctx_userId c)%string; reflexivity.
Qed.

Lemma prediction_is_returned_only_to_its_owner_witness :
  Routes.get_predictions_id env0
    (with_param_id "p1" (with_authorization "Bearer good.jwt" request0)) world2
    = (Ok (error_response 404 "Prediction not found"), world2).
Proof.
  apply (prediction_is_returned_only_to_its_owner env0
           (with_param_id "p1" (with_authorization "Bearer good.jwt" request0))
           world2 ctx_farmer0 (prediction_at "p1" "u2" "Gir" 1695000000000)).
  - exists "good.jwt", (mkDecodedToken "uid123" (Some "a@example.com") None), farmer0.
    repeat split; reflexivity.
  - simpl. repeat constructor; simpl; intuition discriminate.
  - simpl. auto.
  - reflexivity.
Defined.

(** ** Profile answers *)

Lemma omit_removes_key k fields : ~ In k (map fst (omit k fields)).
Proof.
  unfold omit. intros Hin. apply in_map_iff in Hin.
  destruct Hin as ((k' & v) & Hk & Hin). simpl in Hk. subst k'.
  apply filter_In in Hin. destruct Hin as [_ Hneq]. simpl in Hneq.
  rewrite String.eqb_refl in Hneq. discriminate.
Qed.

Lemma profile_fields_blind u1 u2 :
  same_but_firebaseUid u1 u2 ->
  omit "firebaseUid" (fields_User u1) = omit "firebaseUid" (fields_User u2).
Proof.
  intros (Hid & Hem & Hnm & Hr & Hpi & Hact & Hcr).
  unfold fields_User, omit. simpl.
  rewrite Hid, Hem, Hnm, Hr, Hpi, Hact, Hcr. reflexivity.
Qed.

Lemma profile_with_predictions_blind u1 u2 ps :
  same_but_firebaseUid u1 u2 ->
  omit "firebaseUid" (fields_UserWithPredictions (u1, ps))
    = omit "firebaseUid" (fields_UserWithPredictions (u2, ps)).
Proof.
  intros H. unfold fields_UserWithPredictions, omit. simpl fst. simpl snd.
  rewrite !filter_app. f_equal. apply (profile_fields_blind u1 u2 H).
Qed.

Lemma find_by_id_blind id l1 l2 :
  Forall2 same_but_firebaseUid l1 l2 ->
  match find (fun u => (u_id u =? id)%string) l1,
        find (fun u => (u_id u =? id)%string) l2 with
  | Some u1, Some u2 => same_but_firebaseUid u1 u2
  | None, None => True
  | _, _ => False
  end.
Proof.
  induction 1 as [|u1 u2 l1 l2 Hu Hl IH]; simpl; [exact I|].
  destruct Hu as (Hid & Hrest). rewrite <- Hid.
  destruct (u_id u1 =? id)%string; [|exact IH].
  split; assumption.
Qed.

Lemma update_row_blind id d l1 l2 :
  Forall2 same_but_firebaseUid l1 l2 ->
  match Prisma.update_row id d l1, Prisma.update_row id d l2 with
  | Some (r1, _), Some (r2, _) => same_but_firebaseUid r1 r2
  | None, None => True
  | _, _ => False
  end.
Proof.
  induction 1 as [|u1 u2 l1 l2 Hu Hl IH]; simpl; [exact I|].
  destruct Hu as (Hid & Hem & Hnm & Hr & Hpi & Hact & Hcr). rewrite <- Hid.
  destruct (u_id u1 =? id)%string.
  - unfold same_but_firebaseUid, Prisma.apply_update. simpl.
    rewrite Hid, Hem, Hnm, Hr, Hpi, Hact, Hcr. repeat split; reflexivity.
  - destruct (Prisma.update_row id d l1) as [[r1 t1]|],
             (Prisma.update_row id d l2) as [[r2 t2]|]; exact IH.
Qed.

Lemma recent_predictions_blind u1 u2 w1 w2 :
  same_but_firebaseUid u1 u2 ->
  predictions w1 = predictions w2 ->
  Prisma.recent_predictions u1 w1 = Prisma.recent_predictions u2 w2.
Proof.
  intros (Hid & _) Hps. unfold Prisma.recent_predictions. rewrite Hid, Hps. reflexivity.
Qed.

Lemma getUserById_blind id w1 w2 :
  differ_only_in_firebaseUid w1 w2 ->
  match fst (UserService.getUserById id w1), fst (UserService.getUserById id w2) with
  | Ok (Some (u1, ps1)), Ok (Some (u2, ps2)) => same_but_firebaseUid u1 u2 /\ ps1 = ps2
  | Ok None, Ok None => True
  | _, _ => False
  end.
Proof.
  intros (Hus & Hps).
  unfold UserService.getUserById, UserService.with_predictions, bind,
    Prisma.user_findUnique_id. simpl.
  pose proof (find_by_id_blind id (users w1) (users w2) Hus) as Hf.
  destruct (find _ (users w1)) as [u1|], (find _ (users w2)) as [u2|];
    simpl; try contradiction; [|exact I].
  split; [exact Hf|]. apply recent_predictions_blind; assumption.
Qed.

(** C10: the answers of get profile, update profile and get user by id do
    not depend on [firebaseUid]: in two worlds whose users differ at most
    in that column, each endpoint gives the same answer to the same
    request; and the [data] object of every such answer has no
    [firebaseUid] property. *)
Theorem firebaseUid_never_leaves_profile_answers env req w1 w2 :
  differ_only_in_firebaseUid w1 w2 ->
  fst (UserController.getProfile req w1) = fst (UserController.getProfile req w2) /\
  fst (UserController.updateProfile env req w1)
    = fst (UserController.updateProfile env req w2) /\
  fst (UserController.getUserById req w1) = fst (UserController.getUserById req w2) /\
  ~ In "firebaseUid" (data_keys (fst (UserController.getProfile req w1))) /\
  ~ In "firebaseUid" (data_keys (fst (UserController.updateProfile env req w1))) /\
  ~ In "firebaseUid" (data_keys (fst (UserController.getUserById req w1))).
Proof.
  intros Hw.
  assert (Hget : forall id,
             fst (try_catch
                    (user <- UserService.getUserById id ;;
                     match user with
                     | None => ret (error_response 404 "User not found")
                     | Some up =>
                         ret (json_response
                                (JObj [("success", JBool true);
                                       ("data", JObj (omit "firebaseUid"
                                                        (fields_UserWithPredictions up)))]))
                     end)
                    (fun err => console_error "Get profile error:" err ;;;
                                ret (error_response 500 "Failed to get user profile")) w1)
             = fst (try_catch
                      (user <- UserService.getUserById id ;;
                       match user with
                       | None => ret (error_response 404 "User not found")
                       | Some up =>
                           ret (json_response
                                  (JObj [("success", JBool true);
                                         ("data", JObj (omit "firebaseUid"
                                                          (fields_UserWithPredictions up)))]))
                       end)
                      (fun err => console_error "Get profile error:" err ;;;
                                  ret (error_response 500 "Failed to get user profile")) w2)).
  { intros id. pose proof (getUserById_blind id w1 w2 Hw) as Hb.
    unfold try_catch, bind.
    destruct (UserService.getUserById id w1) as [[[[u1 ps1]|]|e1] w1'],
             (UserService.getUserById id w2) as [[[[u2 ps2]|]|e2] w2'];
      simpl in Hb; try contradiction; cbv beta iota delta [ret fst]; [|reflexivity].
    destruct Hb as [Hu ->].
    rewrite (profile_with_predictions_blind u1 u2 ps2 Hu). reflexivity. }
  split; [|split; [|split; [|split; [|split]]]].
  - unfold UserController.getProfile.
    destruct (user req) as [c|]; [|reflexivity].
    unfold non_null.
    exact (Hget (ctx_userId c)).
  - unfold UserController.updateProfile, try_catch, bind, non_null,
      UserService.updateUser, Prisma.user_update, bind.
    destruct (user req) as [c|]; [|reflexivity].
    cbv beta iota delta [ret Prisma.upd_role].
    destruct Hw as (Hus & _).
    pose proof (update_row_blind (ctx_userId c)
                  (Prisma.mkUpdateUserData (body_name req) None (body_profileImage req) None)
                  (users w1) (users w2) Hus) as Hb.
    destruct (Prisma.update_row _ _ (users w1)) as [[r1 t1]|],
             (Prisma.update_row _ _ (users w2)) as [[r2 t2]|];
      try contradiction; cbv beta iota delta [ret fst set_users]; [|reflexivity].
    rewrite (profile_fields_blind r1 r2 Hb). reflexivity.
  - unfold UserController.getUserById, try_catch, bind.
    pose proof (getUserById_blind (param_id req) w1 w2 Hw) as Hb.
    destruct (UserService.getUserById (param_id req) w1) as [[[[u1 ps1]|]|e1] w1'],
             (UserService.getUserById (param_id req) w2) as [[[[u2 ps2]|]|e2] w2'];
      simpl in Hb; try contradiction; cbv beta iota delta [ret fst]; [|reflexivity].
    destruct Hb as [Hu ->].
    rewrite (profile_with_predictions_blind u1 u2 ps2 Hu). reflexivity.
  - unfold UserController.getProfile, try_catch, bind, non_null.
    destruct (user req) as [c|]; [|intros H; exact H].
    cbv beta iota delta [ret].
    destruct (UserService.getUserById (ctx_userId c) w1) as [[[up|]|e1] w1'];
      [|intros H; exact H|intros H; exact H].
    exact (omit_removes_key "firebaseUid" (fields_UserWithPredictions up)).
  - unfold UserController.updateProfile, try_catch, bind, non_null.
    destruct (user req) as [c|]; [|intros H; exact H].
    cbv beta iota delta [ret].
    destruct (UserService.updateUser env (ctx_userId c) _ w1) as [[u|e1] w1'];
      [|intros H; exact H].
    exact (omit_removes_key "firebaseUid" (fields_User u)).
  - unfold UserController.getUserById, try_catch, bind.
    destruct (UserService.getUserById (param_id req) w1) as [[[up|]|e1] w1'];
      [|intros H; exact H|intros H; exact H].
    exact (omit_removes_key "firebaseUid" (fields_UserWithPredictions up)).
Qed.

Lemma firebaseUid_never_leaves_profile_answers_witness :
  let req := with_param_id "u2" (set_user ctx_farmer0 request0) in
  fst (UserController.getProfile req world1)
    = fst (UserController.getProfile req world1_retagged) /\
  fst (UserController.updateProfile env0 req world1)
    = fst (UserController.updateProfile env0 req world1_retagged) /\
  fst (UserController.getUserById req world1)
    = fst (UserController.getUserById req world1_retagged) /\
  ~ In "firebaseUid" (data_keys (fst (UserController.getProfile req world1))) /\
  ~ In "firebaseUid" (data_keys (fst (UserController.updateProfile env0 req world1))) /\
  ~ In "firebaseUid" (data_keys (fst (UserController.getUserById req world1))).
Proof.
  intros req.
  apply (firebaseUid_never_leaves_profile_answers env0 req world1 world1_retagged).
  split; [|reflexivity].
  simpl. repeat constructor.
Defined.

(** ** Paginated listings *)

Section OrderBy.

Context {A : Type} (key : A -> Z).

Lemma insert_desc_perm x l : Permutation (Prisma.insert_desc key x l) (x :: l).
Proof.
  induction l as [|y t IH]; simpl; [reflexivity|].
  destruct (key y <=? key x); [reflexivity|].
  rewrite IH. apply perm_swap.
Qed.

Lemma orderBy_desc_perm l : Permutation (Prisma.orderBy_desc key l) l.
Proof.
  induction l as [|x t IH]; simpl; [constructor|].
  rewrite insert_desc_perm. constructor. exact IH.
Qed.

Lemma orderBy_desc_length l : length (Prisma.orderBy_desc key l) = length l.
Proof. apply Permutation_length, orderBy_desc_perm. Qed.

Lemma insert_desc_sorted x l :
  StronglySorted (fun a b => key b <= key a) l ->
  StronglySorted (fun a b => key b <= key a) (Prisma.insert_desc key x l).
Proof.
  induction 1 as [|y t Hs IH Hy]; simpl.
  - repeat constructor.
  - destruct (Z.leb_spec (key y) (key x)) as [Hle|Hlt].
    + constructor; [constructor; assumption|].
      constructor; [exact Hle|].
      rewrite Forall_forall in Hy |- *. intros z Hz. specialize (Hy z Hz). lia.
    + constructor; [exact IH|].
      rewrite Forall_forall in Hy |- *. intros z Hz.
      apply (Permutation_in _ (insert_desc_perm x t)) in Hz.
      destruct Hz as [<- | Hz]; [lia | apply Hy; exact Hz].
Qed.

Lemma orderBy_desc_sorted l :
  StronglySorted (fun a b => key b <= key a) (Prisma.orderBy_desc key l).
Proof.
  induction l as [|x t IH]; simpl; [constructor|].
  apply insert_desc_sorted. exact IH.
Qed.

End OrderBy.

(** Ordering the rendered rows is rendering the ordered rows. *)
Lemma orderBy_desc_map {A} (key : A -> Z) (f : A -> Json) (l : list A) :
  Prisma.orderBy_desc fst (map (fun x => (key x, f x)) l)
    = map (fun x => (key x, f x)) (Prisma.orderBy_desc key l).
Proof.
  induction l as [|x t IH]; simpl; [reflexivity|].
  rewrite IH. generalize (Prisma.orderBy_desc key t). intros s.
  induction s as [|y s IHs]; simpl; [reflexivity|].
  destruct (key y <=? key x); simpl; [reflexivity|].
  rewrite IHs. reflexivity.
Qed.

Lemma page_of_rendered {A} (key : A -> Z) (f : A -> Json) (l : list A) (n m : nat) :
  map f (firstn n (skipn m (Prisma.orderBy_desc key l)))
    = map snd (firstn n (skipn m
                 (Prisma.orderBy_desc fst (map (fun x => (key x, f x)) l)))).
Proof.
  rewrite orderBy_desc_map, skipn_map, firstn_map, map_map. reflexivity.
Qed.

(** [Math.ceil(N / L)] is the least number of pages of [L] rows that hold
    [N] rows. *)
Lemma ceil_div_spec N L :
  1 <= L ->
  (Js.ceil_div N L - 1) * L < N <= Js.ceil_div N L * L.
Proof.
  intros HL. unfold Js.ceil_div.
  pose proof (Z.div_mod (- N) L ltac:(lia)) as Hdm.
  pose proof (Z.mod_pos_bound (- N) L ltac:(lia)) as Hb.
  nia.
Qed.

Lemma skip_take_in_range {A} (skip take : Z) (l : list A) :
  0 <= skip -> 0 <= take ->
  Prisma.skip_take skip take l = Ok (firstn (Z.to_nat take) (skipn (Z.to_nat skip) l)).
Proof.
  intros Hs Ht. unfold Prisma.skip_take.
  destruct (Z.ltb_spec skip 0); [lia|].
  destruct (Z.leb_spec 0 take); [reflexivity | lia].
Qed.

Lemma filter_true {A} (l : list A) : filter (fun _ => true) l = l.
Proof. induction l as [|x t IH]; simpl; [|rewrite IH]; reflexivity. Qed.

(** Integers up to 2^53 in absolute value are doubles. *)
Lemma round_double_exact z : Z.abs z <= 2 ^ 53 -> Js.round_double z = Js.Num z.
Proof.
  intros Hz. unfold Js.round_double.
  destruct (Z.leb_spec (Z.abs z) (2 ^ 53)) as [_|Hgt]; [reflexivity | lia].
Qed.

(** Up to 2^53 the number that [parseInt(v) || d] gives is the integer
    that the query names. *)
Lemma or_num_parseInt_exact v d :
  Z.abs (match Js.mathInt v with
         | Some n => if n =? 0 then d else n
         | None => d
         end) <= 2 ^ 53 ->
  Js.or_num (Js.parseInt v) d
    = Js.Num (match Js.mathInt v with
              | Some n => if n =? 0 then d else n
              | None => d
              end).
Proof.
  unfold Js.parseInt. destruct (Js.mathInt v) as [z|]; [|reflexivity].
  destruct (Z.eqb_spec z 0) as [->|Hz]; intros Hb; [reflexivity|].
  rewrite (round_double_exact z Hb). unfold Js.or_num.
  destruct (Z.eqb_spec z 0); [contradiction | reflexivity].
Qed.

(** What each listing handler answers when the page, the limit and the
    offset that it computes are integers, [skip] is not negative and
    [take] is positive. *)
Lemma listing_handler_answer l req w c page L skip :
  user req = Some c ->
  Js.or_num (Js.parseInt (query_page req)) 1 = Js.Num page ->
  Js.or_num (Js.parseInt (query_limit req)) (default_limit l) = Js.Num L ->
  Js.mul (Js.sub (Js.Num page) (Js.Num 1)) (Js.Num L) = Js.Num skip ->
  0 <= skip ->
  1 <= L ->
  listing_handler l req w
    = (Ok (listing_response
             (map snd (firstn (Z.to_nat L)
                         (skipn (Z.to_nat skip)
                            (Prisma.orderBy_desc fst (listed_rows l req w)))))
             page L
             (Z.of_nat (length (listed_rows l req w)))
             (Js.ceil_div (Z.of_nat (length (listed_rows l req w))) L)), w).
Proof.
  intros Hu Hpage Hlimit Hmul Hskip Htake.
  assert (HL0 : (L =? 0) = false) by (apply Z.eqb_neq; lia).
  destruct l; simpl default_limit in *; unfold listing_handler, listed_rows;
    rewrite <- page_of_rendered, length_map.
  - unfold PredictionController.getPredictionHistory, try_catch, bind, non_null,
      Prisma.findMany, Prisma.count, ret.
    rewrite Hu. cbv zeta. rewrite Hpage, Hlimit, Hmul.
    rewrite (skip_take_in_range skip L _ Hskip ltac:(lia)).
    unfold Js.Math_ceil_div. rewrite HL0. reflexivity.
  - unfold PredictionController.getAllPredictions, try_catch, bind,
      Prisma.findMany, Prisma.count, ret.
    cbv zeta. rewrite Hpage, Hlimit, Hmul.
    rewrite (skip_take_in_range skip L _ Hskip ltac:(lia)).
    rewrite filter_true. unfold Js.Math_ceil_div. rewrite HL0. reflexivity.
  - unfold UserController.getAllUsers, UserService.getAllUsers, try_catch, bind,
      Prisma.findMany, Prisma.count, ret.
    cbv zeta. rewrite Hpage, Hlimit, Hmul.
    rewrite (skip_take_in_range skip L _ Hskip ltac:(lia)).
    rewrite filter_true. unfold Js.Math_ceil_div. rewrite HL0.
    simpl. rewrite map_map. reflexivity.
  - unfold UserController.searchUsers, UserService.getAllUsers, try_catch, bind,
      Prisma.findMany, Prisma.count, ret.
    cbv zeta. rewrite Hpage, Hlimit, Hmul.
    rewrite (skip_take_in_range skip L _ Hskip ltac:(lia)).
    rewrite filter_true. unfold Js.Math_ceil_div. rewrite HL0.
    simpl. rewrite map_map. reflexivity.
Qed.

(** C5, as stated, fails: page and limit are doubles.  A request for page
    9007199254740993 (2^53 + 1) of the prediction history is answered with
    an envelope whose [page] is 9007199254740992, which is not the
    envelope of the page that was asked for. *)
Lemma page_above_2_53_is_not_echoed :
  let req := with_query (Some "9007199254740993") (Some "2")
               (set_user ctx_farmer0 request0) in
  requested_page req = 9007199254740993 /\
  requested_limit PredictionHistory req = 2 /\
  Z.of_nat (length (listed_rows PredictionHistory req world2)) = 3 /\
  fst (listing_handler PredictionHistory req world2)
    = Ok (listing_response [] 9007199254740992 2 3 (Js.ceil_div 3 2)) /\
  fst (listing_handler PredictionHistory req world2)
    <> Ok (listing_response [] (requested_page req) 2 3 (Js.ceil_div 3 2)).
Proof.
  intros req.
  assert (Hanswer : fst (listing_handler PredictionHistory req world2)
                    = Ok (listing_response [] 9007199254740992 2 3 (Js.ceil_div 3 2))).
  { rewrite (listing_handler_answer PredictionHistory req world2 ctx_farmer0
               9007199254740992 2 18014398509481982 eq_refl);
      [|vm_compute; reflexivity ..|lia|lia].
    rewrite skipn_all2; [reflexivity|].
    rewrite orderBy_desc_length. apply Nat2Z.inj_le. rewrite Z2Nat.id by lia.
    vm_compute. discriminate. }
  split; [vm_compute; reflexivity|].
  split; [vm_compute; reflexivity|].
  split; [vm_compute; reflexivity|].
  split; [exact Hanswer|].
  rewrite Hanswer. vm_compute. discriminate.
Qed.

(** C5 (amended): for every listing endpoint, with the N stored rows it
    ranges over (fewer than 2^53, as a count is a double too) and a
    requested [page >= 1] and limit [L >= 1] such that [page], [L] and the
    offset [(page - 1) * L] are at most 2^53, where a double holds every
    integer: the answer is a success whose envelope is
    [{page, limit = L, total = N, pages}] with [pages] the ceiling of
    N / L, and whose data are the [L] rows from offset [(page - 1) * L] of
    the stored rows ordered by creation time, newest first; for a page
    beyond [pages] the data set is empty and the envelope is the same. *)
Theorem listing_is_paginated l req w c :
  user req = Some c ->
  1 <= requested_page req <= 2 ^ 53 ->
  1 <= requested_limit l req <= 2 ^ 53 ->
  (requested_page req - 1) * requested_limit l req <= 2 ^ 53 ->
  Z.of_nat (length (listed_rows l req w)) < 2 ^ 53 ->
  let page := requested_page req in
  let L := requested_limit l req in
  let rows := listed_rows l req w in
  let N := Z.of_nat (length rows) in
  let pages := Js.ceil_div N L in
  let sorted := Prisma.orderBy_desc fst rows in
  let data := firstn (Z.to_nat L) (skipn (Z.to_nat ((page - 1) * L)) sorted) in
  listing_handler l req w = (Ok (listing_response (map snd data) page L N pages), w) /\
  (pages - 1) * L < N <= pages * L /\
  Permutation sorted rows /\
  StronglySorted newer_or_equal sorted /\
  (page <= pages \/ data = []).
Proof.
  intros Hu Hpage HL Hoffset HN page L rows N pages sorted data.
  assert (HL1 : 1 <= L) by (unfold L; lia).
  split; [|split; [|split; [|split]]].
  - assert (Hp : Js.or_num (Js.parseInt (query_page req)) 1 = Js.Num page).
    { apply or_num_parseInt_exact. fold (requested_page req). lia. }
    assert (Hl : Js.or_num (Js.parseInt (query_limit req)) (default_limit l) = Js.Num L).
    { apply (or_num_parseInt_exact (query_limit req) (default_limit l)).
      fold (requested_limit l req). lia. }
    assert (Hsub : Js.sub (Js.Num page) (Js.Num 1) = Js.Num (page - 1)).
    { unfold Js.sub. apply round_double_exact. unfold page. lia. }
    apply (listing_handler_answer l req w c page L ((page - 1) * L) Hu Hp Hl);
      [|unfold page; nia|exact HL1].
    rewrite Hsub. unfold Js.mul. apply round_double_exact. unfold page, L in *. nia.
  - apply ceil_div_spec. exact HL1.
  - apply orderBy_desc_perm.
  - apply (orderBy_desc_sorted (A := Z * Json) fst).
  - destruct (Z.le_gt_cases page pages) as [Hle|Hgt]; [left; exact Hle|right].
    pose proof (ceil_div_spec N L HL1) as [_ Hup]. fold pages in Hup.
    unfold data. rewrite skipn_all2; [apply firstn_nil|].
    unfold sorted. rewrite orderBy_desc_length. fold rows.
    apply Nat2Z.inj_le. fold N. rewrite Z2Nat.id; unfold page in *; nia.
Qed.

Lemma listing_is_paginated_witness :
  let history page :=
    with_query (Some page) (Some "2") (set_user ctx_farmer0 request0) in
  fst (PredictionController.getPredictionHistory (history "2") world2)
    = Ok (listing_response
            [PredictionController.history_row (prediction_at "p4" "u1" "Tharparkar" 1694000000000)]
            2 2 3 2) /\
  fst (PredictionController.getPredictionHistory (history "7") world2)
    = Ok (listing_response [] 7 2 3 2).
Proof.
  intros history. split.
  - destruct (listing_is_paginated PredictionHistory (history "2") world2 ctx_farmer0
                eq_refl) as (Hanswer & _);
      [vm_compute; split; discriminate | vm_compute; split; discriminate
       | vm_compute; discriminate | vm_compute; reflexivity |].
    change (PredictionController.getPredictionHistory (history "2") world2)
      with (listing_handler PredictionHistory (history "2") world2).
    rewrite Hanswer. reflexivity.
  - destruct (listing_is_paginated PredictionHistory (history "7") world2 ctx_farmer0
                eq_refl) as (Hanswer & _ & _ & _ & [Hle | Hempty]);
      [vm_compute; split; discriminate | vm_compute; split; discriminate
       | vm_compute; discriminate | vm_compute; reflexivity | |].
    + vm_compute in Hle. exfalso. apply Hle. reflexivity.
    + change (PredictionController.getPredictionHistory (history "7") world2)
        with (listing_handler PredictionHistory (history "7") world2).
      rewrite Hanswer, Hempty. reflexivity.
Defined.

(** ** The key constraints are kept by every write *)

Lemma NoDup_map_snoc {A} (f : A -> string) (l : list A) (y : A) :
  NoDup (map f l) ->
  existsb (fun x => (f x =? f y)%string) l = false ->
  NoDup (map f (l ++ [y])).
Proof.
  intros Hnd Hfresh. rewrite map_app. simpl.
  apply NoDup_rev in Hnd. rewrite <- (rev_involutive (map f l ++ [f y])).
  apply NoDup_rev. rewrite rev_app_distr. simpl.
  constructor; [|exact Hnd].
  rewrite <- in_rev. intros Hin. apply in_map_iff in Hin.
  destruct Hin as (x & Hx & Hin).
  assert (Hex : existsb (fun x => (f x =? f y)%string) l = true).
  { apply existsb_exists. exists x. split; [exact Hin|]. apply String.eqb_eq. exact Hx. }
  congruence.
Qed.

Lemma update_row_keeps_keys id d l r l' :
  Prisma.update_row id d l = Some (r, l') ->
  map u_id l' = map u_id l /\
  map u_firebaseUid l' = map u_firebaseUid l /\
  map u_email l' = map u_email l.
Proof.
  revert r l'. induction l as [|a t IH]; simpl; intros r l' H; [discriminate|].
  destruct (u_id a =? id)%string.
  - inversion H; subst. simpl. auto.
  - destruct (Prisma.update_row id d t) as [[r0 t0]|]; [|discriminate].
    inversion H; subst. destruct (IH r t0 eq_refl) as (H1 & H2 & H3).
    simpl. rewrite H1, H2, H3. auto.
Qed.

Lemma user_create_keeps_keys env fuid mail nm r w :
  keys_unique w ->
  keys_unique (snd (Prisma.user_create env fuid mail nm r w)).
Proof.
  intros (Hid & Hfu & Hem & Hp). unfold Prisma.user_create.
  destruct (existsb (fun u => (u_firebaseUid u =? fuid)%string) (users w)) eqn:E1;
    [repeat split; simpl; assumption|].
  destruct (existsb (fun u => (u_email u =? mail)%string) (users w)) eqn:E2;
    [repeat split; simpl; assumption|].
  destruct (existsb (fun u => (u_id u =? genId env (nextId w))%string) (users w)) eqn:E3;
    [repeat split; simpl; assumption|].
  unfold keys_unique. simpl.
  split; [apply NoDup_map_snoc; [exact Hid | exact E3]|].
  split; [apply NoDup_map_snoc; [exact Hfu | exact E1]|].
  split; [apply NoDup_map_snoc; [exact Hem | exact E2]|exact Hp].
Qed.

Lemma user_update_keeps_keys id d w :
  keys_unique w ->
  keys_unique (snd (Prisma.user_update id d w)).
Proof.
  intros (Hid & Hfu & Hem & Hp). unfold Prisma.user_update.
  destruct (Prisma.update_row id d (users w)) as [[r l']|] eqn:E;
    [|repeat split; simpl; assumption].
  destruct (update_row_keeps_keys id d (users w) r l' E) as (H1 & H2 & H3).
  unfold keys_unique. simpl. rewrite H1, H2, H3. repeat split; assumption.
Qed.

Lemma prediction_create_keeps_keys env userId imagePath breed conf ptime md w :
  keys_unique w ->
  keys_unique (snd (Prisma.prediction_create env userId imagePath breed conf ptime md w)).
Proof.
  intros (Hid & Hfu & Hem & Hp). unfold Prisma.prediction_create.
  destruct (existsb _ (predictions w)) eqn:E1; [repeat split; simpl; assumption|].
  destruct (negb _); [repeat split; simpl; assumption|].
  unfold keys_unique. simpl.
  repeat (split; [assumption|]).
  apply NoDup_map_snoc; [exact Hp | exact E1].
Qed.

(** ** More of the gate: missing tokens, unknown subjects, role gates *)

(** X1: a request with no usable bearer token (no header, an empty header,
    a header with no second word or an empty one) is answered 401 "Access
    token required" by every authenticated route; the verifier is not
    consulted, no handler runs and the world is untouched. *)
Theorem missing_token_is_answered_401 env (rest : list Middleware) (h : Handler) req w :
  Js.truthy_opt (bearer_token (authorization req)) = false ->
  run_chain (AuthMiddleware.authenticateToken env :: rest) h req w
    = (Ok (error_response 401 "Access token required"), w).
Proof.
  intros Htok. simpl. unfold bind at 1.
  unfold AuthMiddleware.authenticateToken, try_catch.
  rewrite Htok. reflexivity.
Qed.

Lemma missing_token_is_answered_401_witness :
  Routes.get_users_profile env0 (with_authorization "Bearer " request0) world1
    = (Ok (error_response 401 "Access token required"), world1) /\
  Routes.delete_users_id env0 (with_authorization "Token" request0) world1
    = (Ok (error_response 401 "Access token required"), world1).
Proof.
  split.
  - apply (missing_token_is_answered_401 env0 [] UserController.getProfile
             (with_authorization "Bearer " request0) world1). reflexivity.
  - apply (missing_token_is_answered_401 env0 [AuthMiddleware.isAdmin]
             UserController.deactivateUser
             (with_authorization "Token" request0) world1). reflexivity.
Defined.

(** X2: a token that the verifier accepts but whose subject has no local
    user is answered 404 "User not found in database" by every
    authenticated route, with the world untouched: the gate never creates
    a user. *)
Theorem unregistered_subject_is_answered_404 env (rest : list Middleware) (h : Handler)
        req w t d :
  bearer_token (authorization req) = Some t ->
  Js.truthy t = true ->
  verifyIdToken env t = Ok d ->
  existsb (fun u => (u_firebaseUid u =? uid d)%string) (users w) = false ->
  run_chain (AuthMiddleware.authenticateToken env :: rest) h req w
    = (Ok (error_response 404 "User not found in database"), w).
Proof.
  intros Htok Htr Hver Hnone. simpl. unfold bind at 1.
  unfold AuthMiddleware.authenticateToken, try_catch, bind,
    Prisma.user_findUnique_firebaseUid, Js.truthy_opt.
  rewrite Htok, Htr. simpl. rewrite Hver, (find_none_of_existsb _ _ Hnone). reflexivity.
Qed.

Lemma unregistered_subject_is_answered_404_witness :
  Routes.get_predictions_history env0 (with_authorization "Bearer good.jwt" request0) world0
    = (Ok (error_response 404 "User not found in database"), world0).
Proof.
  apply (unregistered_subject_is_answered_404 env0 [] PredictionController.getPredictionHistory
           (with_authorization "Bearer good.jwt" request0) world0 "good.jwt"
           (mkDecodedToken "uid123" (Some "a@example.com") None)); reflexivity.
Defined.

Lemma authorize_passes_iff roles req w :
  AuthMiddleware.authorize roles req w = (Ok (Next req), w) <->
  exists c, user req = Some c /\ existsb (UserRole_eqb (ctx_role c)) roles = true.
Proof.
  unfold AuthMiddleware.authorize. destruct (user req) as [c|].
  - destruct (existsb (UserRole_eqb (ctx_role c)) roles) eqn:E; simpl; split.
    + intros _. exists c. auto.
    + reflexivity.
    + unfold ret. intros H. inversion H.
    + intros (c' & Hc & Hex). inversion Hc; subst. congruence.
  - split; [unfold ret; intros H; inversion H | intros (c & Hc & _); discriminate].
Qed.

Lemma existsb_role_incl r (roles1 roles2 : list UserRole) :
  incl roles1 roles2 ->
  existsb (UserRole_eqb r) roles1 = true ->
  existsb (UserRole_eqb r) roles2 = true.
Proof.
  intros Hincl H. apply existsb_exists in H. destruct H as (x & Hin & Hx).
  apply existsb_exists. exists x. split; [apply Hincl; exact Hin | exact Hx].
Qed.

(** X3: role gates are monotone in their role list and never touch the
    world: a request that passes [authorize roles1] passes every
    [authorize roles2] with [roles1] included in [roles2].  So whoever
    passes [isAdmin] passes [isOfficer], and whoever passes [isOfficer]
    passes [isFarmer]. *)
Theorem role_gates_are_nested roles1 roles2 req w :
  incl roles1 roles2 ->
  AuthMiddleware.authorize roles1 req w = (Ok (Next req), w) ->
  AuthMiddleware.authorize roles2 req w = (Ok (Next req), w) /\
  (AuthMiddleware.isAdmin req w = (Ok (Next req), w) ->
   AuthMiddleware.isOfficer req w = (Ok (Next req), w)) /\
  (AuthMiddleware.isOfficer req w = (Ok (Next req), w) ->
   AuthMiddleware.isFarmer req w = (Ok (Next req), w)).
Proof.
  intros Hincl Hpass.
  assert (Hmono : forall l1 l2,
             incl l1 l2 ->
             AuthMiddleware.authorize l1 req w = (Ok (Next req), w) ->
             AuthMiddleware.authorize l2 req w = (Ok (Next req), w)).
  { intros l1 l2 Hl H. apply authorize_passes_iff in H. destruct H as (c & Hc & Hex).
    apply authorize_passes_iff. exists c. split; [exact Hc|].
    apply (existsb_role_incl _ l1 l2 Hl Hex). }
  split; [apply (Hmono roles1 roles2 Hincl Hpass)|]. split.
  - apply Hmono. intros x [<-|[]]. simpl. auto.
  - apply Hmono. intros x [<-|[<-|[]]]; simpl; auto.
Qed.

Lemma role_gates_are_nested_witness :
  AuthMiddleware.isOfficer (set_user ctx_admin0 request0) world1
    = (Ok (Next (set_user ctx_admin0 request0)), world1).
Proof.
  refine (proj1 (role_gates_are_nested [ADMIN] [OFFICER; ADMIN]
                   (set_user ctx_admin0 request0) world1 _ eq_refl)).
  intros x [<-|[]]. simpl. auto.
Defined.

(** X4: on a route guarded by the gate and a role gate, a caller whose role
    is not in the permitted list is answered 403 "Insufficient
    permissions", naming the required roles and the caller's role; the
    handler does not run and the world is untouched. *)
Theorem role_gate_refuses_before_handler env roles (h : Handler) req w c :
  authenticated env req w c ->
  existsb (UserRole_eqb (ctx_role c)) roles = false ->
  run_chain [AuthMiddleware.authenticateToken env; AuthMiddleware.authorize roles] h req w
    = (Ok (insufficient_permissions roles (ctx_role c)), w).
Proof.
  intros Ha Hrole. simpl. unfold bind at 1.
  rewrite (authenticated_passes _ _ _ _ Ha).
  unfold bind at 1, AuthMiddleware.authorize.
  change (user (set_user c req)) with (Some c). cbv iota. rewrite Hrole. reflexivity.
Qed.

Lemma role_gate_refuses_before_handler_witness :
  Routes.put_users_id_role env0
    (with_body_role "ADMIN" (with_param_id "u1"
       (with_authorization "Bearer good.jwt" request0))) world1
    = (Ok (insufficient_permissions [ADMIN] FARMER), world1).
Proof.
  apply (role_gate_refuses_before_handler env0 [ADMIN] (UserController.updateUserRole env0)
           _ world1 ctx_farmer0); [|reflexivity].
  exists "good.jwt", (mkDecodedToken "uid123" (Some "a@example.com") None), farmer0.
  repeat split; reflexivity.
Defined.

(** X5: [POST /auth/verify-token] and the gate agree on every request: the
    endpoint answers 200 exactly when the gate lets the request through,
    and otherwise with the status the gate answers with (401, 403 or 404);
    it never changes the tables. *)
Theorem verifyToken_agrees_with_gate env req w :
  answered_status (fst (AuthController.verifyToken env req w))
    = gate_status (fst (AuthMiddleware.authenticateToken env req w)) /\
  users (snd (AuthController.verifyToken env req w)) = users w /\
  predictions (snd (AuthController.verifyToken env req w)) = predictions w.
Proof.
  unfold AuthController.verifyToken, AuthMiddleware.authenticateToken, try_catch, bind,
    UserService.getUserByFirebaseUid, UserService.with_predictions,
    Prisma.user_findUnique_firebaseUid, ret, console_error, bind.
  destruct (negb (Js.truthy_opt (bearer_token (authorization req)))); simpl; [auto|].
  destruct (verifyIdToken env _) as [d|e]; simpl; [|auto].
  destruct (find _ (users w)) as [u|]; simpl; [|auto].
  destruct (u_isActive u); simpl; auto.
Qed.

Lemma find_by_id_unique (l : list User) (u : User) :
  NoDup (map u_id l) ->
  In u l ->
  find (fun x => (u_id x =? u_id u)%string) l = Some u.
Proof.
  induction l as [|a t IH]; simpl; intros Hnd Hin; [contradiction|].
  inversion Hnd as [|x xs Hnotin Hnd']; subst.
  destruct Hin as [-> | Hin].
  - rewrite String.eqb_refl. reflexivity.
  - destruct (String.eqb_spec (u_id a) (u_id u)) as [Heq|Hne].
    + exfalso. apply Hnotin. rewrite Heq. apply in_map. exact Hin.
    + apply IH; assumption.
Qed.

(** With unique ids, an update rewrites the row of the user and every
    lookup that does not depend on the updated columns finds the rewritten
    row. *)
Lemma update_row_unique (p : User -> bool) id d (l : list User) (u : User) :
  (forall x, p (Prisma.apply_update d x) = p x) ->
  NoDup (map u_id l) ->
  find p l = Some u ->
  u_id u = id ->
  exists l',
    Prisma.update_row id d l = Some (Prisma.apply_update d u, l') /\
    find p l' = Some (Prisma.apply_update d u) /\
    find (fun x => (u_id x =? id)%string) l' = Some (Prisma.apply_update d u).
Proof.
  intros Hp. induction l as [|a t IH]; simpl; intros Hnd Hfind Hid; [discriminate|].
  inversion Hnd as [|x xs Hnotin Hnd']; subst.
  destruct (String.eqb_spec (u_id a) (u_id u)) as [Heq|Hne].
  - destruct (p a) eqn:Hpa.
    + inversion Hfind; subst. eexists. split; [reflexivity|]. simpl.
      rewrite Hp, Hpa, String.eqb_refl. auto.
    + exfalso. apply find_some in Hfind. destruct Hfind as [Hin _].
      apply Hnotin. rewrite Heq. apply in_map. exact Hin.
  - destruct (p a) eqn:Hpa.
    + inversion Hfind; subst. contradiction.
    + destruct (IH Hnd' Hfind eq_refl) as (t' & Hup & Hf1 & Hf2).
      rewrite Hup. eexists. split; [reflexivity|]. simpl.
      rewrite Hpa. destruct (String.eqb_spec (u_id a) (u_id u)); [contradiction|]. auto.
Qed.

(** What [authenticated] says about the row behind the context. *)
Lemma authenticated_row env req w c :
  authenticated env req w c ->
  exists u,
    find (fun x => (u_firebaseUid x =? ctx_uid c)%string) (users w) = Some u /\
    In u (users w) /\
    u_id u = ctx_userId c /\
    u_role u = ctx_role c /\
    u_isActive u = true.
Proof.
  intros (t & d & u & _ & _ & _ & Hfind & Hact & ->). exists u. simpl.
  split; [exact Hfind|]. split; [apply (find_some _ _ Hfind)|]. auto.
Qed.

(** X6: deactivation locks the user out.  With unique ids, once
    [deleteUser] has succeeded for the id of a caller who passed the gate,
    the same request is answered 403 by every authenticated route and by
    [POST /auth/verify-token]; no later handler runs. *)
Theorem deactivated_user_is_locked_out env (rest : list Middleware) (h : Handler)
        req w c u' w' :
  authenticated env req w c ->
  NoDup (map u_id (users w)) ->
  UserService.deleteUser (ctx_userId c) w = (Ok u', w') ->
  run_chain (AuthMiddleware.authenticateToken env :: rest) h req w'
    = (Ok (error_response 403 "User account is deactivated"), w') /\
  AuthController.verifyToken env req w'
    = (Ok (error_response 403 "Account is deactivated"), w').
Proof.
  intros Ha Hnd Hdel.
  destruct (authenticated_row env req w c Ha) as (u & Hfind & _ & Hid & _ & _).
  destruct Ha as (t & d & u0 & Htok & Htr & Hver & Hfind0 & _ & Hc).
  assert (Huid : ctx_uid c = uid d) by (subst c; reflexivity).
  rewrite Huid in Hfind.
  destruct (update_row_unique (fun x => (u_firebaseUid x =? uid d)%string)
              (ctx_userId c) (Prisma.mkUpdateUserData None None None (Some false))
              (users w) u (fun x => eq_refl) Hnd Hfind Hid)
    as (l' & Hup & Hf & _).
  unfold UserService.deleteUser, Prisma.user_update in Hdel. rewrite Hup in Hdel.
  inversion Hdel; subst u' w'. clear Hdel.
  split.
  - simpl. unfold bind at 1.
    unfold AuthMiddleware.authenticateToken, try_catch, bind,
      Prisma.user_findUnique_firebaseUid, Js.truthy_opt.
    rewrite Htok, Htr. simpl. rewrite Hver. simpl. rewrite Hf. reflexivity.
  - unfold AuthController.verifyToken, try_catch, bind,
      UserService.getUserByFirebaseUid, UserService.with_predictions,
      Prisma.user_findUnique_firebaseUid, Js.truthy_opt.
    rewrite Htok, Htr. simpl. rewrite Hver. simpl. rewrite Hf. reflexivity.
Qed.

Lemma deactivated_user_is_locked_out_witness :
  Routes.get_users_profile env0 (with_authorization "Bearer good.jwt" request0)
    world1_deactivated
    = (Ok (error_response 403 "User account is deactivated"), world1_deactivated).
Proof.
  refine (proj1 (deactivated_user_is_locked_out env0 [] UserController.getProfile
                   (with_authorization "Bearer good.jwt" request0) world1 ctx_farmer0
                   (deactivated farmer0) world1_deactivated _ _ eq_refl)).
  - exists "good.jwt", (mkDecodedToken "uid123" (Some "a@example.com") None), farmer0.
    repeat split; reflexivity.
  - simpl. repeat constructor; simpl; intuition discriminate.
Defined.

(** X7: [GET /auth/me] shows the caller their own row.  With unique ids, a
    caller who passes the gate is answered 200 with the id, email, name,
    role, profile image and creation time of the row that the gate found
    for their subject; the world is untouched. *)
Theorem me_is_the_callers_row env req w c :
  authenticated env req w c ->
  NoDup (map u_id (users w)) ->
  exists u,
    find (fun x => (u_firebaseUid x =? ctx_uid c)%string) (users w) = Some u /\
    u_id u = ctx_userId c /\
    Routes.get_auth_me env req w = (Ok (me_response u), w).
Proof.
  intros Ha Hnd.
  destruct (authenticated_row env req w c Ha) as (u & Hfind & Hin & Hid & _ & _).
  exists u. split; [exact Hfind|]. split; [exact Hid|].
  unfold Routes.get_auth_me. simpl. unfold bind at 1.
  rewrite (authenticated_passes _ _ _ _ Ha).
  unfold AuthController.getCurrentUser, try_catch, bind, UserService.getUserById,
    UserService.with_predictions, Prisma.user_findUnique_id.
  simpl. rewrite <- Hid. rewrite (find_by_id_unique (users w) u Hnd Hin). reflexivity.
Qed.

Lemma me_is_the_callers_row_witness :
  exists u,
    find (fun x => (u_firebaseUid x =? "uid123")%string) (users world2) = Some u /\
    u_id u = "u1" /\
    Routes.get_auth_me env0 (with_authorization "Bearer good.jwt" request0) world2
      = (Ok (me_response u), world2).
Proof.
  apply (me_is_the_callers_row env0 (with_authorization "Bearer good.jwt" request0)
           world2 ctx_farmer0).
  - exists "good.jwt", (mkDecodedToken "uid123" (Some "a@example.com") None), farmer0.
    repeat split; reflexivity.
  - simpl. repeat constructor; simpl; intuition discriminate.
Defined.

(** ** Profile and role updates *)

Lemma role_of_string_name r : role_of_string (role_name r) = Some r.
Proof. destruct r; reflexivity. Qed.

Lemma role_of_string_exact s r : role_of_string s = Some r -> s = role_name r.
Proof.
  unfold role_of_string.
  destruct (String.eqb_spec s "FARMER"); [intros H; inversion H; subst; reflexivity|].
  destruct (String.eqb_spec s "OFFICER"); [intros H; inversion H; subst; reflexivity|].
  destruct (String.eqb_spec s "ADMIN"); [intros H; inversion H; subst; reflexivity|].
  discriminate.
Qed.

Lemma role_of_string_other s : (forall r, s <> role_name r) -> role_of_string s = None.
Proof.
  intros H. destruct (role_of_string s) as [r|] eqn:E; [|reflexivity].
  exfalso. apply (H r). apply role_of_string_exact. exact E.
Qed.

(** [updateUser] when the row exists: the mirror cannot make it fail. *)
Lemma updateUser_of_row env id d w u l' :
  Prisma.update_row id d (users w) = Some (u, l') ->
  exists w',
    UserService.updateUser env id d w = (Ok u, w') /\
    users w' = l' /\
    predictions w' = predictions w.
Proof.
  intros Hup. unfold UserService.updateUser, bind at 1, Prisma.user_update.
  rewrite Hup. unfold bind at 1.
  destruct (Prisma.upd_role d) as [r|].
  - destruct (sync_always_resolves env (u_firebaseUid u) r (set_users l' w))
      as (w' & Hsync & Hus & Hps & _).
    rewrite Hsync. exists w'. auto.
  - exists (set_users l' w). auto.
Qed.

(** X8: [PUT /auth/profile] applies whatever valid role the caller names to
    the caller's own row.  With unique ids, a caller who passes the gate
    (a FARMER included) and sends one of the role names FARMER, OFFICER or
    ADMIN is answered 200 with that role, and the stored row carries it
    afterwards; no role gate guards this route. *)
Theorem caller_sets_own_role env req w c s r :
  authenticated env req w c ->
  NoDup (map u_id (users w)) ->
  body_role req = Some s ->
  role_of_string s = Some r ->
  exists u' w',
    Routes.put_auth_profile env req w = (Ok (onboarding_response u'), w') /\
    u_id u' = ctx_userId c /\
    u_role u' = r /\
    find (fun x => (u_id x =? ctx_userId c)%string) (users w') = Some u'.
Proof.
  intros Ha Hnd Hbody Hrole.
  destruct (authenticated_row env req w c Ha) as (u & Hfind & Hin & Hid & _ & _).
  pose (d := Prisma.mkUpdateUserData (body_name req) (Some r) None None).
  destruct (update_row_unique (fun x => (u_firebaseUid x =? ctx_uid c)%string)
              (ctx_userId c) d (users w) u (fun x => eq_refl) Hnd Hfind Hid)
    as (l' & Hup & _ & Hbyid).
  destruct (updateUser_of_row env (ctx_userId c) d w _ l' Hup) as (w' & Hupd & Hus & _).
  exists (Prisma.apply_update d u), w'.
  split; [|split; [exact Hid | split; [reflexivity | rewrite Hus; exact Hbyid]]].
  unfold Routes.put_auth_profile. simpl. unfold bind at 1.
  rewrite (authenticated_passes _ _ _ _ Ha).
  unfold AuthController.updateProfile, try_catch.
  change (user (set_user c req)) with (Some c). cbv iota.
  change (body_role (set_user c req)) with (body_role req).
  change (body_name (set_user c req)) with (body_name req).
  rewrite Hbody, Hrole.
  assert (Ht : Js.truthy_opt (Some s) && negb true = false) by apply andb_false_r.
  rewrite Ht. unfold bind at 1. fold d. rewrite Hupd. reflexivity.
Qed.

Lemma caller_sets_own_role_witness :
  exists u' w',
    Routes.put_auth_profile env0
      (with_body_role "ADMIN" (with_authorization "Bearer good.jwt" request0)) world1
      = (Ok (onboarding_response u'), w') /\
    u_id u' = "u1" /\
    u_role u' = ADMIN /\
    find (fun x => (u_id x =? "u1")%string) (users w') = Some u'.
Proof.
  apply (caller_sets_own_role env0
           (with_body_role "ADMIN" (with_authorization "Bearer good.jwt" request0))
           world1 ctx_farmer0 "ADMIN" ADMIN).
  - exists "good.jwt", (mkDecodedToken "uid123" (Some "a@example.com") None), farmer0.
    repeat split; reflexivity.
  - simpl. repeat constructor; simpl; intuition discriminate.
  - reflexivity.
  - reflexivity.
Defined.

(** X9: role names are matched exactly.  A role string that is none of
    FARMER, OFFICER, ADMIN (a lower-case "admin", say) makes
    [updateUserRole] answer 400 "Invalid role", and [updateProfile] too
    when the string is not empty; neither touches the store or the
    mirror. *)
Theorem unknown_role_is_refused env req w c s :
  body_role req = Some s ->
  (forall r, s <> role_name r) ->
  Js.truthy s = true ->
  user req = Some c ->
  UserController.updateUserRole env req w = (Ok (error_response 400 "Invalid role"), w) /\
  AuthController.updateProfile env req w = (Ok (error_response 400 "Invalid role"), w).
Proof.
  intros Hbody Hother Htr Hu.
  pose proof (role_of_string_other s Hother) as Hnone.
  split.
  - unfold UserController.updateUserRole, try_catch. rewrite Hbody, Hnone. reflexivity.
  - unfold AuthController.updateProfile, try_catch.
    rewrite Hu, Hbody, Hnone. change (Js.truthy_opt (Some s)) with (Js.truthy s).
    rewrite Htr. reflexivity.
Qed.

Lemma unknown_role_is_refused_witness :
  UserController.updateUserRole env0
    (with_body_role "admin" (set_user ctx_admin0 request0)) world1
    = (Ok (error_response 400 "Invalid role"), world1).
Proof.
  refine (proj1 (unknown_role_is_refused env0
                   (with_body_role "admin" (set_user ctx_admin0 request0)) world1
                   ctx_admin0 "admin" eq_refl _ eq_refl eq_refl)).
  intros r. destruct r; discriminate.
Defined.

(** X10: an administrator cannot deactivate their own account: on
    [DELETE /users/:id] with their own id the answer is 400 and the world
    is untouched. *)
Theorem admin_cannot_deactivate_self env req w c :
  authenticated env req w c ->
  ctx_role c = ADMIN ->
  param_id req = ctx_userId c ->
  Routes.delete_users_id env req w
    = (Ok (error_response 400 "Cannot deactivate your own account"), w).
Proof.
  intros Ha Hrole Hid. unfold Routes.delete_users_id. simpl. unfold bind at 1.
  rewrite (authenticated_passes _ _ _ _ Ha).
  unfold bind at 1, AuthMiddleware.isAdmin, AuthMiddleware.authorize.
  change (user (set_user c req)) with (Some c). cbv iota. rewrite Hrole. simpl.
  unfold UserController.deactivateUser, try_catch, bind, non_null. simpl.
  rewrite Hid, String.eqb_refl. reflexivity.
Qed.

Lemma admin_cannot_deactivate_self_witness :
  Routes.delete_users_id env_admin
    (with_param_id "u2" (with_authorization "Bearer root.jwt" request0)) world1
    = (Ok (error_response 400 "Cannot deactivate your own account"), world1).
Proof.
  apply (admin_cannot_deactivate_self env_admin _ world1 ctx_admin0);
    [|reflexivity|reflexivity].
  exists "root.jwt", (mkDecodedToken "uid-admin" (Some "root@example.com") (Some "Root")),
    admin0.
  repeat split; reflexivity.
Defined.

(** ** More of authenticate-or-register *)

Lemma createUser_cases env d w :
  (exists e w',
      UserService.createUser env d w = (Throw e, w') /\
      users w' = users w /\
      predictions w' = predictions w) \/
  (exists u w',
      UserService.createUser env d w = (Ok u, w') /\
      users w' = (users w ++ [u])%list /\
      predictions w' = predictions w /\
      u_firebaseUid u = UserService.cud_firebaseUid d /\
      u_email u = UserService.cud_email d /\
      u_role u = match UserService.cud_role d with Some r => r | None => FARMER end /\
      u_isActive u = true).
Proof.
  unfold UserService.createUser, bind, Prisma.user_create.
  destruct (existsb (fun u => (u_firebaseUid u =? UserService.cud_firebaseUid d)%string)
              (users w));
    [left; do 2 eexists; repeat split; reflexivity|].
  destruct (existsb (fun u => (u_email u =? UserService.cud_email d)%string) (users w));
    [left; do 2 eexists; repeat split; reflexivity|].
  destruct (existsb (fun u => (u_id u =? genId env (nextId w))%string) (users w));
    [left; do 2 eexists; repeat split; reflexivity|].
  right. cbv beta iota.
  match goal with
  | |- context [UserService.syncUserRoleToFirestore env ?f ?r ?w0] =>
      destruct (sync_always_resolves env f r w0) as (w' & Hsync & Hus & Hps & _);
      rewrite Hsync
  end.
  do 2 eexists. split; [reflexivity|]. rewrite Hus, Hps. repeat split; reflexivity.
Qed.

Lemma authenticateUser_no_token env req w :
  Js.truthy_opt (bearer_token (authorization req)) = false ->
  AuthController.authenticateUser env req w
    = (Ok (error_response 401 "Access token required"), w).
Proof.
  intros Htok. unfold AuthController.authenticateUser, try_catch.
  rewrite Htok. reflexivity.
Qed.

Lemma authenticateUser_rejected env req w t e :
  bearer_token (authorization req) = Some t ->
  Js.truthy t = true ->
  verifyIdToken env t = Throw e ->
  AuthController.authenticateUser env req w
    = (Ok (error_response 500 "Authentication failed"),
       snd (console_error "Authentication error:" e w)).
Proof.
  intros Htok Htr Hver.
  unfold AuthController.authenticateUser, try_catch.
  rewrite Htok. change (Js.truthy_opt (Some t)) with (Js.truthy t).
  rewrite Htr. change (negb true) with false. cbv iota.
  unfold bind at 1. rewrite Hver. reflexivity.
Qed.

Lemma authenticateUser_no_email env req w t d :
  bearer_token (authorization req) = Some t ->
  Js.truthy t = true ->
  verifyIdToken env t = Ok d ->
  Js.truthy_opt (email d) = false ->
  AuthController.authenticateUser env req w
    = (Ok (error_response 400 "Email is required"), w).
Proof.
  intros Htok Htr Hver Hmail.
  unfold AuthController.authenticateUser, try_catch.
  rewrite Htok. change (Js.truthy_opt (Some t)) with (Js.truthy t).
  rewrite Htr. change (negb true) with false. cbv iota.
  unfold bind at 1. rewrite Hver, Hmail. reflexivity.
Qed.

(** X11: the authenticate-or-register endpoint never rewrites or removes a
    user and never touches the predictions: whatever the request, the user
    table afterwards is the table before, or the table before with one
    appended row, which is a FARMER announced by a 201 answer. *)
Theorem authenticateUser_only_appends_a_farmer env req w :
  predictions (snd (AuthController.authenticateUser env req w)) = predictions w /\
  (users (snd (AuthController.authenticateUser env req w)) = users w \/
   exists u,
     users (snd (AuthController.authenticateUser env req w)) = (users w ++ [u])%list /\
     u_role u = FARMER /\
     fst (AuthController.authenticateUser env req w) = Ok (registered_response u)).
Proof.
  destruct (Js.truthy_opt (bearer_token (authorization req))) eqn:Htok0.
  2: { rewrite (authenticateUser_no_token env req w Htok0). simpl. auto. }
  destruct (bearer_token (authorization req)) as [t|] eqn:Htok; [|discriminate].
  change (Js.truthy_opt (Some t)) with (Js.truthy t) in Htok0.
  destruct (verifyIdToken env t) as [d|e] eqn:Hver.
  2: { rewrite (authenticateUser_rejected env req w t e Htok Htok0 Hver). simpl. auto. }
  destruct (Js.truthy_opt (email d)) eqn:Hmtr.
  2: { rewrite (authenticateUser_no_email env req w t d Htok Htok0 Hver Hmtr).
       simpl. auto. }
  destruct (email d) as [mail|] eqn:Hmail; [|discriminate].
  rewrite (authenticateUser_verified env req w t d mail Htok Htok0 Hver Hmail Hmtr).
  destruct (find _ (users w)) as [u|]; [simpl; auto|].
  match goal with
  | |- context [UserService.createUser env ?d0 w] =>
      destruct (createUser_cases env d0 w)
        as [(e & w' & Hc & Hus & Hps) | (u & w' & Hc & Hus & Hps & _ & _ & Hr & Hact)];
      rewrite Hc
  end.
  - simpl. auto.
  - simpl. split; [exact Hps|]. right. exists u. auto.
Qed.

(** X12: at the authenticate-or-register endpoint a token that the
    verifier rejects is answered 500 "Authentication failed" (where the
    gate answers 403); the failure is logged and no user is created. *)
Theorem rejected_token_at_login_is_500 env req w t e :
  bearer_token (authorization req) = Some t ->
  Js.truthy t = true ->
  verifyIdToken env t = Throw e ->
  AuthController.authenticateUser env req w
    = (Ok (error_response 500 "Authentication failed"),
       snd (console_error "Authentication error:" e w)) /\
  users (snd (AuthController.authenticateUser env req w)) = users w.
Proof.
  intros Htok Htr Hver.
  rewrite (authenticateUser_rejected env req w t e Htok Htr Hver). split; reflexivity.
Qed.

Lemma rejected_token_at_login_is_500_witness :
  fst (Routes.post_auth_login env0 (with_authorization "Bearer expired.jwt" request0) world1)
    = Ok (error_response 500 "Authentication failed").
Proof.
  unfold Routes.post_auth_login.
  rewrite (proj1 (rejected_token_at_login_is_500 env0
                    (with_authorization "Bearer expired.jwt" request0) world1
                    "expired.jwt" (FirebaseError "auth/argument-error")
                    eq_refl eq_refl eq_refl)).
  reflexivity.
Defined.

(** ** Lookups after a registration *)

(** X13: a registered user can be looked up.  After [createUser] has
    succeeded for a subject that the store had never seen, [userExists]
    is true for the subject (it was false before), and
    [getUserByFirebaseUid] and [getUserByEmail] both return the created
    row. *)
Theorem created_user_is_found env w fuid mail nm u w1 :
  never_seen env w fuid mail ->
  UserService.createUser env (UserService.mkCreateUserData fuid mail nm (Some FARMER)) w
    = (Ok u, w1) ->
  fst (UserService.userExists fuid w) = Ok false /\
  fst (UserService.userExists fuid w1) = Ok true /\
  fst (UserService.getUserByEmail mail w1) = Ok (Some u) /\
  (exists ps, fst (UserService.getUserByFirebaseUid fuid w1) = Ok (Some (u, ps))).
Proof.
  intros Hnew Hcreate.
  destruct (createUser_never_seen env w fuid mail nm Hnew) as (w1' & Hc & Hus).
  rewrite Hc in Hcreate. inversion Hcreate; subst u w1'. clear Hcreate.
  destruct Hnew as (Hu & He & _).
  unfold UserService.userExists, UserService.getUserByEmail,
    UserService.getUserByFirebaseUid, UserService.with_predictions, bind,
    Prisma.user_findUnique_firebaseUid, Prisma.user_findUnique_email, ret.
  simpl. rewrite Hus, (find_none_of_existsb _ _ Hu).
  rewrite (find_app_new _ (users w) _ Hu) by (simpl; apply String.eqb_refl).
  rewrite (find_app_new _ (users w) _ He) by (simpl; apply String.eqb_refl).
  simpl. repeat split; try reflexivity. eexists. reflexivity.
Qed.

Lemma created_user_is_found_witness :
  let u := mkUser "a-id" "uid9" "z@example.com" None FARMER None true 1700000000000 in
  let w1 := snd (UserService.createUser env0
                   (UserService.mkCreateUserData "uid9" "z@example.com" None (Some FARMER))
                   world1) in
  fst (UserService.userExists "uid9" world1) = Ok false /\
  fst (UserService.userExists "uid9" w1) = Ok true /\
  fst (UserService.getUserByEmail "z@example.com" w1) = Ok (Some u) /\
  (exists ps, fst (UserService.getUserByFirebaseUid "uid9" w1) = Ok (Some (u, ps))).
Proof.
  intros u w1.
  apply (created_user_is_found env0 world1 "uid9" "z@example.com" None u w1).
  - split; [|split]; reflexivity.
  - reflexivity.
Defined.

(** ** The role mirror, read back *)

Lemma find_merge_doc k d l :
  find (fun kd : string * FirestoreDoc => (fst kd =? k)%string) (merge_doc k d l)
    = Some (k, d).
Proof.
  induction l as [|[k' d'] t IH]; simpl.
  - rewrite String.eqb_refl. reflexivity.
  - destruct (String.eqb_spec k' k) as [Heq|Hne]; simpl.
    + rewrite String.eqb_refl. reflexivity.
    + destruct (String.eqb_spec k' k); [contradiction | exact IH].
Qed.

Lemma find_merge_doc_other k k0 d l :
  k0 <> k ->
  find (fun kd : string * FirestoreDoc => (fst kd =? k0)%string) (merge_doc k d l)
    = find (fun kd : string * FirestoreDoc => (fst kd =? k0)%string) l.
Proof.
  intros Hne. induction l as [|[k' d'] t IH]; simpl.
  - destruct (String.eqb_spec k k0); [congruence | reflexivity].
  - destruct (String.eqb_spec k' k) as [Heq|Hne']; simpl.
    + subst k'. destruct (String.eqb_spec k k0); [congruence | reflexivity].
    + destruct (k' =? k0)%string; [reflexivity | exact IH].
Qed.

Lemma sync_writes_document env f fuid r w :
  firestore env = Some f ->
  f fuid = None ->
  UserService.syncUserRoleToFirestore env fuid r w
    = (Ok tt, set_firestoreUsers
                (merge_doc fuid (mkFirestoreDoc (Js.toLowerCase (role_name r)) (clock w))
                           (firestoreUsers w)) w).
Proof.
  intros Hfs Hok.
  unfold UserService.syncUserRoleToFirestore, try_catch, bind, getFirestoreDb,
    firestore_set.
  rewrite Hfs. simpl. rewrite Hok. reflexivity.
Qed.

Lemma read_role env f fuid w :
  firestore env = Some f ->
  UserService.getUserRoleFromFirestore env None fuid w
    = (Ok (match find (fun kd => (fst kd =? fuid)%string) (firestoreUsers w) with
           | Some (_, d) => if Js.truthy (fs_role d) then Some (fs_role d) else None
           | None => None
           end), w).
Proof.
  intros Hfs.
  unfold UserService.getUserRoleFromFirestore, try_catch, bind, getFirestoreDb.
  rewrite Hfs. reflexivity.
Qed.

(** X14: the role mirror can be read back.  With Firestore initialised and
    accepting the write, after [updateUser] has set the role [r] of a user,
    [getUserRoleFromFirestore] returns the lower-case name of [r] for the
    subject of that user, and what it returns for every other subject is
    what it returned before. *)
Theorem mirrored_role_is_read_back env f id d r w u w1 :
  firestore env = Some f ->
  (forall k, f k = None) ->
  Prisma.upd_role d = Some r ->
  UserService.updateUser env id d w = (Ok u, w1) ->
  fst (UserService.getUserRoleFromFirestore env None (u_firebaseUid u) w1)
    = Ok (Some (Js.toLowerCase (role_name r))) /\
  (forall other,
      other <> u_firebaseUid u ->
      fst (UserService.getUserRoleFromFirestore env None other w1)
        = fst (UserService.getUserRoleFromFirestore env None other w)).
Proof.
  intros Hfs Hok Hrole Hupd.
  unfold UserService.updateUser, bind at 1 in Hupd.
  destruct (Prisma.user_update id d w) as [[u0|e] w0] eqn:Hrow; [|discriminate].
  assert (Hw0 : firestoreUsers w0 = firestoreUsers w).
  { unfold Prisma.user_update in Hrow.
    destruct (Prisma.update_row id d (users w)) as [[r0 l']|]; inversion Hrow; reflexivity. }
  unfold bind at 1 in Hupd. rewrite Hrole in Hupd.
  rewrite (sync_writes_document env f (u_firebaseUid u0) r w0 Hfs (Hok _)) in Hupd.
  inversion Hupd; subst u w1. clear Hupd.
  split.
  - rewrite (read_role env f _ _ Hfs). simpl firestoreUsers.
    rewrite find_merge_doc. simpl fs_role.
    destruct r; reflexivity.
  - intros other Hne. rewrite !(read_role env f _ _ Hfs). simpl firestoreUsers.
    rewrite (find_merge_doc_other _ _ _ _ Hne), Hw0. reflexivity.
Qed.

Lemma mirrored_role_is_read_back_witness :
  let d := Prisma.mkUpdateUserData None (Some OFFICER) None None in
  fst (UserService.getUserRoleFromFirestore env_admin None "uid123"
         (snd (UserService.updateUser env_admin "u1" d world1)))
    = Ok (Some "officer").
Proof.
  intros d.
  refine (proj1 (mirrored_role_is_read_back env_admin (fun _ => None) "u1" d OFFICER world1
                   (mkUser "u1" "uid123" "a@example.com" None OFFICER None true 1690000000000)
                   (snd (UserService.updateUser env_admin "u1" d world1))
                   eq_refl (fun _ => eq_refl) eq_refl eq_refl)).
Defined.

(** ** Updates keep identity *)

Lemma update_row_keeps_column {B} (f : User -> B) id d l r l' :
  (forall x, f (Prisma.apply_update d x) = f x) ->
  Prisma.update_row id d l = Some (r, l') ->
  map f l' = map f l.
Proof.
  intros Hf. revert r l'. induction l as [|a t IH]; simpl; intros r l' H; [discriminate|].
  destruct (u_id a =? id)%string.
  - inversion H; subst. simpl. rewrite Hf. reflexivity.
  - destruct (Prisma.update_row id d t) as [[r0 t0]|]; [|discriminate].
    inversion H; subst. simpl. rewrite (IH r t0 eq_refl). reflexivity.
Qed.

(** X15: no update changes who a user is.  Whatever the id and the data,
    [updateUser] (and so [deleteUser]) leaves the id, subject id, email and
    creation time of every row as they were, row by row; it neither adds
    nor removes a row, and it leaves the predictions alone. *)
Theorem updateUser_keeps_identity env id d w :
  map u_id (users (snd (UserService.updateUser env id d w))) = map u_id (users w) /\
  map u_firebaseUid (users (snd (UserService.updateUser env id d w)))
    = map u_firebaseUid (users w) /\
  map u_email (users (snd (UserService.updateUser env id d w))) = map u_email (users w) /\
  map u_createdAt (users (snd (UserService.updateUser env id d w)))
    = map u_createdAt (users w) /\
  predictions (snd (UserService.updateUser env id d w)) = predictions w.
Proof.
  destruct (Prisma.update_row id d (users w)) as [[u l']|] eqn:Hrow.
  - destruct (updateUser_of_row env id d w u l' Hrow) as (w' & -> & Hus & Hps).
    simpl. rewrite Hus.
    rewrite (update_row_keeps_column u_id id d _ _ _ (fun x => eq_refl) Hrow).
    rewrite (update_row_keeps_column u_firebaseUid id d _ _ _ (fun x => eq_refl) Hrow).
    rewrite (update_row_keeps_column u_email id d _ _ _ (fun x => eq_refl) Hrow).
    rewrite (update_row_keeps_column u_createdAt id d _ _ _ (fun x => eq_refl) Hrow).
    auto.
  - assert (H : UserService.updateUser env id d w = (Throw Prisma.record_not_found, w)).
    { unfold UserService.updateUser, bind at 1, Prisma.user_update. rewrite Hrow.
      reflexivity. }
    rewrite H. simpl. auto.
Qed.

(** ** Statistics *)

Section Groups.

Context {K : Type} (eqb : K -> K -> bool).
Hypothesis eqb_eq : forall a b, eqb a b = true <-> a = b.

Lemma bump_sum k acc : sum_counts (Prisma.bump eqb k acc) = sum_counts acc + 1.
Proof.
  induction acc as [|[k' n] t IH]; simpl; [reflexivity|].
  destruct (eqb k' k); simpl; [lia | rewrite IH; lia].
Qed.

Lemma bump_keys k acc x :
  In x (map fst (Prisma.bump eqb k acc)) -> x = k \/ In x (map fst acc).
Proof.
  induction acc as [|[k' n] t IH]; simpl.
  - intros [<-|[]]. auto.
  - destruct (eqb k' k); simpl; intros [<-|H]; auto.
    destruct (IH H); auto.
Qed.

Lemma bump_nodup k acc :
  NoDup (map fst acc) -> NoDup (map fst (Prisma.bump eqb k acc)).
Proof.
  induction acc as [|[k' n] t IH]; simpl; intros Hnd.
  - repeat constructor. intros [].
  - inversion Hnd as [|x xs Hnotin Hnd']; subst.
    destruct (eqb k' k) eqn:E; simpl.
    + constructor; assumption.
    + constructor; [|apply IH; exact Hnd'].
      intros Hin. apply bump_keys in Hin. destruct Hin as [-> | Hin]; [|contradiction].
      assert (Ht : eqb k k = true) by (apply eqb_eq; reflexivity). congruence.
Qed.

Lemma bump_positive k acc :
  Forall (fun kv : K * Z => 1 <= snd kv) acc ->
  Forall (fun kv : K * Z => 1 <= snd kv) (Prisma.bump eqb k acc).
Proof.
  induction 1 as [|[k' n] t Hn Ht IH]; simpl.
  - repeat constructor. simpl. lia.
  - destruct (eqb k' k); constructor; simpl in *; auto; lia.
Qed.

Lemma fold_bump keys acc :
  NoDup (map fst acc) ->
  Forall (fun kv : K * Z => 1 <= snd kv) acc ->
  let groups := fold_left (fun a k => Prisma.bump eqb k a) keys acc in
  sum_counts groups = sum_counts acc + Z.of_nat (length keys) /\
  NoDup (map fst groups) /\
  Forall (fun kv : K * Z => 1 <= snd kv) groups /\
  (forall x, In x (map fst groups) -> In x keys \/ In x (map fst acc)).
Proof.
  revert acc. induction keys as [|k t IH]; intros acc Hnd Hpos; simpl.
  - repeat split; auto. lia.
  - destruct (IH (Prisma.bump eqb k acc) (bump_nodup k acc Hnd) (bump_positive k acc Hpos))
      as (Hsum & Hnd' & Hpos' & Hkeys).
    repeat split; auto.
    + rewrite Hsum, bump_sum. lia.
    + intros x Hx. destruct (Hkeys x Hx) as [H|H]; [auto|].
      apply bump_keys in H. destruct H as [->|H]; auto.
Qed.

Lemma group_count_spec keys :
  sum_counts (Prisma.group_count eqb keys) = Z.of_nat (length keys) /\
  NoDup (map fst (Prisma.group_count eqb keys)) /\
  Forall (fun kv : K * Z => 1 <= snd kv) (Prisma.group_count eqb keys) /\
  (forall x, In x (map fst (Prisma.group_count eqb keys)) -> In x keys).
Proof.
  destruct (fold_bump keys [] (NoDup_nil _) (Forall_nil _)) as (Hsum & Hnd & Hpos & Hkeys).
  unfold Prisma.group_count. repeat split; auto.
  intros x Hx. destruct (Hkeys x Hx) as [H|[]]. exact H.
Qed.

End Groups.

Lemma UserRole_eqb_eq a b : UserRole_eqb a b = true <-> a = b.
Proof. destruct a, b; simpl; split; intros H; try reflexivity; discriminate. Qed.

Lemma assign_fresh k v obj :
  ~ In k (map fst obj) -> UserService.assign k v obj = (obj ++ [(k, v)])%list.
Proof.
  induction obj as [|[k' v'] t IH]; simpl; intros Hnot; [reflexivity|].
  destruct (String.eqb_spec k' k) as [Heq|Hne]; [exfalso; auto|].
  rewrite IH; auto.
Qed.

Lemma fold_assign (g : UserRole -> string) (stats : list (UserRole * Z)) acc :
  (forall a b, g a = g b -> a = b) ->
  NoDup (map fst stats) ->
  (forall s, In s stats -> ~ In (g (fst s)) (map fst acc)) ->
  fold_left (fun a stat => UserService.assign (g (fst stat)) (snd stat) a) stats acc
    = (acc ++ map (fun stat => (g (fst stat), snd stat)) stats)%list.
Proof.
  intros Hinj. revert acc. induction stats as [|s t IH]; intros acc Hnd Hfresh; simpl.
  - rewrite app_nil_r. reflexivity.
  - inversion Hnd as [|x xs Hnotin Hnd']; subst.
    rewrite assign_fresh by (apply Hfresh; left; reflexivity).
    rewrite IH; [rewrite <- app_assoc; reflexivity | exact Hnd' |].
    intros s' Hs'. rewrite map_app, in_app_iff. simpl. intros [H|[H|[]]].
    + apply (Hfresh s' (or_intror Hs')). exact H.
    + apply Hinj in H. apply Hnotin. rewrite H. apply in_map. exact Hs'.
Qed.

Lemma sum_counts_map {A} (g : A -> string) (l : list (A * Z)) :
  sum_counts (map (fun stat => (g (fst stat), snd stat)) l) = sum_counts l.
Proof. induction l as [|x t IH]; simpl; [|rewrite IH]; reflexivity. Qed.

Lemma lower_role_name_inj a b :
  Js.toLowerCase (role_name a) = Js.toLowerCase (role_name b) -> a = b.
Proof. destruct a, b; simpl; intros H; try reflexivity; discriminate. Qed.

Lemma NoDup_map_injective {A B} (f : A -> B) (l : list A) :
  (forall a b, f a = f b -> a = b) -> NoDup l -> NoDup (map f l).
Proof.
  intros Hinj. induction 1 as [|x t Hnotin Hnd IH]; simpl; constructor; [|exact IH].
  intros Hin. apply in_map_iff in Hin. destruct Hin as (y & Hy & Hin).
  apply Hinj in Hy. subst y. contradiction.
Qed.

Lemma filter_length_le {A} (p : A -> bool) (l : list A) :
  (length (filter p l) <= length l)%nat.
Proof.
  induction l as [|x t IH]; simpl; [lia|]. destruct (p x); simpl; lia.
Qed.

(** X16: the user statistics add up.  [getUserStats] always resolves and
    leaves the world alone; active and inactive users add up to the total,
    which is the number of rows; the role distribution has one entry per
    role in use, keyed "farmer", "officer" or "admin", each counting at
    least one user, and its counts add up to the total; at most five
    recent users are listed. *)
Theorem user_stats_add_up w :
  exists st,
    UserService.getUserStats w = (Ok st, w) /\
    UserService.totalUsers st = Z.of_nat (length (users w)) /\
    UserService.activeUsers st + UserService.inactiveUsers st = UserService.totalUsers st /\
    0 <= UserService.activeUsers st /\
    0 <= UserService.inactiveUsers st /\
    sum_counts (UserService.roleDistribution st) = UserService.totalUsers st /\
    NoDup (map fst (UserService.roleDistribution st)) /\
    Forall (fun kv => In (fst kv) ["farmer"; "officer"; "admin"] /\ 1 <= snd kv)
           (UserService.roleDistribution st) /\
    (length (UserService.recentUsers st) <= 5)%nat.
Proof.
  unfold UserService.getUserStats, bind, Prisma.count, Prisma.groupBy_count,
    Prisma.findMany, ret.
  rewrite !filter_true.
  rewrite (skip_take_in_range 0 5 _ ltac:(lia) ltac:(lia)).
  destruct (group_count_spec UserRole_eqb UserRole_eqb_eq (map u_role (users w)))
    as (Hsum & Hnd & Hpos & _).
  pose proof (fold_assign (fun r => Js.toLowerCase (role_name r))
                (Prisma.group_count UserRole_eqb (map u_role (users w))) []
                lower_role_name_inj Hnd (fun s _ H => H)) as Hdist.
  simpl app in Hdist.
  eexists. split; [reflexivity|].
  cbn [UserService.totalUsers UserService.activeUsers UserService.inactiveUsers
       UserService.roleDistribution UserService.recentUsers].
  pose proof (filter_length_le (fun u => u_isActive u) (users w)) as Hle.
  rewrite Hdist, (sum_counts_map (fun r => Js.toLowerCase (role_name r))), Hsum, length_map.
  repeat split; try lia.
  - rewrite map_map. simpl.
    apply (NoDup_map_injective (fun r => Js.toLowerCase (role_name r)) _
             lower_role_name_inj) in Hnd.
    rewrite map_map in Hnd. exact Hnd.
  - rewrite Forall_forall in Hpos |- *. intros kv Hin. apply in_map_iff in Hin.
    destruct Hin as ([r n] & <- & Hin). simpl. split; [|apply (Hpos _ Hin)].
    destruct r; simpl; auto.
  - rewrite length_firstn. lia.
Qed.

Lemma sum_counts_app {K} (a b : list (K * Z)) :
  sum_counts (a ++ b) = sum_counts a + sum_counts b.
Proof. induction a as [|x t IH]; simpl; [|rewrite IH]; lia. Qed.

Lemma sum_counts_perm {K} (a b : list (K * Z)) :
  Permutation a b -> sum_counts a = sum_counts b.
Proof. induction 1; simpl; lia. Qed.

Lemma sum_counts_nonneg {K} (l : list (K * Z)) :
  Forall (fun kv => 1 <= snd kv) l -> 0 <= sum_counts l.
Proof. induction 1; simpl; lia. Qed.

Lemma StronglySorted_app_l {A} (R : A -> A -> Prop) (a b : list A) :
  StronglySorted R (a ++ b) -> StronglySorted R a.
Proof.
  induction a as [|x t IH]; simpl; intros H; [constructor|].
  inversion H as [|y l Hs Hf]; subst. constructor; [apply IH; exact Hs|].
  apply Forall_app in Hf. tauto.
Qed.

(** The distribution that the statistics show: the ten largest groups. *)
Lemma top_groups_spec (keys : list string) (n : nat) :
  let dist := firstn n (Prisma.orderBy_desc snd (Prisma.group_count String.eqb keys)) in
  sum_counts dist <= Z.of_nat (length keys) /\
  (length dist <= n)%nat /\
  NoDup (map fst dist) /\
  Forall (fun kv => In (fst kv) keys /\ 1 <= snd kv) dist /\
  StronglySorted (fun a b : string * Z => snd b <= snd a) dist.
Proof.
  intros dist.
  destruct (group_count_spec String.eqb String.eqb_eq keys) as (Hsum & Hnd & Hpos & Hkeys).
  pose proof (orderBy_desc_perm snd (Prisma.group_count String.eqb keys)) as Hperm.
  pose proof (orderBy_desc_sorted snd (Prisma.group_count String.eqb keys)) as Hsorted.
  set (sorted := Prisma.orderBy_desc snd (Prisma.group_count String.eqb keys)) in *.
  assert (Hsplit : sorted = (dist ++ skipn n sorted)%list)
    by (symmetry; apply firstn_skipn).
  assert (Hpos' : Forall (fun kv : string * Z => 1 <= snd kv) sorted).
  { rewrite Forall_forall in Hpos |- *. intros x Hx. apply Hpos.
    apply (Permutation_in _ Hperm). exact Hx. }
  assert (Hnd' : NoDup (map fst sorted)).
  { apply (Permutation_NoDup (l := map fst (Prisma.group_count String.eqb keys)));
      [apply Permutation_map, Permutation_sym, Hperm | exact Hnd]. }
  repeat split.
  - rewrite <- Hsum, <- (sum_counts_perm _ _ Hperm), Hsplit, sum_counts_app.
    rewrite Hsplit in Hpos'. apply Forall_app in Hpos'. destruct Hpos' as [_ Hrest].
    pose proof (sum_counts_nonneg _ Hrest). lia.
  - unfold dist. rewrite length_firstn. lia.
  - rewrite Hsplit, map_app in Hnd'. apply NoDup_app_remove_r in Hnd'. exact Hnd'.
  - rewrite Forall_forall. intros x Hx.
    assert (Hin : In x sorted) by (rewrite Hsplit; apply in_or_app; left; exact Hx).
    split; [|rewrite Forall_forall in Hpos'; apply Hpos'; exact Hin].
    apply Hkeys. apply in_map. apply (Permutation_in _ Hperm). exact Hin.
  - rewrite Hsplit in Hsorted. apply StronglySorted_app_l in Hsorted. exact Hsorted.
Qed.

Lemma getPredictionStats_answer req w c :
  user req = Some c ->
  PredictionController.getPredictionStats req w
    = (Ok (stats_response
             (Z.of_nat (length (stats_scope c w)))
             (match stats_scope c w with
              | [] => None
              | _ => Some (Prisma.sumQ (map p_confidence (stats_scope c w))
                           / inject_Z (Z.of_nat (length (stats_scope c w))))%Q
              end)
             (firstn 10 (Prisma.orderBy_desc snd
                           (Prisma.group_count String.eqb
                              (map p_breedName (stats_scope c w)))))
             (firstn 5 (Prisma.orderBy_desc p_createdAt (stats_scope c w)))), w).
Proof.
  intros Hu.
  unfold PredictionController.getPredictionStats, try_catch, bind, non_null,
    Prisma.count, Prisma.prediction_avg_confidence, Prisma.groupBy_count,
    Prisma.findMany, ret, stats_scope, own_predictions.
  rewrite Hu. rewrite (skip_take_in_range 0 5 _ ltac:(lia) ltac:(lia)).
  destruct (UserRole_eqb (ctx_role c) ADMIN); simpl Js.truthy_opt; cbv beta iota.
  - rewrite filter_true. reflexivity.
  - destruct (Js.truthy (ctx_userId c)); cbv beta iota.
    + reflexivity.
    + rewrite filter_true. reflexivity.
Qed.

(** X17: the prediction statistics of a caller who is not an ADMIN are
    computed from the caller's own predictions only: in two worlds that
    hold the same predictions of the caller, whatever the other users
    have, [GET /predictions/stats] gives the same answer. *)
Theorem prediction_stats_are_the_callers_own req w1 w2 c :
  user req = Some c ->
  ctx_role c <> ADMIN ->
  ctx_userId c <> "" ->
  own_predictions (ctx_userId c) w1 = own_predictions (ctx_userId c) w2 ->
  fst (PredictionController.getPredictionStats req w1)
    = fst (PredictionController.getPredictionStats req w2).
Proof.
  intros Hu Hrole Hid Hown.
  rewrite !(getPredictionStats_answer req _ c Hu).
  unfold stats_scope.
  assert (Hr : UserRole_eqb (ctx_role c) ADMIN = false).
  { destruct (UserRole_eqb (ctx_role c) ADMIN) eqn:E; [|reflexivity].
    apply UserRole_eqb_eq in E. contradiction. }
  assert (Ht : Js.truthy (ctx_userId c) = true).
  { unfold Js.truthy. destruct (String.eqb_spec (ctx_userId c) ""); [contradiction|].
    reflexivity. }
  rewrite Hr, Ht, Hown. reflexivity.
Qed.

Lemma prediction_stats_are_the_callers_own_witness :
  fst (PredictionController.getPredictionStats (set_user ctx_farmer0 request0) world2)
    = fst (PredictionController.getPredictionStats (set_user ctx_farmer0 request0)
             (set_predictions
                [prediction_at "p9" "u7" "Kankrej" 1699000000000;
                 prediction_at "p2" "u1" "Sahiwal" 1696000000000;
                 prediction_at "p3" "u1" "Gir" 1697000000000;
                 prediction_at "p4" "u1" "Tharparkar" 1694000000000]
                world1)).
Proof.
  apply (prediction_stats_are_the_callers_own (set_user ctx_farmer0 request0) world2 _
           ctx_farmer0); [reflexivity | discriminate | discriminate | reflexivity].
Defined.

(** X18: the prediction statistics are consistent.  For a caller behind
    the gate the answer is 200 and the world is untouched; the total is
    the number of predictions in scope (all for an ADMIN, the caller's own
    otherwise); the breed distribution lists at most ten distinct breeds
    that occur in scope, largest count first, each count at least one, and
    its counts never add up to more than the total; at most five recent
    predictions are listed. *)
Theorem prediction_stats_are_consistent req w c :
  user req = Some c ->
  exists avg dist recent,
    PredictionController.getPredictionStats req w
      = (Ok (stats_response (Z.of_nat (length (stats_scope c w))) avg dist recent), w) /\
    (avg = None <-> stats_scope c w = []) /\
    sum_counts dist <= Z.of_nat (length (stats_scope c w)) /\
    (length dist <= 10)%nat /\
    NoDup (map fst dist) /\
    Forall (fun kv => In (fst kv) (map p_breedName (stats_scope c w)) /\ 1 <= snd kv) dist /\
    StronglySorted (fun a b : string * Z => snd b <= snd a) dist /\
    (length recent <= 5)%nat.
Proof.
  intros Hu.
  destruct (top_groups_spec (map p_breedName (stats_scope c w)) 10)
    as (Hsum & Hlen & Hnd & Hall & Hsorted).
  rewrite length_map in Hsum.
  do 3 eexists. split; [apply (getPredictionStats_answer req w c Hu)|].
  split; [destruct (stats_scope c w); split; intros H; try reflexivity; discriminate|].
  repeat split; try assumption.
  rewrite length_firstn. lia.
Qed.

Lemma prediction_stats_are_consistent_witness :
  exists avg dist recent,
    PredictionController.getPredictionStats (set_user ctx_farmer0 request0) world2
      = (Ok (stats_response 3 avg dist recent), world2) /\
    sum_counts dist <= 3 /\
    (length recent <= 5)%nat.
Proof.
  destruct (prediction_stats_are_consistent (set_user ctx_farmer0 request0) world2
              ctx_farmer0 eq_refl)
    as (avg & dist & recent & Hans & _ & Hsum & _ & _ & _ & _ & Hrec).
  exists avg, dist, recent. split; [exact Hans|]. split; [exact Hsum | exact Hrec].
Defined.

(** ** A classification, stored and read back *)

Lemma service_predictBreed_ok env buf fn w code data :
  flaskPredict env buf fn = Resolved code data ->
  Js.truthy_opt (error data) = false ->
  FlaskService.predictBreed env buf fn w
    = (Ok (FlaskService.mkBreedPredictionResult (prediction data) (confidence data)
             (processing_time data) (breed_info data)),
       set_clock (clock w + flaskPredictTime env) (snd (record_call (PostPredict fn) w))).
Proof.
  intros Hreply Herr.
  unfold FlaskService.predictBreed, FlaskService.axios_post_predict, try_catch, bind,
    record_call, elapse, ret.
  simpl. rewrite Hreply, Herr. reflexivity.
Qed.

Lemma predictBreed_success env req w c f code data :
  user req = Some c ->
  file req = Some f ->
  probe_passes env ->
  flaskPredict env (buffer f) (originalname f) = Resolved code data ->
  Js.truthy_opt (error data) = false ->
  existsb (fun p => (p_id p =? genId env (nextId w))%string) (predictions w) = false ->
  existsb (fun u => (u_id u =? ctx_userId c)%string) (users w) = true ->
  exists w',
    PredictionController.predictBreed env req w
      = (Ok (classified_response (stored_classification env w c f data) data
               (flaskPredictTime env)), w') /\
    predictions w' = (predictions w ++ [stored_classification env w c f data])%list /\
    users w' = users w /\
    flaskCalls w' = (flaskCalls w ++ [GetHealth; PostPredict (originalname f)])%list.
Proof.
  intros Hu Hf Hp Hreply Herr Hfresh Hfk.
  assert (Hdiff : clock w + flaskHealthTime env + flaskPredictTime env
                  - (clock w + flaskHealthTime env) = flaskPredictTime env) by lia.
  eexists. split.
  - unfold PredictionController.predictBreed, try_catch.
    rewrite Hf, Hu. unfold non_null, bind at 1, ret at 1.
    unfold bind at 1. rewrite (checkFlaskHealth_passes env w Hp).
    change (negb true) with false. cbv iota.
    unfold bind at 1, Date_now at 1. cbv beta. unfold bind at 1.
    rewrite (service_predictBreed_ok env _ _ _ code data Hreply Herr).
    unfold bind at 1, Date_now at 1. cbv beta.
    unfold bind at 1, Prisma.prediction_create.
    simpl clock. simpl nextId. simpl predictions. simpl users.
    rewrite Hfresh, Hfk. rewrite Hdiff.
    simpl negb. cbv iota. reflexivity.
  - simpl. rewrite <- app_assoc. auto.
Qed.

(** X19: a classification is stored for its caller and can be read back.
    For a request that passes the gate and the upload filter, with the
    probe passing, the scorer answering without an error field and the
    generated id free, [POST /predictions/breed] answers 200 with the id
    of one new Prediction row, owned by the caller, holding the breed and
    confidence the scorer gave and the name, size and type of the file;
    the users are untouched; and [GET /predictions/:id] with that id then
    returns this row to the same caller. *)
Theorem classification_is_stored_and_read_back env req w c f code data :
  authenticated env req w c ->
  upload_image req = Some f ->
  Upload.fileFilter f = None ->
  size f <= Upload.fileSize_limit ->
  probe_passes env ->
  flaskPredict env (buffer f) (originalname f) = Resolved code data ->
  Js.truthy_opt (error data) = false ->
  existsb (fun p => (p_id p =? genId env (nextId w))%string) (predictions w) = false ->
  NoDup (map p_id (predictions w)) ->
  exists p w',
    Routes.post_predictions_breed env req w
      = (Ok (classified_response p data (flaskPredictTime env)), w') /\
    predictions w' = (predictions w ++ [p])%list /\
    users w' = users w /\
    p_userId p = ctx_userId c /\
    p_breedName p = prediction data /\
    p_confidence p = confidence data /\
    p_metadata p = mkMetadata (originalname f) (size f) (mimetype f) (breed_info data) /\
    Routes.get_predictions_id env (with_param_id (p_id p) req) w'
      = (Ok (prediction_response p w'), w').
Proof.
  intros Ha Hup Hff Hsz Hp Hreply Herr Hfresh Hnd.
  destruct (authenticated_row env req w c Ha) as (u & _ & Hin & Hid & _ & _).
  assert (Hfk : existsb (fun x => (u_id x =? ctx_userId c)%string) (users w) = true).
  { apply existsb_exists. exists u. split; [exact Hin|]. apply String.eqb_eq. exact Hid. }
  destruct (predictBreed_success env (set_file (Some f) (set_user c req)) w c f code data
              eq_refl eq_refl Hp Hreply Herr Hfresh Hfk)
    as (w' & Hans & Hps & Hus & _).
  exists (stored_classification env w c f data), w'.
  split; [rewrite (post_breed_reaches_handler env req w c f Ha Hup Hff Hsz); exact Hans|].
  split; [exact Hps|]. split; [exact Hus|].
  do 4 (split; [reflexivity|]).
  assert (Ha' : authenticated env
                  (with_param_id (p_id (stored_classification env w c f data)) req) w' c).
  { destruct Ha as (t & d & u0 & Htok & Htr & Hver & Hfind & Hact & Hc).
    exists t, d, u0. rewrite Hus. repeat split; assumption. }
  unfold Routes.get_predictions_id. cbn [run_chain]. unfold bind at 1.
  rewrite (authenticated_passes _ _ _ _ Ha').
  unfold PredictionController.getPredictionById, try_catch, bind, non_null, ret,
    Prisma.prediction_findFirst.
  cbn [user set_user param_id with_param_id]. cbv beta iota.
  assert (Hnd' : NoDup (map p_id (predictions w'))).
  { rewrite Hps. apply NoDup_map_snoc; [exact Hnd | exact Hfresh]. }
  assert (Hin' : In (stored_classification env w c f data) (predictions w')).
  { rewrite Hps. apply in_or_app. right. left. reflexivity. }
  rewrite (find_by_id_and_owner (predictions w') _ (ctx_userId c) Hnd' Hin').
  simpl p_userId. rewrite String.eqb_refl. reflexivity.
Qed.

Lemma classification_is_stored_and_read_back_witness :
  let req := with_upload (photo "image/png")
               (with_authorization "Bearer good.jwt" request0) in
  exists p w',
    Routes.post_predictions_breed env0 req world2
      = (Ok (classified_response p gir_reply 120), w') /\
    predictions w' = (predictions world2 ++ [p])%list /\
    p_userId p = "u1" /\
    p_breedName p = "Gir" /\
    Routes.get_predictions_id env0 (with_param_id (p_id p) req) w'
      = (Ok (prediction_response p w'), w').
Proof.
  intros req.
  destruct (classification_is_stored_and_read_back env0 req world2 ctx_farmer0
              (photo "image/png") 200 gir_reply)
    as (p & w' & H1 & H2 & _ & H3 & H4 & _ & _ & H5).
  - exists "good.jwt", (mkDecodedToken "uid123" (Some "a@example.com") None), farmer0.
    repeat split; reflexivity.
  - reflexivity.
  - reflexivity.
  - vm_compute. discriminate.
  - eexists. reflexivity.
  - reflexivity.
  - reflexivity.
  - reflexivity.
  - simpl. repeat constructor; simpl; intuition discriminate.
  - exists p, w'. auto.
Defined.

(** ** Uploads that never reach the scorer *)

(** X20: a [POST /predictions/breed] request that passes the gate but
    carries no file is answered 400 "Image file is required"; the scorer
    is not contacted, not even probed, and the world is untouched. *)
Theorem missing_file_is_refused env req w c :
  authenticated env req w c ->
  upload_image req = None ->
  Routes.post_predictions_breed env req w
    = (Ok (error_response 400 "Image file is required"), w).
Proof.
  intros Ha Hup. unfold Routes.post_predictions_breed. cbn [run_chain].
  unfold bind at 1. rewrite (authenticated_passes _ _ _ _ Ha).
  unfold bind at 1. rewrite (isFarmer_passes (set_user c req) c eq_refl).
  unfold bind at 1, Upload.single.
  change (upload_image (set_user c req)) with (upload_image req). rewrite Hup.
  reflexivity.
Qed.

Lemma missing_file_is_refused_witness :
  Routes.post_predictions_breed env0 (with_authorization "Bearer good.jwt" request0) world1
    = (Ok (error_response 400 "Image file is required"), world1).
Proof.
  apply (missing_file_is_refused env0 _ world1 ctx_farmer0); [|reflexivity].
  exact authenticated_request0.
Defined.

(** X21: a file of an allowed type that is larger than 10 MiB is stopped
    by the upload middleware with the multer error LIMIT_FILE_SIZE: the
    handler does not run, the scorer is not contacted and no row is
    created. *)
Theorem oversized_file_never_reaches_the_scorer env req w c f :
  authenticated env req w c ->
  upload_image req = Some f ->
  Upload.fileFilter f = None ->
  10 * 1024 * 1024 < size f ->
  Upload.single (set_user c req) w
    = (Ok (NextErr (MulterError "LIMIT_FILE_SIZE" "File too large")), w) /\
  flaskCalls (snd (Routes.post_predictions_breed env req w)) = flaskCalls w /\
  predictions (snd (Routes.post_predictions_breed env req w)) = predictions w.
Proof.
  intros Ha Hup Hff Hsz.
  assert (Hstop : Upload.single (set_user c req) w
                  = (Ok (NextErr (MulterError "LIMIT_FILE_SIZE" "File too large")), w)).
  { unfold Upload.single.
    change (upload_image (set_user c req)) with (upload_image req).
    rewrite Hup, Hff. unfold Upload.fileSize_limit.
    destruct (Z.ltb_spec (10 * 1024 * 1024) (size f)); [reflexivity | lia]. }
  split; [exact Hstop|].
  assert (Hroute : snd (Routes.post_predictions_breed env req w) = w).
  { unfold Routes.post_predictions_breed. cbn [run_chain].
    unfold bind at 1. rewrite (authenticated_passes _ _ _ _ Ha).
    unfold bind at 1. rewrite (isFarmer_passes (set_user c req) c eq_refl).
    unfold bind at 1. rewrite Hstop. reflexivity. }
  rewrite Hroute. split; reflexivity.
Qed.

Lemma oversized_file_never_reaches_the_scorer_witness :
  let big := mkMulterFile "herd.png" "image/png" 10485761 [] in
  let req := with_upload big (with_authorization "Bearer good.jwt" request0) in
  flaskCalls (snd (Routes.post_predictions_breed env0 req world1)) = flaskCalls world1.
Proof.
  intros big req.
  refine (proj1 (proj2 (oversized_file_never_reaches_the_scorer env0 req world1
                          ctx_farmer0 big _ eq_refl eq_refl eq_refl))).
  exists "good.jwt", (mkDecodedToken "uid123" (Some "a@example.com") None), farmer0.
  repeat split; reflexivity.
Defined.

(** ** The connection test *)


(** ** The history of a caller *)

(** X23: the prediction history shows a caller their own predictions
    only: in two worlds that hold the same predictions of the caller,
    whatever the other users have, [GET /predictions/history] gives the
    same answer to the same request. *)
Theorem history_is_the_callers_own req w1 w2 c :
  user req = Some c ->
  own_predictions (ctx_userId c) w1 = own_predictions (ctx_userId c) w2 ->
  fst (PredictionController.getPredictionHistory req w1)
    = fst (PredictionController.getPredictionHistory req w2).
Proof.
  intros Hu Hown. unfold own_predictions in Hown.
  unfold PredictionController.getPredictionHistory, try_catch, bind, non_null,
    Prisma.findMany, Prisma.count, ret.
  rewrite Hu. cbv beta iota zeta. rewrite Hown.
  set (page := Js.or_num (Js.parseInt (query_page req)) 1).
  set (limit := Js.or_num (Js.parseInt (query_limit req)) 20).
  destruct (Js.mul (Js.sub page (Js.Num 1)) limit) as [|skip|s];
    destruct limit as [|limit|s']; try reflexivity.
  destruct (Prisma.skip_take skip limit _) as [ps|e]; reflexivity.
Qed.

Lemma history_is_the_callers_own_witness :
  fst (PredictionController.getPredictionHistory (set_user ctx_farmer0 request0) world2)
    = fst (PredictionController.getPredictionHistory (set_user ctx_farmer0 request0)
             (set_predictions
                [prediction_at "p2" "u1" "Sahiwal" 1696000000000;
                 prediction_at "p3" "u1" "Gir" 1697000000000;
                 prediction_at "p8" "u5" "Ongole" 1698000000000;
                 prediction_at "p4" "u1" "Tharparkar" 1694000000000]
                world1)).
Proof.
  apply (history_is_the_callers_own (set_user ctx_farmer0 request0) world2 _ ctx_farmer0);
    reflexivity.
Defined.

(** ** Role and profile updates, row by row *)

Lemma update_row_of_found id d l :
  existsb (fun u => (u_id u =? id)%string) l = true ->
  exists pre u post,
    l = (pre ++ u :: post)%list /\
    u_id u = id /\
    Prisma.update_row id d l
      = Some (Prisma.apply_update d u, (pre ++ Prisma.apply_update d u :: post)%list).
Proof.
  intros Hex. pose proof (update_row_spec id d l) as Hspec.
  destruct (Prisma.update_row id d l) as [[r l']|]; [|congruence].
  destruct Hspec as (pre & u & post & Hl & Hid & _ & -> & ->).
  exists pre, u, post. auto.
Qed.

(** X24: an ADMIN sets the role of a user.  On [PUT /users/:id/role] with
    one of the role names and the id of a stored user, a caller who passes
    the gate as ADMIN is answered 200 with that role; exactly the row with
    that id is rewritten, only in its role, every other row and the
    predictions stay as they were, and this holds whether or not the
    mirror write succeeds. *)
Theorem admin_sets_role_of_one_row env req w c s r :
  authenticated env req w c ->
  ctx_role c = ADMIN ->
  body_role req = Some s ->
  role_of_string s = Some r ->
  existsb (fun u => (u_id u =? param_id req)%string) (users w) = true ->
  exists pre u post w',
    users w = (pre ++ u :: post)%list /\
    u_id u = param_id req /\
    fst (Routes.put_users_id_role env req w)
      = Ok (json_response
              (JObj [("success", JBool true);
                     ("message", JStr "User role updated successfully");
                     ("data", JObj [("id", JStr (u_id u));
                                    ("email", JStr (u_email u));
                                    ("role", JStr (role_name r))])])) /\
    snd (Routes.put_users_id_role env req w) = w' /\
    users w'
      = (pre ++ mkUser (u_id u) (u_firebaseUid u) (u_email u) (u_name u) r
                       (u_profileImage u) (u_isActive u) (u_createdAt u) :: post)%list /\
    predictions w' = predictions w.
Proof.
  intros Ha Hadmin Hbody Hrole Hex.
  pose (d := Prisma.mkUpdateUserData None (Some r) None None).
  destruct (update_row_of_found (param_id req) d (users w) Hex)
    as (pre & u & post & Hl & Hid & Hup).
  destruct (updateUser_of_row env (param_id req) d w _ _ Hup) as (w' & Hupd & Hus & Hps).
  exists pre, u, post, w'. split; [exact Hl|]. split; [exact Hid|].
  assert (Hroute : Routes.put_users_id_role env req w
                   = (Ok (json_response
                            (JObj [("success", JBool true);
                                   ("message", JStr "User role updated successfully");
                                   ("data", JObj [("id", JStr (u_id u));
                                                  ("email", JStr (u_email u));
                                                  ("role", JStr (role_name r))])])), w')).
  { unfold Routes.put_users_id_role. cbn [run_chain]. unfold bind at 1.
    rewrite (authenticated_passes _ _ _ _ Ha).
    unfold bind at 1, AuthMiddleware.isAdmin, AuthMiddleware.authorize.
    change (user (set_user c req)) with (Some c). cbv iota. rewrite Hadmin.
    change (negb (existsb (UserRole_eqb ADMIN) [ADMIN])) with false. cbv iota.
    unfold ret at 1. cbv beta iota.
    unfold UserController.updateUserRole, try_catch.
    change (body_role (set_user c req)) with (body_role req).
    change (param_id (set_user c req)) with (param_id req).
    rewrite Hbody, Hrole. unfold bind at 1. fold d. rewrite Hupd. reflexivity. }
  rewrite Hroute. simpl fst. simpl snd.
  split; [reflexivity|]. split; [reflexivity|]. split; [exact Hus | exact Hps].
Qed.

Lemma admin_sets_role_of_one_row_witness :
  let req := with_body_role "OFFICER" (with_param_id "u1"
               (with_authorization "Bearer root.jwt" request0)) in
  exists pre u post w',
    users world1 = (pre ++ u :: post)%list /\
    u_id u = "u1" /\
    fst (Routes.put_users_id_role env_admin req world1)
      = Ok (json_response
              (JObj [("success", JBool true);
                     ("message", JStr "User role updated successfully");
                     ("data", JObj [("id", JStr (u_id u));
                                    ("email", JStr (u_email u));
                                    ("role", JStr "OFFICER")])])) /\
    snd (Routes.put_users_id_role env_admin req world1) = w' /\
    users w'
      = (pre ++ mkUser (u_id u) (u_firebaseUid u) (u_email u) (u_name u) OFFICER
                       (u_profileImage u) (u_isActive u) (u_createdAt u) :: post)%list /\
    predictions w' = predictions world1.
Proof.
  intros req.
  apply (admin_sets_role_of_one_row env_admin req world1 ctx_admin0 "OFFICER" OFFICER);
    try reflexivity.
  exists "root.jwt", (mkDecodedToken "uid-admin" (Some "root@example.com") (Some "Root")),
    admin0.
  repeat split; reflexivity.
Defined.

(** X25: [PUT /users/profile] changes the name and the profile image of
    the caller's row and nothing else.  For a caller who passes the gate,
    the only row rewritten is the one with the caller's id; its role,
    active flag, email and subject id are as before; the role mirror is
    not written. *)
Theorem profile_update_changes_name_and_image_only env req w c :
  authenticated env req w c ->
  exists pre u post,
    users w = (pre ++ u :: post)%list /\
    u_id u = ctx_userId c /\
    users (snd (Routes.put_users_profile env req w))
      = (pre ++ mkUser (u_id u) (u_firebaseUid u) (u_email u)
                       (match body_name req with Some n => Some n | None => u_name u end)
                       (u_role u)
                       (match body_profileImage req with
                        | Some i => Some i
                        | None => u_profileImage u
                        end)
                       (u_isActive u) (u_createdAt u) :: post)%list /\
    firestoreUsers (snd (Routes.put_users_profile env req w)) = firestoreUsers w /\
    predictions (snd (Routes.put_users_profile env req w)) = predictions w /\
    answered_status (fst (Routes.put_users_profile env req w)) = Some 200.
Proof.
  intros Ha.
  destruct (authenticated_row env req w c Ha) as (u0 & _ & Hin & Hid0 & _ & _).
  assert (Hex : existsb (fun x => (u_id x =? ctx_userId c)%string) (users w) = true).
  { apply existsb_exists. exists u0. split; [exact Hin|]. apply String.eqb_eq. exact Hid0. }
  pose (d := Prisma.mkUpdateUserData (body_name req) None (body_profileImage req) None).
  destruct (update_row_of_found (ctx_userId c) d (users w) Hex)
    as (pre & u & post & Hl & Hid & Hup).
  exists pre, u, post. split; [exact Hl|]. split; [exact Hid|].
  assert (Hroute : exists r,
             Routes.put_users_profile env req w
             = (Ok (mkResponse 200 r),
                set_users (pre ++ Prisma.apply_update d u :: post) w)).
  { unfold Routes.put_users_profile. cbn [run_chain]. unfold bind at 1.
    rewrite (authenticated_passes _ _ _ _ Ha).
    unfold UserController.updateProfile, try_catch, non_null.
    change (user (set_user c req)) with (Some c). cbv iota.
    change (body_name (set_user c req)) with (body_name req).
    change (body_profileImage (set_user c req)) with (body_profileImage req).
    fold d. unfold bind at 1, ret at 1. cbv beta iota.
    unfold bind at 1, UserService.updateUser, bind at 1, Prisma.user_update.
    rewrite Hup. unfold bind at 1. simpl Prisma.upd_role. cbv iota.
    eexists. reflexivity. }
  destruct Hroute as (r & ->). simpl. auto.
Qed.

Lemma profile_update_changes_name_and_image_only_witness :
  answered_status
    (fst (Routes.put_users_profile env0 (with_authorization "Bearer good.jwt" request0)
            world1)) = Some 200.
Proof.
  destruct (profile_update_changes_name_and_image_only env0
              (with_authorization "Bearer good.jwt" request0) world1 ctx_farmer0)
    as (pre & u & post & _ & _ & _ & _ & _ & Hstatus).
  - exact authenticated_request0.
  - exact Hstatus.
Defined.

(** ** Query parameters that fall back *)

Lemma or_num_falls_back (x : Js.Number) (d : Z) :
  x = Js.NaN \/ x = Js.Num 0 -> Js.or_num x d = Js.Num d.
Proof. intros [-> | ->]; reflexivity. Qed.

(** X26: on every listing endpoint a [page] or [limit] query value that
    is absent, not a number or 0 counts as not given: the answer is the
    one to the same request without the two parameters (page 1 and the
    default limit of the endpoint). *)
Theorem unusable_query_values_fall_back l req w :
  Js.parseInt (query_page req) = Js.NaN \/ Js.parseInt (query_page req) = Js.Num 0 ->
  Js.parseInt (query_limit req) = Js.NaN \/ Js.parseInt (query_limit req) = Js.Num 0 ->
  listing_handler l req w = listing_handler l (with_query None None req) w.
Proof.
  intros Hp Hl.
  pose proof (or_num_falls_back _ 1 Hp) as Hp1.
  pose proof (or_num_falls_back _ 20 Hl) as Hl20.
  pose proof (or_num_falls_back _ 10 Hl) as Hl10.
  destruct l; unfold listing_handler.
  - unfold PredictionController.getPredictionHistory. cbv zeta.
    change (user (with_query None None req)) with (user req).
    change (query_page (with_query None None req)) with (@None string).
    change (query_limit (with_query None None req)) with (@None string).
    rewrite Hp1, Hl20. reflexivity.
  - unfold PredictionController.getAllPredictions. cbv zeta.
    change (query_page (with_query None None req)) with (@None string).
    change (query_limit (with_query None None req)) with (@None string).
    rewrite Hp1, Hl20. reflexivity.
  - unfold UserController.getAllUsers. cbv zeta.
    change (query_page (with_query None None req)) with (@None string).
    change (query_limit (with_query None None req)) with (@None string).
    rewrite Hp1, Hl10. reflexivity.
  - unfold UserController.searchUsers. cbv zeta.
    change (query_page (with_query None None req)) with (@None string).
    change (query_limit (with_query None None req)) with (@None string).
    rewrite Hp1, Hl10. reflexivity.
Qed.

Lemma unusable_query_values_fall_back_witness :
  PredictionController.getPredictionHistory
    (with_query (Some "first") (Some "0") (set_user ctx_farmer0 request0)) world2
    = PredictionController.getPredictionHistory
        (with_query None None (with_query (Some "first") (Some "0")
                                 (set_user ctx_farmer0 request0))) world2.
Proof.
  apply (unusable_query_values_fall_back PredictionHistory
           (with_query (Some "first") (Some "0") (set_user ctx_farmer0 request0)) world2).
  - left. reflexivity.
  - right. reflexivity.
Defined.
